(** * rankpvpn: the server registry and rating engine of [rankpvpn.py]

    A shallow embedding of the parts of [rankpvpn.py] that hold, filter,
    sort, rate and print the PrivateVPN server records, together with the
    properties of these functions.

    Conventions of the embedding:
    - a server record is a Python [dict] with string keys: a [gmap string val];
    - a Python [str] is the [string] of its UTF-8 encoding;
    - Python floats (clock readings, rates, ages) are rationals [Q]; the
      difference of two clock readings and the quotient that gives a rate,
      which Python rounds to a float, are operations of a class
      ([FloatArith]); the one NaN of the program (an unknown duration) is a
      constructor of its own;
    - a Python exception is a value of [exn]; a computation that may raise
      returns a [result];
    - list objects live in a heap of locations, because [list.sort] works in
      place on an object that several names may share;
    - what the operating system, the network and the imported libraries
      answer is an explicit argument (a record of outcomes or a class of
      library functions). *)

From Stdlib Require Import Ascii QArith Lqa.
From stdpp Require Import base option list gmap strings sorting.

(* ===================================================================== *)
(** * Part I: definitions *)
(* ===================================================================== *)

(** ** Exceptions and results *)

(** The exception classes the program raises, catches or lets through.
    [OSError] stands for a plain [OSError] (alias [IOError]) with the given
    [errno]; the next six are subclasses of [OSError] in Python 3. *)
Inductive exn : Type :=
| OSError (errno : Z)
| FileNotFoundError
| PermissionError
| URLError
| HTTPError
| SocketTimeout
| HTTPException
| CalledProcessError
| TimeoutExpired
| ZeroDivisionError
| KeyError (key : string)
| ValueError
| TypeError
| AttributeError
| ReError
| ServerStatusError (msg : string).

Inductive result (A : Type) : Type :=
| Ok (a : A)
| Raise (e : exn).
Arguments Ok {A} a.
Arguments Raise {A} e.

Global Instance result_ret : MRet result := fun A a => Ok a.
Global Instance result_bind : MBind result := fun A B k c =>
  match c with
  | Ok a => k a
  | Raise e => Raise e
  end.

(** [try: c except handles: h]: the handler runs for the exceptions of the
    classes named in the [except] clause, the others pass through. *)
Definition try_except {A : Type} (c : result A) (handles : exn -> bool)
    (h : exn -> result A) : result A :=
  match c with
  | Ok a => Ok a
  | Raise e => if handles e then h e else Raise e
  end.

Definition is_ok {A : Type} (c : result A) : bool :=
  match c with Ok _ => true | Raise _ => false end.

(** [isinstance(e, OSError)]; [IOError] is the same class. *)
Definition is_OSError (e : exn) : bool :=
  match e with
  | OSError _ | FileNotFoundError | PermissionError
  | URLError | HTTPError | SocketTimeout => true
  | _ => false
  end.

Definition is_KeyError (e : exn) : bool :=
  match e with KeyError _ => true | _ => false end.

Definition is_ValueError (e : exn) : bool :=
  match e with ValueError => true | _ => false end.

Definition ENOENT : Z := 2.
Definition EACCES : Z := 13.

(** [e.errno] of an [OSError]; [None] for the subclasses that carry none. *)
Definition errno_of (e : exn) : option Z :=
  match e with
  | OSError n => Some n
  | FileNotFoundError => Some ENOENT
  | PermissionError => Some EACCES
  | _ => None
  end.

(** The class name, standing for [str(e)] in messages. *)
Definition exn_str (e : exn) : string :=
  match e with
  | OSError _ => "OSError"
  | FileNotFoundError => "FileNotFoundError"
  | PermissionError => "PermissionError"
  | URLError => "URLError"
  | HTTPError => "HTTPError"
  | SocketTimeout => "timeout"
  | HTTPException => "HTTPException"
  | CalledProcessError => "CalledProcessError"
  | TimeoutExpired => "TimeoutExpired"
  | ZeroDivisionError => "ZeroDivisionError"
  | KeyError k => "KeyError " +:+ k
  | ValueError => "ValueError"
  | TypeError => "TypeError"
  | AttributeError => "AttributeError"
  | ReError => "re.error"
  | ServerStatusError m => m
  end.

(** ** Values and server records *)

(** The values found in a record: text, or a number ([last_sync]). *)
Inductive val : Type :=
| VStr (s : string)
| VNum (q : Q).

(** A server record: a [dict] from field names to values. *)
Abbreviation record := (gmap string val).

(** [m[k]] *)
Definition getitem (m : record) (k : string) : result val :=
  match m !! k with
  | Some v => Ok v
  | None => Raise (KeyError k)
  end.

(** A value used where only [str] has the method ([v.upper()]). *)
Definition str_method (v : val) : result string :=
  match v with
  | VStr s => Ok s
  | VNum _ => Raise AttributeError
  end.

(** A value used where a [str] operand is required ([re.search], [len],
    [url + path]). *)
Definition str_operand (v : val) : result string :=
  match v with
  | VStr s => Ok s
  | VNum _ => Raise TypeError
  end.

(** Truth value of an optional list argument: [None] and [[]] are false. *)
Definition truthy_list {A : Type} (o : option (list A)) : bool :=
  match o with
  | Some (_ :: _) => true
  | _ => false
  end.

Definition Qltb (x y : Q) : bool := negb (Qle_bool y x).

(** Truth value of an optional number: [None] and [0] are false. *)
Definition truthy_num (o : option Q) : bool :=
  match o with
  | Some a => negb (Qeq_bool a 0)
  | None => false
  end.

Definition num_operand (v : val) : result Q :=
  match v with
  | VNum q => Ok q
  | VStr _ => Raise TypeError
  end.

(** ** String methods of [str] used by the parser

    A [string] holds the UTF-8 encoding of a text. *)

Definition newline : ascii := ascii_of_nat 10.

(** [s.replace("\n", empty)] *)
Fixpoint remove_newlines (s : string) : string :=
  match s with
  | EmptyString => EmptyString
  | String a r =>
      if Ascii.eqb a newline then remove_newlines r
      else String a (remove_newlines r)
  end.

(** The string of the bytes [l]. *)
Definition bytes (l : list nat) : string :=
  foldr (fun n s => String (ascii_of_nat n) s) EmptyString l.

(** The characters that [str.isspace] accepts, each in its UTF-8 encoding:
    U+0009 to U+000D, U+001C to U+0020, U+0085, U+00A0, U+1680, U+2000 to
    U+200A, U+2028, U+2029, U+202F, U+205F and U+3000. *)
Definition whitespace : list string :=
  map bytes
    ([[9]; [10]; [11]; [12]; [13]; [28]; [29]; [30]; [31]; [32];
      [194; 133]; [194; 160]; [225; 154; 128]]
     ++ map (fun n => [226; 128; n]) (seq 128 11)
     ++ [[226; 128; 168]; [226; 128; 169]; [226; 128; 175]; [226; 129; 159];
         [227; 128; 128]])%nat.

(** [s] without its prefix [w], when it has this prefix. *)
Fixpoint drop_prefix (w s : string) : option string :=
  match w, s with
  | EmptyString, _ => Some s
  | String a w', String b s' => if Ascii.eqb a b then drop_prefix w' s' else None
  | String _ _, EmptyString => None
  end.

(** [s] without its first character, when that is white space. *)
Definition after_space (s : string) : option string :=
  foldr (fun w found => match drop_prefix w s with
                        | Some r => Some r
                        | None => found
                        end) None whitespace.

Fixpoint lstrip_from (fuel : nat) (s : string) : string :=
  match fuel with
  | O => s
  | S fuel' =>
      match after_space s with
      | Some r => lstrip_from fuel' r
      | None => s
      end
  end.

(** [s.lstrip()] *)
Definition lstrip (s : string) : string := lstrip_from (String.length s) s.

(** [s.rstrip()]: from the first place on after which only white space
    follows, nothing is kept. *)
Fixpoint rstrip (s : string) : string :=
  match s with
  | EmptyString => EmptyString
  | String a r =>
      if String.eqb (lstrip s) EmptyString then EmptyString
      else String a (rstrip r)
  end.

(** [s.strip()] *)
Definition strip (s : string) : string := rstrip (lstrip s).

(** [s.split(sep)] for a one-character separator, as the first field and
    the list of the following ones (the result of [split] is never empty). *)
Fixpoint split_on (sep : ascii) (s : string) : string * list string :=
  match s with
  | EmptyString => (EmptyString, [])
  | String a r =>
      let '(field, fields) := split_on sep r in
      if Ascii.eqb a sep then (EmptyString, field :: fields)
      else (String a field, fields)
  end.

(** ** Country codes: [get_country_code] *)

(** The three look-ups of the [pycountry] database the program makes, each
    followed by [.alpha_2]: [pycountry.countries.get(name=c).alpha_2] and the
    same for [common_name] and [official_name].  What a miss gives depends
    on the version of [pycountry], which the program does not fix: in the
    older versions [get] raises [KeyError]; in the newer ones it returns
    [None], and [.alpha_2] then raises [AttributeError]. *)
Class Pycountry := {
  get_name : string -> result string;
  get_common_name : string -> result string;
  get_official_name : string -> result string
}.

Definition get_country_code `{Pycountry} (country : string) : result string :=
  try_except (get_name country) is_KeyError (fun _ =>
    try_except (get_common_name country) is_KeyError (fun _ =>
      try_except (get_official_name country) is_KeyError (fun _ =>
        if String.eqb country "Russia" then Ok "RU"
        else if String.eqb country "South Korea" then Ok "KR"
        else if String.eqb country "USA" then Ok "US"
        else Ok "ERROR"))).

(** ** The object heap *)

(** Python [list] objects holding records.  A location is the identity of a
    list object; two names bound to the same location are aliases. *)
Abbreviation loc := positive.
Abbreviation heap := (gmap positive (list (gmap string val))).

(** The content of a list object. *)
Definition deref (h : heap) (l : loc) : list record := default [] (h !! l).

(** A new list object. *)
Definition alloc (h : heap) (items : list record) : loc * heap :=
  let l := fresh (dom h) in (l, <[l := items]> h).

(** ** Snapshots: [get_server_data] *)

(** The [dict] returned by [get_server_data] (and kept in [self.json_obj]);
    [servers] is the list object under the key ['servers']. *)
Record snapshot : Type := {
  title : string;
  version : Z;
  headers : list string;
  last_check : string;
  total : nat;
  servers : loc
}.

(** A [dict] that [self.json_obj] can be bound to: the [{}] of [__init__],
    or the dict of a snapshot.  The Python value [None] is the [None] of
    [option json_dict]. *)
Inductive json_dict : Type :=
| EmptyDict
| SnapshotDict (s : snapshot).

(** A snapshot stands for its dict where a dict is expected, also under
    [Some]: [Some s] is [Some (SnapshotDict s)] where a value of
    [self.json_obj] is expected. *)
Coercion SnapshotDict : snapshot >-> json_dict.
Arguments Some {A} & a.

(** The truth value of [self.json_obj]: [None] and [{}] are false. *)
Definition truthy_json (o : option json_dict) : bool :=
  match o with
  | Some (SnapshotDict _) => true
  | _ => false
  end.

(** What BeautifulSoup finds in the page for the queries the program makes:
    [thead] is the text of each [th] under [table.find("thead")] ([None]
    when the table has no [thead]); [trs] has one entry per element of
    [table.find_all("tr")], in document order, with the text of each of its
    [td] cells. *)
Record html_table : Type := {
  thead : option (list string);
  trs : list (list string)
}.

(** [soup.find('table', class_='table-deluxe')], [None] when absent. *)
Abbreviation page := (option html_table).

Definition cell (tds : list string) (i : nat) : string :=
  strip (remove_newlines (nth i tds "")).

(** The body of the loop over the rows: the record appended for a row with
    exactly six cells, nothing for any other row. *)
Definition parse_row `{Pycountry} (tds : list string) : result (list record) :=
  if Nat.eqb (length tds) 6 then
    let '(tmp0, tmp_rest) := split_on "-" (remove_newlines (nth 0 tds "")) in
    let country := strip tmp0 in
    let city := match tmp_rest with tmp1 :: _ => strip tmp1 | [] => "" end in
    code ← get_country_code country;
    Ok [ <["country" := VStr country]> (
         <["country_code" := VStr code]> (
         <["city" := VStr city]> (
         <["url" := VStr (cell tds 1)]> (
         <["port_tap" := VStr (cell tds 2)]> (
         <["port_tun" := VStr (cell tds 3)]> (
         <["proxy_socks" := VStr (cell tds 4)]> (
         <["proxy_http" := VStr (cell tds 5)]> ∅))))))) ]
  else Ok [].

Fixpoint parse_rows `{Pycountry} (rows : list (list string)) : result (list record) :=
  match rows with
  | [] => Ok []
  | tds :: rest =>
      r ← parse_row tds;
      rs ← parse_rows rest;
      Ok (r ++ rs)
  end.

(** [get_server_data()].  [opened] is what opening and parsing
    [serverlist.htm] gives, [utcnow] the text of [datetime.utcnow()]. *)
Definition get_server_data `{Pycountry} (opened : result page) (utcnow : string)
    (h : heap) : result (snapshot * heap) :=
  soup ← opened;
  table ← match soup with Some t => Ok t | None => Raise AttributeError end;
  header ← match thead table with Some ths => Ok ths | None => Raise AttributeError end;
  let headers := map remove_newlines header in
  let rows := trs table in
  data ← parse_rows rows;
  let '(l, h') := alloc h data in
  Ok ({| title := "PrivateVPN Server list";
         version := 1;
         headers := headers;
         last_check := utcnow;
         total := length rows;
         servers := l |}, h').

(** ** The cache file and the environment of one retrieval *)

(** The JSON document of a snapshot, as written to and read from the cache
    file: the fields of the [dict] with the records of the server list. *)
Record json_doc : Type := {
  doc_title : string;
  doc_version : Z;
  doc_headers : list string;
  doc_last_check : string;
  doc_total : nat;
  doc_servers : list record
}.

(** [json.JSONEncoder().encode(obj)] *)
Definition encode (s : snapshot) (h : heap) : json_doc :=
  {| doc_title := title s; doc_version := version s; doc_headers := headers s;
     doc_last_check := last_check s; doc_total := total s;
     doc_servers := deref h (servers s) |}.

(** [json.load(f)] of a snapshot document: new objects. *)
Definition load_doc (d : json_doc) (h : heap) : snapshot * heap :=
  let '(l, h') := alloc h (doc_servers d) in
  ({| title := doc_title d; version := doc_version d; headers := doc_headers d;
      last_check := doc_last_check d; total := doc_total d; servers := l |}, h').

(** What the file system, the clock and the page source answer during one
    call of [retrieve], in the order of the calls:
    [os.path.getmtime(cache_file)]; [time.time()] of the staleness test;
    [open(cache_file)] with [json.load] ([None]: the file holds [null],
    and [json.load] returns [None]); the page and UTC time of the first and of the second call
    of [get_server_data]; [time.time()] after the fetch; and
    [open(cache_file, 'w')] with [f.write] ([None]: written). *)
Record retrieve_env : Type := {
  getmtime : result Q;
  time_check : Q;
  load_cache : result (option json_doc);
  page1 : result page;
  utcnow1 : string;
  page2 : result page;
  utcnow2 : string;
  time_fetch : Q;
  write_cache : json_doc -> option exn
}.

(** ** The class [ServerStatus] *)

Module ServerStatus.

(** The attributes set by [__init__].  [json_obj] is [None], the empty
    dict, or the dict of a snapshot. *)
Record t : Type := {
  refresh_interval : Q;
  json_mtime : Q;
  json_obj : option json_dict;
  verbose : bool;
  connection_timeout : Q;
  cache_timeout : Q;
  min_completion_pct : Q;
  threads : option Z
}.

Definition init (refresh_interval : Q) (verbose : bool) (connection_timeout : Q)
    (cache_timeout : Q) (min_completion_pct : Q) (threads : option Z) : t :=
  {| refresh_interval := refresh_interval; json_mtime := 0;
     json_obj := Some EmptyDict;
     verbose := verbose; connection_timeout := connection_timeout;
     cache_timeout := cache_timeout; min_completion_pct := min_completion_pct;
     threads := threads |}.

Definition set_json_obj (self : t) (o : option json_dict) : t :=
  {| refresh_interval := refresh_interval self; json_mtime := json_mtime self;
     json_obj := o; verbose := verbose self;
     connection_timeout := connection_timeout self;
     cache_timeout := cache_timeout self;
     min_completion_pct := min_completion_pct self; threads := threads self |}.

Definition set_json_mtime (self : t) (m : Q) : t :=
  {| refresh_interval := refresh_interval self; json_mtime := m;
     json_obj := json_obj self; verbose := verbose self;
     connection_timeout := connection_timeout self;
     cache_timeout := cache_timeout self;
     min_completion_pct := min_completion_pct self; threads := threads self |}.

(** The state a method leaves behind, also when it raises. *)
Record world : Type := World { w_self : t; w_heap : heap }.

(** First part of [retrieve]: the cache.  The result is [save_json]. *)
Definition retrieve_cache (env : retrieve_env) (self : t) (h : heap)
    : result bool * world :=
  if Qltb 0 (cache_timeout self) then
    match getmtime env with
    | Ok mtime =>
        if Qltb (time_check env - mtime) (cache_timeout self) then
          match load_cache env with
          | Ok (Some d) =>
              let '(s, h') := load_doc d h in
              (Ok false, World (set_json_mtime (set_json_obj self (Some s)) mtime) h')
          | Ok None =>
              (Ok false, World (set_json_mtime (set_json_obj self None) mtime) h)
          | Raise e =>
              if is_OSError e then
                (Raise (ServerStatusError
                          ("failed to load cached JSON data (" +:+ exn_str e +:+ ")")),
                 World self h)
              else (Raise e, World self h)
          end
        else (Ok true, World self h)
    | Raise e =>
        if is_OSError e then
          if bool_decide (errno_of e = Some ENOENT) then (Ok true, World self h)
          else (Raise (ServerStatusError
                         ("failed to get cache file mtime (" +:+ exn_str e +:+ ")")),
                World self h)
        else (Raise e, World self h)
    end
  else (Ok false, World self h).

Definition is_URLError_or_timeout (e : exn) : bool :=
  match e with URLError | HTTPError | SocketTimeout => true | _ => false end.

(** Second part: the fetch, when no object was loaded.  The result is
    [json_str]. *)
Definition retrieve_fetch `{Pycountry} (env : retrieve_env) (self : t) (h : heap)
    : result (option json_doc) * world :=
  if truthy_json (json_obj self) then (Ok None, World self h)
  else
    match get_server_data (page1 env) (utcnow1 env) h with
    | Ok (s1, h1) =>
        let json_str := encode s1 h1 in
        match get_server_data (page2 env) (utcnow2 env) h1 with
        | Ok (s2, h2) =>
            (Ok (Some json_str),
             World (set_json_mtime (set_json_obj self (Some s2)) (time_fetch env)) h2)
        | Raise e =>
            (if is_URLError_or_timeout e then
               Raise (ServerStatusError
                        ("failed to retrieve server data: (" +:+ exn_str e +:+ ")"))
             else if is_ValueError e then
               Raise (ServerStatusError
                        ("failed to parse retrieved server data: (" +:+ exn_str e +:+ ")"))
             else Raise e, World self h1)
        end
    | Raise e =>
        (if is_URLError_or_timeout e then
           Raise (ServerStatusError
                    ("failed to retrieve server data: (" +:+ exn_str e +:+ ")"))
         else if is_ValueError e then
           Raise (ServerStatusError
                    ("failed to parse retrieved server data: (" +:+ exn_str e +:+ ")"))
         else Raise e, World self h)
    end.

(** Last part: the cache file is written when [save_json and json_str]. *)
Definition retrieve_save (env : retrieve_env) (save_json : bool)
    (json_str : option json_doc) : result unit :=
  match save_json, json_str with
  | true, Some d =>
      match write_cache env d with
      | None => Ok tt
      | Some e =>
          if is_OSError e then
            Raise (ServerStatusError
                     ("failed to cache JSON data (" +:+ exn_str e +:+ ")"))
          else Raise e
      end
  | _, _ => Ok tt
  end.

(** [self.retrieve()].  The [try] statement between the fetch and the
    save only binds a local name and is left out. *)
Definition retrieve `{Pycountry} (env : retrieve_env) (self : t) (h : heap)
    : result unit * world :=
  let self0 := set_json_obj self None in
  match retrieve_cache env self0 h with
  | (Raise e, w) => (Raise e, w)
  | (Ok save_json, World self1 h1) =>
      match retrieve_fetch env self1 h1 with
      | (Raise e, w) => (Raise e, w)
      | (Ok json_str, w) => (retrieve_save env save_json json_str, w)
      end
  end.

(** [self.get_obj()]; [now] is the reading of [time.time()]. *)
Definition get_obj `{Pycountry} (env : retrieve_env) (now : Q) (self : t) (h : heap)
    : result (option json_dict) * world :=
  if negb (truthy_json (json_obj self))
     || Qltb (json_mtime self + refresh_interval self) now
  then
    match retrieve env self h with
    | (Ok _, w) => (Ok (json_obj (w_self w)), w)
    | (Raise e, w) => (Raise e, w)
    end
  else (Ok (json_obj self), World self h).

(** [self.get_mirrors()]: the list object of the snapshot itself. *)
Definition get_mirrors `{Pycountry} (env : retrieve_env) (now : Q) (self : t)
    (h : heap) : result loc * world :=
  match get_obj env now self h with
  | (Ok (Some (SnapshotDict s)), w) => (Ok (servers s), w)
  | (Ok (Some EmptyDict), w) => (Raise (KeyError "servers"), w)
  | (Ok None, w) => (Raise TypeError, w)
  | (Raise e, w) => (Raise e, w)
  end.


(** *** [filter] *)

(** [str.upper] and [format] of a number. *)
Class StrLib := {
  upper : string -> string;
  format_num : Q -> string
}.

(** [re.search(pattern, value)] as a truth value. *)
Class Re := {
  re_search : string -> val -> result bool
}.

(** The keyword arguments of [filter]. *)
Record criteria : Type := {
  countries : option (list string);
  include : option (list string);
  exclude : option (list string);
  age : option Q;
  protocols : option (list string)
}.

(** [uc_countries] *)
Definition uc_countries `{StrLib} (crit : criteria) : list string :=
  if truthy_list (countries crit) then map upper (default [] (countries crit))
  else [].

(** [v in strings] *)
Definition val_in (v : val) (l : list string) : bool :=
  match v with
  | VStr s => bool_decide (s ∈ l)
  | VNum _ => false
  end.

(** Filter by country: [false] is [continue]. *)
Definition country_passes `{StrLib} (crit : criteria) (mirror : record)
    : result bool :=
  if truthy_list (countries crit) then
    c ← getitem mirror "country";
    cs ← str_method c;
    if bool_decide (upper cs ∈ uc_countries crit) then Ok true
    else
      cc ← getitem mirror "country_code";
      ccs ← str_method cc;
      Ok (bool_decide (upper ccs ∈ uc_countries crit))
  else Ok true.

(** Filter by protocol. *)
Definition protocol_passes (crit : criteria) (mirror : record) : result bool :=
  if truthy_list (protocols crit) then
    p ← getitem mirror "protocol";
    Ok (val_in p (default [] (protocols crit)))
  else Ok true.

(** The loop over the patterns: does one of them match the url? *)
Fixpoint search_any `{Re} (regexes : list string) (mirror : record) : result bool :=
  match regexes with
  | [] => Ok false
  | regex :: rest =>
      u ← getitem mirror "url";
      b ← re_search regex u;
      if b : bool then Ok true else search_any rest mirror
  end.

Definition include_passes `{Re} (crit : criteria) (mirror : record) : result bool :=
  if truthy_list (include crit) then search_any (default [] (include crit)) mirror
  else Ok true.

Definition exclude_passes `{Re} (crit : criteria) (mirror : record) : result bool :=
  if truthy_list (exclude crit) then
    discard ← search_any (default [] (exclude crit)) mirror;
    Ok (negb discard)
  else Ok true.

(** Filter by hours since last sync; [t] is the reading of [time.time()]. *)
Definition age_passes (t : Q) (crit : criteria) (mirror : record) : result bool :=
  if truthy_num (age crit) then
    ls ← getitem mirror "last_sync";
    n ← num_operand ls;
    Ok (negb (Qltb (default 0 (age crit) * 3600 + n)%Q t))
  else Ok true.

Definition and_then (c k : result bool) : result bool :=
  b ← c; if b : bool then k else Ok false.

(** One turn of the loop of [filter]: [Ok true] reaches [yield mirror],
    [Ok false] is a [continue]. *)
Definition passes `{StrLib} `{Re} (t : Q) (crit : criteria) (mirror : record)
    : result bool :=
  and_then (country_passes crit mirror)
 (and_then (protocol_passes crit mirror)
 (and_then (include_passes crit mirror)
 (and_then (exclude_passes crit mirror)
           (age_passes t crit mirror)))).

(** The generator object a call of [filter] returns: the list it reads and
    how far it has read, the arguments, the local [t] once the body has
    started, and whether the body has ended (by running off its end or by an
    exception). *)
Record generator : Type := {
  gen_mirrors : loc;
  gen_crit : criteria;
  gen_t : option Q;
  gen_pos : nat;
  gen_finished : bool
}.

(** [self.filter(mirrors, ...)] with a list object for [mirrors]: calling a
    generator function runs none of its body. *)
Definition filter (mirrors : loc) (crit : criteria) : generator :=
  {| gen_mirrors := mirrors; gen_crit := crit; gen_t := None; gen_pos := 0;
     gen_finished := false |}.

(** What one [next(g)] gives. *)
Inductive step : Type :=
| Yield (mirror : record)
| StopIteration
| Raised (e : exn).

(** The body runs on from the element at [pos] to the next [yield], to an
    exception, or off the end of the list. *)
Fixpoint advance `{StrLib} `{Re} (t : Q) (crit : criteria) (rest : list record)
    (pos : nat) : step * nat :=
  match rest with
  | [] => (StopIteration, pos)
  | mirror :: rest' =>
      match passes t crit mirror with
      | Ok true => (Yield mirror, S pos)
      | Ok false => advance t crit rest' (S pos)
      | Raise e => (Raised e, S pos)
      end
  end.

(** [next(g)]; [now] is what [time.time()] reads if the body starts now. *)
Definition next `{StrLib} `{Re} (h : heap) (now : Q) (g : generator)
    : step * generator :=
  if gen_finished g then (StopIteration, g)
  else
    let t := default now (gen_t g) in
    match advance t (gen_crit g) (drop (gen_pos g) (deref h (gen_mirrors g)))
            (gen_pos g) with
    | (Yield mirror, pos) =>
        (Yield mirror,
         {| gen_mirrors := gen_mirrors g; gen_crit := gen_crit g;
            gen_t := Some t; gen_pos := pos; gen_finished := false |})
    | (r, pos) =>
        (r,
         {| gen_mirrors := gen_mirrors g; gen_crit := gen_crit g;
            gen_t := Some t; gen_pos := pos; gen_finished := true |})
    end.

(** [for mirror in g] run to its end: the records received, the exception
    that ended the loop if one did, and the generator afterwards.  [None]
    when [fuel] calls of [next] did not reach the end. *)
Fixpoint iterate `{StrLib} `{Re} (fuel : nat) (h : heap) (now : Q) (g : generator)
    : option (list record * option exn * generator) :=
  match fuel with
  | O => None
  | S fuel' =>
      match next h now g with
      | (Yield mirror, g') =>
          match iterate fuel' h now g' with
          | Some (ms, e, g'') => Some (mirror :: ms, e, g'')
          | None => None
          end
      | (StopIteration, g') => Some ([], None, g')
      | (Raised e, g') => Some ([], Some e, g')
      end
  end.

(** The records the loop of [filter] yields over [items], and the exception
    that ends it, if any. *)
Fixpoint run `{StrLib} `{Re} (t : Q) (crit : criteria) (items : list record)
    : list record * option exn :=
  match items with
  | [] => ([], None)
  | mirror :: rest =>
      match passes t crit mirror with
      | Ok true => let '(ms, e) := run t crit rest in (mirror :: ms, e)
      | Ok false => run t crit rest
      | Raise e => ([], Some e)
      end
  end.

(** An argument that may be a list object or a generator. *)
Inductive iterable : Type :=
| PyList (l : loc)
| PyGen (g : generator).

(** The records an iterable gives when it is read to its end, with the
    exception that stops the reading, if any. *)
Definition read_all `{StrLib} `{Re} (h : heap) (now : Q) (mirrors : iterable)
    : list record * option exn :=
  match mirrors with
  | PyList l => (deref h l, None)
  | PyGen g =>
      if gen_finished g then ([], None)
      else run (default now (gen_t g)) (gen_crit g)
             (drop (gen_pos g) (deref h (gen_mirrors g)))
  end.

(** [if not isinstance(mirrors, list): mirrors = list(mirrors)] *)
Definition as_list `{StrLib} `{Re} (h : heap) (now : Q) (mirrors : iterable)
    : result (loc * heap) :=
  match mirrors with
  | PyList l => Ok (l, h)
  | PyGen g =>
      match read_all h now mirrors with
      | (items, None) => Ok (alloc h items)
      | (_, Some e) => Raise e
      end
  end.

(** *** [rate] *)

(** A Python float that may be NaN. *)
Inductive pyfloat : Type :=
| NaN
| Float (q : Q).

(** [list.sort] is stable.  [insert_by skip x l] puts [x], which stood
    before every element of [l], into the sorted [l]: behind the elements
    that must come strictly before it, and before its equals. *)
Fixpoint insert_by {A : Type} (skip : A -> A -> bool) (x : A) (l : list A) : list A :=
  match l with
  | [] => [x]
  | y :: l' => if skip y x then y :: insert_by skip x l' else x :: y :: l'
  end.

Definition stable_sort {A : Type} (skip : A -> A -> bool) (l : list A) : list A :=
  foldr (insert_by skip) [] l.

(** [items.sort(key=..., reverse=True)] for numeric keys. *)
Definition sort_desc {A : Type} (key : A -> Q) (l : list A) : list A :=
  stable_sort (fun y x => Qltb (key x) (key y)) l.

(** How a call that waits on the worker threads can end. *)
Inductive outcome (A : Type) : Type :=
| Returns (a : A)
| Raises (e : exn)
| Blocks.
Arguments Returns {A} a.
Arguments Raises {A} e.
Arguments Blocks {A}.

Definition of_result {A : Type} (r : result A) : outcome A :=
  match r with Ok a => Returns a | Raise e => Raises e end.

(** [mirror['url']] where a [str] is needed ([len], queue item, key). *)
Definition url_of (mirror : record) : result string :=
  u ← getitem mirror "url"; str_operand u.

(** The loop that drains [q_out]: [rates[url] = rate] for each tuple. *)
Definition collect_rates (results : list (string * Q * pyfloat)) : gmap string Q :=
  foldl (fun rates r => <[r.1.1 := r.1.2]> rates) ∅ results.

(** [rates[m['url']]] *)
Definition rate_of (rates : gmap string Q) (mirror : record) : result Q :=
  u ← url_of mirror;
  match rates !! u with
  | Some r => Ok r
  | None => Raise (KeyError u)
  end.

(** [[m for m in mirrors if test(rates[m['url']])]], with the rate found. *)
Fixpoint select (rates : gmap string Q) (test : Q -> bool) (items : list record)
    : result (list (Q * record)) :=
  match items with
  | [] => Ok []
  | m :: rest =>
      r ← rate_of rates m;
      ms ← select rates test rest;
      Ok (if test r then (r, m) :: ms else ms)
  end.

(** The end of [rate]: the records with a positive rate, sorted by rate,
    largest first, then those with rate 0. *)
Definition rank (rates : gmap string Q) (items : list record) : result (list record) :=
  rated_mirrors ← select rates (fun r => Qltb 0 r) items;
  unrated ← select rates (fun r => Qeq_bool r 0) items;
  Ok ((sort_desc fst rated_mirrors).*2 ++ unrated.*2).

(** [self.rate(mirrors, threads)].  [q_out] holds the tuples the workers
    have put on the result queue, in the order they arrived; a worker that
    dies puts nothing, and [rate] then waits for ever. *)
Definition rate `{StrLib} `{Re} (q_out : list (string * Q * pyfloat)) (self : t)
    (threads : Z) (h : heap) (now : Q) (mirrors : iterable) : outcome (loc * heap) :=
  let threads := if Z.eqb threads 0 then ServerStatus.threads self else Some threads in
  match as_list h now mirrors with
  | Raise e => Raises e
  | Ok (l, h1) =>
      let items := deref h1 l in
      match items with
      | [] => Returns (l, h1)
      | _ :: _ =>
          match threads with
          | None => Raises TypeError
          | Some _ =>
              match mapM url_of items with
              | Raise e => Raises e
              | Ok urls =>
                  if Nat.ltb (length q_out) (length items) then Blocks
                  else
                    let rates := collect_rates (take (length items) q_out) in
                    match rank rates items with
                    | Raise e => Raises e
                    | Ok ranked => Returns (alloc h1 ranked)
                    end
              end
          end
      end
  end.

(** *** The body of a worker of [rate] *)

(** [urllib.parse.urlparse(url).scheme] ([urlparse] raises [ValueError]
    for a url whose host part is malformed), and what
    [urllib.request.Request(url=u)] raises: it raises [ValueError] for a
    url in which it finds no scheme ([None]: it returns the request). *)
Class UrlParse := {
  scheme : string -> result string;
  request : string -> option exn
}.

(** Arithmetic of floats: [x - y] for two floats and [n / y] for an
    integer and a float, each rounded to a float. *)
Class FloatArith := {
  fsub : Q -> Q -> Q;
  fdiv : Q -> Q -> Q
}.

(** What the network and the system answer to the calls of one turn of a
    worker: [ping] ([MultiPing([url])] and [mp.send()]), [tmpdir]
    ([tempfile.TemporaryDirectory()], rsync only), [clock0] and [clock1]
    (the two readings of [time.time()]), [call] ([subprocess.check_call]
    for rsync, [urlopen] otherwise) and [size] ([os.path.getsize] for rsync,
    [len(f.read())] otherwise).  [None] means that the call did not raise. *)
Record probe_env : Type := {
  ping : option exn;
  tmpdir : option exn;
  clock0 : Q;
  call : option exn;
  size : result N;
  clock1 : Q
}.

Definition rsync_handles (e : exn) : bool :=
  match e with
  | CalledProcessError | TimeoutExpired | FileNotFoundError => true
  | _ => false
  end.

Definition http_handles (e : exn) : bool :=
  is_OSError e || match e with HTTPException => true | _ => false end.

(** [except handled: pass]: the values of [rate] and [dt] at that point stay. *)
Definition pass_if (handles : exn -> bool) (e : exn) (rate : Q) (dt : pyfloat)
    : result (Q * pyfloat) :=
  if handles e then Ok (rate, dt) else Raise e.

(** [size / dt] *)
Definition divide `{FloatArith} (size : N) (dt : Q) : result Q :=
  if Qeq_bool dt 0 then Raise ZeroDivisionError
  else Ok (fdiv (inject_Z (Z.of_N size)) dt).

(** The [try] statement of the rsync branch: the final [rate] and [dt]. *)
Definition probe_rsync `{FloatArith} (env : probe_env) : result (Q * pyfloat) :=
  match tmpdir env with
  | Some e => pass_if rsync_handles e 0 NaN
  | None =>
      match call env with
      | Some e => pass_if rsync_handles e 0 NaN
      | None =>
          let dt := fsub (clock1 env) (clock0 env) in
          match size env with
          | Raise e => pass_if rsync_handles e 0 (Float dt)
          | Ok n =>
              match divide n dt with
              | Raise e => pass_if rsync_handles e 0 (Float dt)
              | Ok r => Ok (r, Float dt)
              end
          end
      end
  end.

(** The [try] statement of the other branch. *)
Definition probe_http `{FloatArith} (env : probe_env) : result (Q * pyfloat) :=
  match call env with
  | Some e => pass_if http_handles e 0 NaN
  | None =>
      match size env with
      | Raise e => pass_if http_handles e 0 NaN
      | Ok n =>
          let dt := fsub (clock1 env) (clock0 env) in
          match divide n dt with
          | Raise e => pass_if http_handles e 0 (Float dt)
          | Ok r => Ok (r, Float dt)
          end
      end
  end.

Definition db_subpath : string := "core/os/x86_64/core.db".

(** One turn of the loop of [worker] for the url taken from [q_in]: the
    tuple put on [q_out], or the exception that ends the thread.  In the
    branch for the other schemes the request is made before the [try]
    statement: what [Request] raises is not caught. *)
Definition worker `{UrlParse} `{FloatArith} (env : probe_env) (url : string)
    : result (string * Q * pyfloat) :=
  match ping env with
  | Some e => Raise e
  | None =>
      let db_url := url +:+ db_subpath in
      scheme ← scheme url;
      '(rate, dt) ← (if String.eqb scheme "rsync" then probe_rsync env
                     else
                       match request db_url with
                       | Some e => Raise e
                       | None => probe_http env
                       end);
      Ok (url, rate, dt)
  end.

(** *** [sort] *)

(** [a < b] on the values of a key; values of different types do not
    compare (see [homogeneous]). *)
Definition val_ltb (a b : val) : bool :=
  match a, b with
  | VStr x, VStr y => String.ltb x y
  | VNum x, VNum y => Qltb x y
  | _, _ => false
  end.

Definition same_type (a b : val) : bool :=
  match a, b with
  | VStr _, VStr _ | VNum _, VNum _ => true
  | _, _ => false
  end.

(** Keys that [list.sort] can compare with each other. *)
Definition homogeneous (keys : list val) : bool :=
  match keys with
  | [] => true
  | k :: rest => forallb (same_type k) rest
  end.

(** The new content of a list after [l.sort(key=lambda m: m[key],
    reverse=reverse)]: the keys are computed first ([KeyError]), then
    compared ([TypeError] for a [str] against a number). *)
Definition sort_by_key (reverse : bool) (key : string) (items : list record)
    : result (list record) :=
  keys ← mapM (fun m => getitem m key) items;
  if homogeneous keys then
    Ok (stable_sort
          (fun y x => if reverse then val_ltb x.1 y.1 else val_ltb y.1 x.1)
          (zip keys items)).*2
  else Raise TypeError.

(** [l.sort(key=lambda m: m[key], reverse=reverse)] on the list object
    [l]: the object gets the sorted content. *)
Definition sort_in_place (reverse : bool) (key : string) (l : loc) (h : heap)
    : outcome (loc * heap) :=
  of_result (items ← sort_by_key reverse key (deref h l);
             Ok (l, <[l := items]> h)).

(** [self.sort(mirrors, by)].  The list object is sorted in place; only
    [by='rate'] makes a new list. *)
Definition sort `{StrLib} `{Re} (q_out : list (string * Q * pyfloat)) (self : t)
    (h : heap) (now : Q) (mirrors : iterable) (by_ : option string)
    : outcome (loc * heap) :=
  match as_list h now mirrors with
  | Raise e => Raises e
  | Ok (l, h1) =>
      match by_ with
      | None => Returns (l, h1)
      | Some key =>
          if String.eqb key "age" then sort_in_place true "last_sync" l h1
          else if String.eqb key "rate" then
            rate q_out self 5 h1 now (PyList l)
          else if bool_decide (key ∈ ["country"; "country_code"; "delay"; "score"]) then
            sort_in_place false key l h1
          else Returns (l, h1)
      end
  end.

(** *** [get_mirrorlist] *)

(** [datetime.strptime(s, fmt).timetuple()] ([ValueError] when [s] does not
    match), [time.strftime(fmt, t)] and [time.gmtime(seconds)]. *)
Class TimeLib := {
  struct_time : Type;
  strptime : string -> string -> result struct_time;
  strftime : string -> struct_time -> string;
  gmtime : Q -> struct_time
}.

(** [pipes.quote] *)
Class Pipes := {
  quote : string -> string
}.

Definition nl : string := String newline EmptyString.

Fixpoint str_repeat (a : ascii) (n : nat) : string :=
  match n with
  | O => EmptyString
  | S n' => String a (str_repeat a n')
  end.

(** [s.center(width, fill)] *)
Definition center (s : string) (width : nat) (fill : ascii) : string :=
  let len := String.length s in
  if Nat.leb width len then s
  else
    let pad := (width - len)%nat in
    let left := (pad / 2 + (pad mod 2) * (width mod 2))%nat in
    str_repeat fill left +:+ s +:+ str_repeat fill (pad - left).

(** [format(s, '<11s')] and the like *)
Definition ljust (s : string) (width : nat) : string :=
  s +:+ str_repeat " " (width - String.length s).

(** [sep.join(l)] *)
Fixpoint join (sep : string) (l : list string) : string :=
  match l with
  | [] => EmptyString
  | [s] => s
  | s :: rest => s +:+ sep +:+ join sep rest
  end.

Definition URL : string := "https://privatevpn.com/serverlist".
Definition DISPLAY_TIME_FORMAT : string := "%Y-%m-%d %H:%M:%S UTC".
Definition PARSE_TIME_FORMAT : string := "%Y-%m-%dT%H:%M:%SZ".
Definition PARSE_TIME_FORMAT_WITH_USEC : string := "%Y-%m-%d %H:%M:%S.%f".

Definition display_time `{TimeLib} (t : struct_time) : string :=
  strftime DISPLAY_TIME_FORMAT t.

(** [MIRRORLIST_ENTRY_FORMAT.format(v)] and [format] of a value in general *)
Definition format_val `{StrLib} (v : val) : string :=
  match v with
  | VStr s => s
  | VNum q => format_num q
  end.

Definition MIRRORLIST_ENTRY `{StrLib} (url : val) : string :=
  "Server = " +:+ format_val url +:+ nl.

(** The head of the list: everything [get_mirrorlist] puts into
    [mirrorlist] before its loop.  [self.json_obj['last_check']] raises
    when no snapshot has been retrieved: [KeyError] on the [{}] of a new
    object, [TypeError] on [None]. *)
Definition banner `{TimeLib} `{Pipes} (now : Q) (self : t) (cmd : option (list string))
    : result string :=
  let cmd := match cmd with
             | None => "?"
             | Some args => "reflector " +:+ join " " (map quote args)
             end in
  last_check ← match json_obj self with
               | Some (SnapshotDict s) => Ok (last_check s)
               | Some EmptyDict => Raise (KeyError "last_check")
               | None => Raise TypeError
               end;
  parsed_last_check ←
    try_except (strptime last_check PARSE_TIME_FORMAT_WITH_USEC) is_ValueError
      (fun _ => strptime last_check PARSE_TIME_FORMAT);
  let header := center "# PrivateVPN server list #" 80 "#" in
  let border := str_repeat "#" (String.length header) in
  Ok (border +:+ nl +:+ header +:+ nl +:+ border +:+ nl +:+ nl +:+
      join nl (map (fun kv => "# " +:+ ljust kv.1 11 +:+ " " +:+ kv.2)
                 [("With:", cmd);
                  ("When:", display_time (gmtime now));
                  ("From:", URL);
                  ("Retrieved:", display_time (gmtime (json_mtime self)));
                  ("Last Check:", display_time parsed_last_check)]) +:+
      nl +:+ nl).

(** The country tag put before an entry when [include_country] is set, and
    the new value of [country]. *)
Definition country_tag `{StrLib} (include_country : bool) (country : option string)
    (mirror : record) : result (string * option string) :=
  if include_country then
    c0 ← getitem mirror "country";
    c1 ← getitem mirror "country_code";
    let c := format_val c0 +:+ " [" +:+ format_val c1 +:+ "]" in
    if bool_decide (Some c = country) then Ok (EmptyString, country)
    else
      let sep := match country with
                 | Some (String _ _) => nl
                 | _ => EmptyString
                 end in
      Ok (sep +:+ "# " +:+ c +:+ nl, Some c)
  else Ok (EmptyString, country).

(** The text the loop of [get_mirrorlist] adds for [items]. *)
Fixpoint entries `{StrLib} (include_country : bool) (country : option string)
    (items : list record) : result string :=
  match items with
  | [] => Ok EmptyString
  | mirror :: rest =>
      '(tag, country') ← country_tag include_country country mirror;
      u ← getitem mirror "url";
      more ← entries include_country country' rest;
      Ok (tag +:+ MIRRORLIST_ENTRY u +:+ more)
  end.

(** [self.get_mirrorlist(mirrors, include_country, cmd)]; [now] is the
    reading of the clock. *)
Definition get_mirrorlist `{StrLib} `{Re} `{TimeLib} `{Pipes} (now : Q) (self : t)
    (h : heap) (mirrors : iterable) (include_country : bool)
    (cmd : option (list string)) : result (option string) :=
  head ← banner now self cmd;
  let '(items, stopped) := read_all h now mirrors in
  body ← entries include_country None items;
  match stopped with
  | Some e => Raise e
  | None =>
      match items with
      | [] => Ok None
      | _ :: _ => Ok (Some (head +:+ body))
      end
  end.

(** The first statement of [filter], [sort], [rate] and [get_mirrorlist]:
    [if mirrors is None: mirrors = self.get_mirrors()].  The definitions
    above take the argument after this step. *)
Definition default_mirrors `{Pycountry} (env : retrieve_env) (now : Q) (self : t)
    (h : heap) (mirrors : option iterable) : result iterable * world :=
  match mirrors with
  | Some it => (Ok it, World self h)
  | None =>
      match get_mirrors env now self h with
      | (Ok l, w) => (Ok (PyList l), w)
      | (Raise e, w) => (Raise e, w)
      end
  end.

End ServerStatus.

(** ** Predicates used in the statements *)

(** The url of a record that has one. *)
Definition the_url (m : record) : string :=
  match m !! "url" with
  | Some (VStr u) => u
  | _ => EmptyString
  end.

Definition has_url (m : record) : Prop :=
  exists u, m !! "url" = Some (VStr u).

(** A look-up that answers a miss with [KeyError] and nothing else. *)
Definition miss_is_KeyError (f : string -> result string) : Prop :=
  forall c e, f c = Raise e -> is_KeyError e = true.

(** A look-up whose codes are never empty. *)
Definition codes_nonempty (f : string -> result string) : Prop :=
  forall c a, f c = Ok a -> a <> EmptyString.

(** The cache is enabled and gives nothing: there is no cache file, or it is
    as old as the timeout or older. *)
Definition cache_miss (env : retrieve_env) (self : ServerStatus.t) : Prop :=
  (0 < ServerStatus.cache_timeout self)%Q /\
  ((exists e, getmtime env = Raise e /\ is_OSError e = true /\
              errno_of e = Some ENOENT) \/
   (exists mtime, getmtime env = Ok mtime /\
                  (ServerStatus.cache_timeout self <= time_check env - mtime)%Q)).



(** The keys for which [sort] sorts the list object it is given. *)
Definition in_place_keys : list string :=
  ["age"; "country"; "country_code"; "delay"; "score"].

(** ** Library instances and data for the examples *)

Definition demo_alpha2 (table : list (string * string)) (c : string) : result string :=
  match list_find (fun kv => bool_decide (kv.1 = c)) table with
  | Some (_, kv) => Ok kv.2
  | None => Raise (KeyError c)
  end.

(** A three-country extract of the database. *)
Definition demo_pycountry : Pycountry := {|
  get_name := demo_alpha2 [("Sweden", "SE"); ("Austria", "AT"); ("Germany", "DE")];
  get_common_name := demo_alpha2 [("Bolivia", "BO")];
  get_official_name := demo_alpha2 [("Kingdom of Sweden", "SE")]
|}.

(** The same look-up in a version of [pycountry] whose [get] returns
    [None] for a miss: [None.alpha_2] raises [AttributeError]. *)
Definition demo_alpha2_none (table : list (string * string)) (c : string)
    : result string :=
  match list_find (fun kv => bool_decide (kv.1 = c)) table with
  | Some (_, kv) => Ok kv.2
  | None => Raise AttributeError
  end.

Definition demo_pycountry_none : Pycountry := {|
  get_name := demo_alpha2_none [("Sweden", "SE"); ("Austria", "AT"); ("Germany", "DE")];
  get_common_name := demo_alpha2_none [("Bolivia", "BO")];
  get_official_name := demo_alpha2_none [("Kingdom of Sweden", "SE")]
|}.

Definition ascii_upper (a : ascii) : ascii :=
  let n := nat_of_ascii a in
  if Nat.leb 97 n && Nat.leb n 122 then ascii_of_nat (n - 32) else a.

Fixpoint string_map (f : ascii -> ascii) (s : string) : string :=
  match s with
  | EmptyString => EmptyString
  | String a r => String (f a) (string_map f r)
  end.

(** [str] methods on ASCII text. *)
Definition demo_strlib : ServerStatus.StrLib := {|
  ServerStatus.upper := string_map ascii_upper;
  ServerStatus.format_num := fun q => "0"
|}.

Fixpoint is_prefix (p s : string) : bool :=
  match p, s with
  | EmptyString, _ => true
  | String a p', String b s' => Ascii.eqb a b && is_prefix p' s'
  | String _ _, EmptyString => false
  end.

Fixpoint is_substring (p s : string) : bool :=
  is_prefix p s ||
  match s with
  | EmptyString => false
  | String _ s' => is_substring p s'
  end.

(** Patterns without special characters: a search for a substring. *)
Definition demo_re : ServerStatus.Re := {|
  ServerStatus.re_search := fun p v =>
    match v with
    | VStr s => Ok (is_substring p s)
    | VNum _ => Raise TypeError
    end
|}.

(** Urls of the three schemes; any other text has no scheme, and no
    request can be made for it. *)
Definition demo_urlparse : ServerStatus.UrlParse := {|
  ServerStatus.scheme := fun url =>
    if is_prefix "rsync://" url then Ok "rsync"
    else if is_prefix "https://" url then Ok "https"
    else if is_prefix "http://" url then Ok "http"
    else Ok EmptyString;
  ServerStatus.request := fun url =>
    if is_prefix "rsync://" url || is_prefix "https://" url || is_prefix "http://" url
    then None
    else Some ValueError
|}.

(** On the numbers of the examples the arithmetic of floats is exact. *)
Definition demo_float : ServerStatus.FloatArith := {|
  ServerStatus.fsub := Qminus;
  ServerStatus.fdiv := Qdiv
|}.

(** Times kept as their text. *)
Definition demo_timelib : ServerStatus.TimeLib := {|
  ServerStatus.struct_time := string;
  ServerStatus.strptime := fun s fmt =>
    if String.eqb fmt ServerStatus.PARSE_TIME_FORMAT_WITH_USEC && is_substring "." s then Ok s
    else Raise ValueError;
  ServerStatus.strftime := fun fmt t => t;
  ServerStatus.gmtime := fun q => "1970-01-01 00:00:00"
|}.

Definition demo_pipes : ServerStatus.Pipes := {| ServerStatus.quote := fun s => s |}.

(** A page with a header row and two server rows. *)
Definition demo_table : html_table := {|
  thead := Some ["Country"; "Server address"; "Port OpenVPN-TAP-UDP";
                 "OpenVPN-TUN-UDP/TCP"; "Socks5 Proxy"; "HTTP Proxy"];
  trs := [ [];
           ["Sweden - Stockholm"; "se-sto.pvdata.host"; "1194"; "1195"; "Yes"; "Yes"];
           ["Austria - Wien"; "at-wie.pvdata.host"; "1194"; "1195"; "Yes"; "Yes"] ]
|}.

Definition server_record (country code city url : string) : record :=
  <["country" := VStr country]> (
  <["country_code" := VStr code]> (
  <["city" := VStr city]> (
  <["url" := VStr url]> (
  <["port_tap" := VStr "1194"]> (
  <["port_tun" := VStr "1195"]> (
  <["proxy_socks" := VStr "Yes"]> (
  <["proxy_http" := VStr "Yes"]> ∅))))))).

Definition rec_se : record := server_record "Sweden" "SE" "Stockholm" "se-sto.pvdata.host".
Definition rec_at : record := server_record "Austria" "AT" "Wien" "at-wie.pvdata.host".
Definition rec_de : record := server_record "Germany" "DE" "Frankfurt" "de-fra.pvdata.host".

Definition no_criteria : ServerStatus.criteria := {|
  ServerStatus.countries := None; ServerStatus.include := None;
  ServerStatus.exclude := None; ServerStatus.age := None;
  ServerStatus.protocols := None
|}.

Definition demo_self : ServerStatus.t := ServerStatus.init 0 false 5 300 1 (Some 5%Z).


(** A row of the table that [get_server_data] turns into a record. *)
Definition six_cells (tds : list string) : bool := Nat.eqb (length tds) 6.

Definition demo_utcnow : string := "2018-10-05 12:00:00.000001".

(** No cache file; the page is read twice; the cache file cannot be
    written. *)
Definition demo_env_write_fails : retrieve_env := {|
  getmtime := Raise FileNotFoundError;
  time_check := 0;
  load_cache := Raise FileNotFoundError;
  page1 := Ok (Some demo_table);
  utcnow1 := demo_utcnow;
  page2 := Ok (Some demo_table);
  utcnow2 := demo_utcnow;
  time_fetch := 1538740800;
  write_cache := fun _ => Some PermissionError
|}.

Definition demo_snapshot (l : loc) : snapshot := {|
  title := "PrivateVPN Server list";
  version := 1;
  headers := ["Country"; "Server address"; "Port OpenVPN-TAP-UDP";
              "OpenVPN-TUN-UDP/TCP"; "Socks5 Proxy"; "HTTP Proxy"];
  last_check := demo_utcnow;
  total := 3;
  servers := l
|}.

Definition demo_heap1 : heap := {[ 1%positive := [rec_se; rec_at] ]}.
Definition demo_heap2 : heap := <[ 2%positive := [rec_se; rec_at] ]> demo_heap1.

Definition demo_heap3 : heap := {[ 1%positive := [rec_se; rec_at; rec_de] ]}.

(** [countries=["se", "Germany"]] *)
Definition demo_countries : ServerStatus.criteria := {|
  ServerStatus.countries := Some ["se"; "Germany"]; ServerStatus.include := None;
  ServerStatus.exclude := None; ServerStatus.age := None;
  ServerStatus.protocols := None
|}.

(** [protocols=["https"]] *)
Definition demo_protocols : ServerStatus.criteria := {|
  ServerStatus.countries := None; ServerStatus.include := None;
  ServerStatus.exclude := None; ServerStatus.age := None;
  ServerStatus.protocols := Some ["https"]
|}.

(** [age=1] *)
Definition demo_age : ServerStatus.criteria := {|
  ServerStatus.countries := None; ServerStatus.include := None;
  ServerStatus.exclude := None; ServerStatus.age := Some 1%Q;
  ServerStatus.protocols := None
|}.


Definition demo_heap5 : heap := {[ 1%positive := [rec_se] ]}.

(** A download of 2048 bytes in two seconds. *)
Definition demo_probe_ok : ServerStatus.probe_env := {|
  ServerStatus.ping := None; ServerStatus.tmpdir := None;
  ServerStatus.clock0 := 10; ServerStatus.call := None;
  ServerStatus.size := Ok 2048%N; ServerStatus.clock1 := 12
|}.

(** A download of 1024 bytes between two equal readings of the clock. *)
Definition demo_probe_instant : ServerStatus.probe_env := {|
  ServerStatus.ping := None; ServerStatus.tmpdir := None;
  ServerStatus.clock0 := 100; ServerStatus.call := None;
  ServerStatus.size := Ok 1024%N; ServerStatus.clock1 := 100
|}.


(** Three records whose url has a scheme, in one list object. *)
Definition mirror_se : record :=
  server_record "Sweden" "SE" "Stockholm" "https://se-sto.pvdata.host/".
Definition mirror_at : record :=
  server_record "Austria" "AT" "Wien" "https://at-wie.pvdata.host/".
Definition mirror_de : record :=
  server_record "Germany" "DE" "Frankfurt" "https://de-fra.pvdata.host/".

Definition demo_heap_mirrors : heap :=
  {[ 1%positive := [mirror_se; mirror_at; mirror_de] ]}.


(** What the network answers for the three urls: 2000 bytes in four
    seconds from the first, no connection to the second, 2000 bytes in two
    seconds from the third. *)
Definition demo_probes (url : string) : ServerStatus.probe_env :=
  if String.eqb url "https://se-sto.pvdata.host/" then
    {| ServerStatus.ping := None; ServerStatus.tmpdir := None;
       ServerStatus.clock0 := 10; ServerStatus.call := None;
       ServerStatus.size := Ok 2000%N; ServerStatus.clock1 := 14 |}
  else if String.eqb url "https://de-fra.pvdata.host/" then
    {| ServerStatus.ping := None; ServerStatus.tmpdir := None;
       ServerStatus.clock0 := 10; ServerStatus.call := None;
       ServerStatus.size := Ok 2000%N; ServerStatus.clock1 := 12 |}
  else
    {| ServerStatus.ping := None; ServerStatus.tmpdir := None;
       ServerStatus.clock0 := 10; ServerStatus.call := Some URLError;
       ServerStatus.size := Ok 0%N; ServerStatus.clock1 := 10 |}.



(** In a list sorted with [skip], [a] may stand before [b]: [b] does not
    have to come strictly first. *)
Definition may_precede {A : Type} (skip : A -> A -> bool) (a b : A) : Prop :=
  skip b a = false.

(** The rate of a record under a table of measured rates. *)
Definition rate_under (measured : string -> Q) (m : record) : Q :=
  measured (the_url m).

(** The result queue holds one tuple for each record, with the url of the
    record and the rate measured for that url, in any order. *)
Definition arrivals_of (measured : string -> Q) (items : list record)
    (q_out : list (string * Q * ServerStatus.pyfloat)) : Prop :=
  Permutation (map (fun r => (r.1.1, r.1.2)) q_out)
              (map (fun m => (the_url m, measured (the_url m))) items).

(** Rates 500, 0 and 1000 for the three example servers. *)
Definition demo_measured (url : string) : Q :=
  if String.eqb url "se-sto.pvdata.host" then 500
  else if String.eqb url "de-fra.pvdata.host" then 1000
  else 0.

(** The tuples of the three probes as they may arrive. *)
Definition demo_q_out : list (string * Q * ServerStatus.pyfloat) :=
  [("de-fra.pvdata.host", 1000%Q, ServerStatus.Float 2);
   ("at-wie.pvdata.host", 0%Q, ServerStatus.NaN);
   ("se-sto.pvdata.host", 500%Q, ServerStatus.Float 4)].

(** An object that holds the example snapshot, whose server list is the
    list object 1, fetched at 1538740800 and kept for an hour. *)
Definition demo_self_loaded : ServerStatus.t :=
  ServerStatus.set_json_mtime
    (ServerStatus.set_json_obj (ServerStatus.init 3600 false 5 300 1 (Some 5%Z))
       (Some (demo_snapshot 1)))
    1538740800.

(** The heap after the list object 1 has been sorted by country. *)
Definition demo_heap1_sorted : heap := {[ 1%positive := [rec_at; rec_se] ]}.

(** The line of a record in the server list. *)
Definition entry_line (m : record) : string := "Server = " +:+ the_url m +:+ ServerStatus.nl.

(** What may stand before a line of the list: nothing, or a country
    comment, after an empty line if it is not the first. *)
Definition is_tag (tag : string) : Prop :=
  tag = EmptyString \/
  exists c, tag = "# " +:+ c +:+ ServerStatus.nl \/
            tag = ServerStatus.nl +:+ "# " +:+ c +:+ ServerStatus.nl.

Definition has_country (m : record) : Prop :=
  is_Some (m !! "country") /\ is_Some (m !! "country_code").

(** The pieces of a text one after the other. *)
Definition concat_strings (l : list string) : string := foldr String.append EmptyString l.

(** The head of the list for the example object. *)
Definition demo_head : string :=
  Eval vm_compute in
    match @ServerStatus.banner demo_timelib demo_pipes 0 demo_self_loaded None with
    | Ok s => s
    | Raise _ => EmptyString
    end.

(** The order [list.sort] leaves two records in, [a] before [b]: both have
    the key, with values of one type, and the value of [b] is not less than
    that of [a] (not greater, when the sort is reversed). *)
Definition key_ordered (reverse : bool) (key : string) (a b : record) : Prop :=
  exists va vb,
    a !! key = Some va /\ b !! key = Some vb /\
    ServerStatus.same_type va vb = true /\
    if reverse then ServerStatus.val_ltb va vb = false
    else ServerStatus.val_ltb vb va = false.

(** ** Predicates on text *)

(** A text made of white space only. *)
Inductive spaces : string -> Prop :=
| spaces_nil : spaces EmptyString
| spaces_cons (w s : string) : w ∈ whitespace -> spaces s -> spaces (w +:+ s).

(** The text begins, or ends, with a white space character. *)
Definition starts_with_space (u : string) : Prop :=
  exists w r, w ∈ whitespace /\ u = w +:+ r.

Definition ends_with_space (u : string) : Prop :=
  exists w r, w ∈ whitespace /\ u = r +:+ w.

(** [u] is [s] without the white space around it: [s] is [u] between two
    runs of white space, and [u] neither begins nor ends with white
    space. *)
Definition stripped_of (u s : string) : Prop :=
  exists p q,
    s = p +:+ u +:+ q /\ spaces p /\ spaces q /\
    ~ starts_with_space u /\ ~ ends_with_space u.

(** The characters of [s] other than [a], in their order. *)
Definition without_char (a : ascii) (s : string) : string :=
  String.string_of_list_ascii
    (List.filter (fun b => negb (Ascii.eqb b a)) (String.list_ascii_of_string s)).

(** ** Predicates on fetched records *)

(** The keys of the [dict] that [get_server_data] builds for a row. *)
Definition server_fields : list string :=
  ["country"; "country_code"; "city"; "url"; "port_tap"; "port_tun";
   "proxy_socks"; "proxy_http"].

(** The fields whose value is cut out of the text of a cell. *)
Definition parsed_fields : list string :=
  ["country"; "city"; "url"; "port_tap"; "port_tun"; "proxy_socks"; "proxy_http"].

(** A record with exactly the eight fields, each a string. *)
Definition fetched_record (m : record) : Prop :=
  forall k, (k ∈ server_fields -> exists s, m !! k = Some (VStr s)) /\
            (k ∉ server_fields -> m !! k = None).

(** Does the character occur in the string? *)
Fixpoint contains (a : ascii) (s : string) : bool :=
  match s with
  | EmptyString => false
  | String b r => Ascii.eqb a b || contains a r
  end.


(** ** Predicates on the cache *)

(** The cache is enabled and its file, last written at [mtime], is younger
    than the timeout and holds the document [d]. *)
Definition cache_hit (env : retrieve_env) (self : ServerStatus.t) (mtime : Q)
    (d : json_doc) : Prop :=
  (0 < ServerStatus.cache_timeout self)%Q /\
  getmtime env = Ok mtime /\
  (time_check env - mtime < ServerStatus.cache_timeout self)%Q /\
  load_cache env = Ok (Some d).

(** The snapshot that an object holds, if it holds one, has its server
    list in the heap. *)
Definition snapshot_in_heap (self : ServerStatus.t) (h : heap) : Prop :=
  forall s : snapshot,
    ServerStatus.json_obj self = Some s -> is_Some (h !! servers s).

(** The list objects of [h] are in [h'], with their content. *)
Definition objects_kept (h h' : heap) : Prop :=
  forall l, is_Some (h !! l) -> h' !! l = h !! l.

(** The document of the example snapshot. *)
Definition demo_doc : json_doc := encode (demo_snapshot 1) demo_heap1.

(** A cache file written at 1538740800 and read 100 seconds later; the page
    cannot be opened and the cache file cannot be written. *)
Definition demo_env_cached : retrieve_env := {|
  getmtime := Ok 1538740800%Q;
  time_check := 1538740900;
  load_cache := Ok (Some demo_doc);
  page1 := Raise FileNotFoundError;
  utcnow1 := demo_utcnow;
  page2 := Raise FileNotFoundError;
  utcnow2 := demo_utcnow;
  time_fetch := 1538740900;
  write_cache := fun _ => Some PermissionError
|}.

(** The same cache file when its content is no JSON text. *)
Definition demo_env_corrupt : retrieve_env := {|
  getmtime := Ok 1538740800%Q;
  time_check := 1538740900;
  load_cache := Raise ValueError;
  page1 := Ok (Some demo_table);
  utcnow1 := demo_utcnow;
  page2 := Ok (Some demo_table);
  utcnow2 := demo_utcnow;
  time_fetch := 1538740900;
  write_cache := fun _ => None
|}.

(** No cache file, a page that can be read, and a cache file that can be
    written. *)
Definition demo_env_fresh : retrieve_env := {|
  getmtime := Raise FileNotFoundError;
  time_check := 0;
  load_cache := Raise FileNotFoundError;
  page1 := Ok (Some demo_table);
  utcnow1 := demo_utcnow;
  page2 := Ok (Some demo_table);
  utcnow2 := demo_utcnow;
  time_fetch := 1538740800;
  write_cache := fun _ => None
|}.

(** No cache file and a page without the table of servers. *)
Definition demo_env_no_table : retrieve_env := {|
  getmtime := Raise FileNotFoundError;
  time_check := 0;
  load_cache := Raise FileNotFoundError;
  page1 := Ok None;
  utcnow1 := demo_utcnow;
  page2 := Ok None;
  utcnow2 := demo_utcnow;
  time_fetch := 1538740800;
  write_cache := fun _ => None
|}.

(** An object made with [cache_timeout=0]. *)
Definition demo_self_nocache : ServerStatus.t :=
  ServerStatus.init 0 false 5 0 1 (Some 5%Z).

(** ** Predicates on criteria *)

(** No criterion is supplied: each argument is absent, empty or zero. *)
Definition unrestricted (crit : ServerStatus.criteria) : Prop :=
  truthy_list (ServerStatus.countries crit) = false /\
  truthy_list (ServerStatus.protocols crit) = false /\
  truthy_list (ServerStatus.include crit) = false /\
  truthy_list (ServerStatus.exclude crit) = false /\
  truthy_num (ServerStatus.age crit) = false.

(** Arguments that are supplied but false: empty lists and an age of 0. *)
Definition demo_empty_criteria : ServerStatus.criteria := {|
  ServerStatus.countries := Some []; ServerStatus.include := Some [];
  ServerStatus.exclude := None; ServerStatus.age := Some 0%Q;
  ServerStatus.protocols := Some []
|}.

(** The heap after the three example servers have been rated: the new list
    object 2 holds them by rate. *)
Definition demo_heap3_rated : heap :=
  <[ 2%positive := [rec_de; rec_se; rec_at] ]> demo_heap3.

(** The heap after the filtered records of list 1 have been sorted by
    country: they are in the new list object 2. *)
Definition demo_heap1_filtered_sorted : heap :=
  <[ 2%positive := [rec_at; rec_se] ]> demo_heap1.

(** ** Predicates on keys *)

(** [a == b] on the values of a key. *)
Definition val_eqb (a b : val) : bool :=
  match a, b with
  | VStr x, VStr y => String.eqb x y
  | VNum x, VNum y => Qeq_bool x y
  | _, _ => false
  end.

(** The record has the value [v] under [key]. *)
Definition key_is (key : string) (v : val) (m : record) : bool :=
  match m !! key with
  | Some a => val_eqb a v
  | None => false
  end.

(** ** The result queue of [rate] *)

(** The tuples that the turns of the workers put on the result queue for
    [urls], when [probe url] is what the network and the system answer for
    [url]: one tuple for a turn that reaches [q_out.put], none for a turn
    that ends its thread with an exception. *)
Definition results_put `{ServerStatus.UrlParse} `{ServerStatus.FloatArith}
    (probe : string -> ServerStatus.probe_env) (urls : list string)
    : list (string * Q * ServerStatus.pyfloat) :=
  omap (fun url => match ServerStatus.worker (probe url) url with
                   | Ok r => Some r
                   | Raise _ => None
                   end) urls.

(** ** The command line: [process_options] and [main] *)

(** The namespace that [parse_args] returns, with the attributes that
    [process_options] and [main] read.  [None] is the value of an option
    that was not given. *)
Module Options.
Record t : Type := {
  verbose : bool;
  connection_timeout : Q;
  cache_timeout : Q;
  completion_percent : Q;
  threads : option Z;
  countries : option (list string);
  include : option (list string);
  exclude : option (list string);
  age : option Q;
  protocols : option (list string);
  latest : option Z;
  score : option Z;
  fastest : option Z;
  sort : option string;
  number : option Z;
  info : bool;
  save : option string
}.
End Options.

(** [options.n and options.n > 0] *)
Definition positive_int (o : option Z) : bool :=
  match o with
  | Some n => Z.ltb 0 n
  | None => false
  end.

(** Truth value of an optional integer: [None] and [0] are false. *)
Definition truthy_int (o : option Z) : bool :=
  match o with
  | Some n => negb (Z.eqb n 0)
  | None => false
  end.

(** Truth value of an optional string: [None] and the empty string are
    false. *)
Definition truthy_str (o : option string) : bool :=
  match o with
  | Some (String _ _) => true
  | _ => false
  end.

(** [l[:n]]: the first [n] elements, or all but the last [-n] when [n] is
    negative. *)
Definition slice_to {A : Type} (n : Z) (l : list A) : list A :=
  if Z.leb 0 n then take (Z.to_nat n) l
  else take (length l - Z.to_nat (- n)) l.

Definition outcome_bind {A B : Type} (c : ServerStatus.outcome A)
    (k : A -> ServerStatus.outcome B) : ServerStatus.outcome B :=
  match c with
  | ServerStatus.Returns a => k a
  | ServerStatus.Raises e => ServerStatus.Raises e
  | ServerStatus.Blocks => ServerStatus.Blocks
  end.

(** [mirrors = ms.sort(mirrors, by=key)] followed by [mirrors = mirrors[:n]]:
    the slice is a new list object. *)
Definition sort_and_cut `{ServerStatus.StrLib} `{ServerStatus.Re}
    (q_out : list (string * Q * ServerStatus.pyfloat)) (ms : ServerStatus.t)
    (now : Q) (key : string) (n : Z) (mirrors : ServerStatus.iterable) (h : heap)
    : ServerStatus.outcome (ServerStatus.iterable * heap) :=
  outcome_bind (ServerStatus.sort q_out ms h now mirrors (Some key)) (fun '(l, h1) =>
    let '(l', h2) := alloc h1 (slice_to n (deref h1 l)) in
    ServerStatus.Returns (ServerStatus.PyList l', h2)).

(** The keyword arguments that [process_options] passes to [filter]. *)
Definition criteria_of (options : Options.t) : ServerStatus.criteria := {|
  ServerStatus.countries := Options.countries options;
  ServerStatus.include := Options.include options;
  ServerStatus.exclude := Options.exclude options;
  ServerStatus.age := Options.age options;
  ServerStatus.protocols := Options.protocols options
|}.

(** [ServerStatus(verbose=..., connection_timeout=..., cache_timeout=...,
    min_completion_pct=..., threads=...)] as [process_options] makes it. *)
Definition new_ms (options : Options.t) : ServerStatus.t :=
  ServerStatus.init 0 (Options.verbose options) (Options.connection_timeout options)
    (Options.cache_timeout options) (Options.completion_percent options / 100)
    (Options.threads options).

(** The steps of [process_options] after the call of [filter], on the
    generator it returned.  [q_fastest] and [q_sort] are the result queues
    of the call of [rate] in the step for [fastest] and in the step for
    [sort]; [now] is the reading of the clock when the generator starts. *)
Definition select_mirrors `{ServerStatus.StrLib} `{ServerStatus.Re}
    (q_fastest q_sort : list (string * Q * ServerStatus.pyfloat))
    (options : Options.t) (ms : ServerStatus.t) (now : Q)
    (mirrors : ServerStatus.iterable) (h : heap)
    : ServerStatus.outcome (ServerStatus.iterable * heap) :=
  outcome_bind
    (if positive_int (Options.latest options) then
       sort_and_cut [] ms now "age" (default 0%Z (Options.latest options)) mirrors h
     else ServerStatus.Returns (mirrors, h)) (fun '(mirrors, h) =>
  outcome_bind
    (if positive_int (Options.score options) then
       sort_and_cut [] ms now "score" (default 0%Z (Options.score options)) mirrors h
     else ServerStatus.Returns (mirrors, h)) (fun '(mirrors, h) =>
  outcome_bind
    (if positive_int (Options.fastest options) then
       sort_and_cut q_fastest ms now "rate" (default 0%Z (Options.fastest options))
         mirrors h
     else ServerStatus.Returns (mirrors, h)) (fun '(mirrors, h) =>
  outcome_bind
    (if truthy_str (Options.sort options)
        && negb (bool_decide (Options.sort options = Some "rate")
                 && truthy_int (Options.fastest options))
     then
       outcome_bind (ServerStatus.sort q_sort ms h now mirrors (Options.sort options))
         (fun '(l, h1) => ServerStatus.Returns (ServerStatus.PyList l, h1))
     else ServerStatus.Returns (mirrors, h)) (fun '(mirrors, h) =>
  if truthy_int (Options.number options) then
    match ServerStatus.read_all h now mirrors with
    | (items, None) =>
        let '(l, h1) := alloc h (slice_to (default 0%Z (Options.number options)) items) in
        ServerStatus.Returns (ServerStatus.PyList l, h1)
    | (_, Some e) => ServerStatus.Raises e
    end
  else ServerStatus.Returns (mirrors, h))))).

(** [process_options(options, ms, mirrors)], with a list object for
    [mirrors] when it is given.  [now0] is the reading of the clock in
    [get_obj].  The list made by [list(mirrors)] before the slice is not
    kept: only the slice is allocated. *)
Definition process_options `{Pycountry} `{ServerStatus.StrLib} `{ServerStatus.Re}
    (env : retrieve_env) (now0 now : Q)
    (q_fastest q_sort : list (string * Q * ServerStatus.pyfloat))
    (options : Options.t) (ms : option ServerStatus.t) (mirrors : option loc)
    (h : heap)
    : ServerStatus.outcome (ServerStatus.t * ServerStatus.iterable * heap) :=
  let ms := match ms with Some self => self | None => new_ms options end in
  match (match mirrors with
         | Some l => (Ok l, ServerStatus.World ms h)
         | None => ServerStatus.get_mirrors env now0 ms h
         end) with
  | (Raise e, _) => ServerStatus.Raises e
  | (Ok l, ServerStatus.World ms h) =>
      outcome_bind
        (select_mirrors q_fastest q_sort options ms now
           (ServerStatus.PyGen (ServerStatus.filter l (criteria_of options))) h)
        (fun '(mirrors, h) => ServerStatus.Returns (ms, mirrors, h))
  end.

(** *** [print_mirror_info] *)

(** [sorted(k for k in m.keys() if k != 'url')] *)
Definition info_keys (m : record) : list string :=
  ServerStatus.stable_sort (fun y x => String.ltb y x)
    (List.filter (fun k => negb (String.eqb k "url")) (map fst (map_to_list m))).

(** The inner loop: one line for each key, as far as it gets. *)
Fixpoint info_lines `{ServerStatus.StrLib} `{ServerStatus.TimeLib} (width : nat)
    (ks : list string) (m : record) : list string * option exn :=
  match ks with
  | [] => ([], None)
  | k :: rest =>
      match (v ← getitem m k;
             if String.eqb k "last_sync" then
               match v with
               | VNum q =>
                   Ok (ServerStatus.strftime ServerStatus.DISPLAY_TIME_FORMAT
                         (ServerStatus.gmtime q))
               | VStr _ => Raise TypeError
               end
             else Ok (ServerStatus.format_val v)) with
      | Ok text =>
          let '(lines, e) := info_lines width rest m in
          ((ServerStatus.ljust k width +:+ " : " +:+ text) :: lines, e)
      | Raise e => ([], Some e)
      end
  end.

(** The outer loop: the url, the fields and an empty line for each
    record. *)
Fixpoint info_records `{ServerStatus.StrLib} `{ServerStatus.TimeLib} (width : nat)
    (ks : list string) (mirrors : list record) : list string * option exn :=
  match mirrors with
  | [] => ([], None)
  | m :: rest =>
      match getitem m "url" with
      | Raise e => ([], Some e)
      | Ok u =>
          match info_lines width ks m with
          | (lines, Some e) => (ServerStatus.format_val u :: lines, Some e)
          | (lines, None) =>
              let '(more, e) := info_records width ks rest in
              (ServerStatus.format_val u :: lines ++ EmptyString :: more, e)
          end
      end
  end.

(** [print_mirror_info(mirrors)] for a list, as [main] calls it: the lines
    printed, and the exception that ends the call, if any. *)
Definition print_mirror_info `{ServerStatus.StrLib} `{ServerStatus.TimeLib}
    (mirrors : list record) : list string * option exn :=
  match mirrors with
  | [] => ([], None)
  | m0 :: _ =>
      let ks := info_keys m0 in
      match ks with
      | [] => ([], Some ValueError)
      | _ :: _ =>
          info_records (foldr Nat.max 0%nat (map String.length ks)) ks mirrors
      end
  end.

(** *** [main] *)

(** How a run of [main] ends: it returns, after the prints in [stdout] and
    perhaps with the list saved in a file; it leaves through [sys.exit]
    with a message; an exception leaves it; or it never ends. *)
Inductive ending : Type :=
| Done (stdout : list string) (saved : option (string * string))
| Exit (stdout : list string) (msg : string)
| Traceback (stdout : list string) (e : exn)
| NoEnd.

(** What the file system answers when the list is saved:
    [open(path, 'w')] with [f.write(text)] ([None]: written), and the
    [strerror] of an exception. *)
Record save_env : Type := {
  save_file : string -> string -> option exn;
  strerror : exn -> string
}.

(** [except ServerStatusError as e: sys.exit('error: {}\n'.format(e.msg))];
    any other exception leaves [main]. *)
Definition leave (stdout : list string) (e : exn) : ending :=
  match e with
  | ServerStatusError msg => Exit stdout ("error: " +:+ msg +:+ ServerStatus.nl)
  | _ => Traceback stdout e
  end.

(** [main(args)] from the parsed options on; [cmd] is [tuple(args)] or
    [sys.argv[1:]], [now2] the reading of the clock in [get_mirrorlist]. *)
Definition main `{Pycountry} `{ServerStatus.StrLib} `{ServerStatus.Re}
    `{ServerStatus.TimeLib} `{ServerStatus.Pipes}
    (env : retrieve_env) (senv : save_env) (now0 now now2 : Q)
    (q_fastest q_sort : list (string * Q * ServerStatus.pyfloat))
    (cmd : list string) (options : Options.t) (h : heap) : ending :=
  match process_options env now0 now q_fastest q_sort options None None h with
  | ServerStatus.Blocks => NoEnd
  | ServerStatus.Raises e => leave [] e
  | ServerStatus.Returns (ms, mirrors, h1) =>
      match ServerStatus.as_list h1 now mirrors with
      | Raise e => leave [] e
      | Ok (l, h2) =>
          match deref h2 l with
          | [] => Exit [] "error: no mirrors found"
          | _ :: _ =>
              if Options.info options then
                match print_mirror_info (deref h2 l) with
                | (lines, None) => Done lines None
                | (lines, Some e) => leave lines e
                end
              else
                match ServerStatus.get_mirrorlist now2 ms h2 (ServerStatus.PyList l)
                        (bool_decide (Options.sort options = Some "country"))
                        (Some cmd) with
                | Raise e => leave [] e
                | Ok None => Exit [] "error: no mirrors found"
                | Ok (Some mirrorlist) =>
                    if truthy_str (Options.save options) then
                      match save_file senv (default EmptyString (Options.save options))
                              mirrorlist with
                      | None =>
                          Done [] (Some (default EmptyString (Options.save options),
                                         mirrorlist))
                      | Some e =>
                          if is_OSError e then
                            Exit [] ("error: " +:+ strerror senv e +:+ ServerStatus.nl)
                          else Traceback [] e
                      end
                    else Done [mirrorlist] None
                end
          end
      end
  end.

(** The lists that a step works on are lists of its own: [h0] is the heap
    at the call of [filter]. *)
Definition own_list (h0 : heap) (mirrors : ServerStatus.iterable) (h : heap) : Prop :=
  objects_kept h0 h /\ forall l, mirrors = ServerStatus.PyList l -> h0 !! l = None.


(** Options as [parse_args] returns them for a command line with at most
    [--latest], [--fastest], [--sort], [--number], [--protocol] and
    [--info]. *)
Definition demo_options (latest fastest : option Z) (sort : option string)
    (number : option Z) (protocols : option (list string)) (info : bool)
    : Options.t := {|
  Options.verbose := false;
  Options.connection_timeout := 5;
  Options.cache_timeout := 300;
  Options.completion_percent := 100;
  Options.threads := None;
  Options.countries := None;
  Options.include := None;
  Options.exclude := None;
  Options.age := None;
  Options.protocols := protocols;
  Options.latest := latest;
  Options.score := None;
  Options.fastest := fastest;
  Options.sort := sort;
  Options.number := number;
  Options.info := info;
  Options.save := None
|}.

(** No option given. *)
Definition demo_no_options : Options.t := demo_options None None None None None false.

(** [--sort country] *)
Definition demo_by_country : Options.t :=
  demo_options None None (Some "country") None None false.

(** The object that [process_options] makes for these options, after it
    has fetched the example page at 1538740800. *)
Definition demo_ms_fetched : ServerStatus.t :=
  ServerStatus.set_json_mtime
    (ServerStatus.set_json_obj (new_ms demo_no_options) (Some (demo_snapshot 2)))
    1538740800.

(** The heap after the two fetches and a sort by country of the filtered
    records: the sorted records are in the new list object 3. *)
Definition demo_heap2_sorted : heap := <[ 3%positive := [rec_at; rec_se] ]> demo_heap2.

(** [--number -1] *)
Definition demo_all_but_last : Options.t :=
  demo_options None None None (Some (-1)%Z) None false.

(** [--fastest -1 --sort rate] *)
Definition demo_fastest_negative : Options.t :=
  demo_options None (Some (-1)%Z) (Some "rate") None None false.

(** The object that [process_options] makes for [options], once it holds
    the snapshot [s] fetched at [mtime]. *)
Definition ms_holding (options : Options.t) (s : snapshot) (mtime : Q)
    : ServerStatus.t :=
  ServerStatus.set_json_mtime (ServerStatus.set_json_obj (new_ms options) (Some s)) mtime.

(** None of the options that sort, cut, print information or save is
    given. *)
Definition plain_options (options : Options.t) : Prop :=
  positive_int (Options.latest options) = false /\
  positive_int (Options.score options) = false /\
  positive_int (Options.fastest options) = false /\
  truthy_str (Options.sort options) = false /\
  truthy_int (Options.number options) = false /\
  Options.info options = false /\
  truthy_str (Options.save options) = false.

(** The line of the server list for a url. *)
Definition server_line (url : string) : string :=
  "Server = " +:+ url +:+ ServerStatus.nl.

(** Nothing can be saved. *)
Definition demo_save_env : save_env := {|
  save_file := fun _ _ => Some PermissionError;
  strerror := fun _ => "Permission denied"
|}.

(** The head of the list for a run without arguments that fetched the
    example page. *)
Definition demo_head_no_args : string :=
  Eval vm_compute in
    match @ServerStatus.banner demo_timelib demo_pipes 0
            (ms_holding demo_no_options (demo_snapshot 2) 1538740800) (Some []) with
    | Ok s => s
    | Raise _ => EmptyString
    end.

(** [--latest 3] *)
Definition demo_latest : Options.t :=
  demo_options (Some 3%Z) None None None None false.




Definition demo_heap_empty1 : heap := {[ 1%positive := [] ]}.

(** ** [list_countries] *)

(** [k == k'] on the keys of the dictionary, pairs of a country and a
    country code. *)
Definition key_eqb (k k' : val * val) : bool :=
  val_eqb k.1 k'.1 && val_eqb k.2 k'.2.

(** [try: countries[k] += 1] with [except KeyError: countries[k] = 1].  The
    dictionary is the list of its items in the order of insertion. *)
Fixpoint count_up (k : val * val) (countries : list (val * val * nat))
    : list (val * val * nat) :=
  match countries with
  | [] => [(k, 1%nat)]
  | (k', n) :: rest =>
      if key_eqb k k' then (k', S n) :: rest else (k', n) :: count_up k rest
  end.

(** The loop of [list_countries] over the records. *)
Fixpoint count_countries (items : list record) (countries : list (val * val * nat))
    : result (list (val * val * nat)) :=
  match items with
  | [] => Ok countries
  | m :: rest =>
      c ← getitem m "country";
      cc ← getitem m "country_code";
      count_countries rest (count_up (c, cc) countries)
  end.

(** [self.list_countries()] *)
Definition list_countries `{Pycountry} (env : retrieve_env) (now : Q)
    (self : ServerStatus.t) (h : heap)
    : result (list (val * val * nat)) * ServerStatus.world :=
  match ServerStatus.get_mirrors env now self h with
  | (Ok l, w) => (count_countries (deref (ServerStatus.w_heap w) l) [], w)
  | (Raise e, w) => (Raise e, w)
  end.

(** [countries[k]], 0 for a key that is not in the dictionary. *)
Fixpoint count_of (k : val * val) (countries : list (val * val * nat)) : nat :=
  match countries with
  | [] => 0%nat
  | (k', n) :: rest => if key_eqb k k' then n else count_of k rest
  end.

(** The record is of the country and code [k]. *)
Definition of_country (k : val * val) (m : record) : bool :=
  match m !! "country", m !! "country_code" with
  | Some c, Some cc => key_eqb k (c, cc)
  | _, _ => false
  end.

(** ** What [print_mirror_info] prints for the records of [get_server_data] *)

(** The fields other than the url, in the order of their names. *)
Definition info_fields : list string :=
  ["city"; "country"; "country_code"; "port_tap"; "port_tun"; "proxy_http";
   "proxy_socks"].

(** The text under a key of a record. *)
Definition field_text (m : record) (k : string) : string :=
  match m !! k with
  | Some (VStr s) => s
  | _ => EmptyString
  end.

(** The lines for one record: the url, the seven fields with their names
    padded to the width of the longest, and an empty line. *)
Definition info_block (m : record) : list string :=
  the_url m ::
  map (fun k => ServerStatus.ljust k 12 +:+ " : " +:+ field_text m k) info_fields
  ++ [EmptyString].

(** An object whose snapshot was checked at a whole second: the text of the
    time has no fraction. *)
Definition demo_self_whole_second : ServerStatus.t :=
  ServerStatus.set_json_obj demo_self
    (Some {| title := "PrivateVPN Server list"; version := 1; headers := [];
             last_check := "2018-10-05 12:00:00"; total := 3;
             servers := 1%positive |}).
(* ===================================================================== *)
(** * Part II: properties *)
(* ===================================================================== *)

(** An equation between large closed terms (records, heaps): the kernel
    compares the two sides by evaluation. *)
Ltac eval_eq :=
  lazymatch goal with
  | |- @eq ?A _ ?b => vm_cast_no_check (@eq_refl A b)
  end.

(** ** Comparisons of rationals *)

Lemma Qltb_lt (x y : Q) : Qltb x y = true <-> (x < y)%Q.
Proof.
  unfold Qltb. rewrite negb_true_iff, <- not_true_iff_false, Qle_bool_iff.
  split; [apply Qnot_le_lt | apply Qlt_not_le].
Qed.

Lemma Qltb_ge (x y : Q) : Qltb x y = false <-> (y <= x)%Q.
Proof. unfold Qltb. by rewrite negb_false_iff, Qle_bool_iff. Qed.

(** ** Records, results and the heap *)

Lemma getitem_Some (m : record) (k : string) (v : val) :
  m !! k = Some v -> getitem m k = Ok v.
Proof. unfold getitem. by intros ->. Qed.

Lemma getitem_None (m : record) (k : string) :
  m !! k = None -> getitem m k = Raise (KeyError k).
Proof. unfold getitem. by intros ->. Qed.

Lemma mapM_length {A B : Type} (f : A -> result B) (l : list A) (k : list B) :
  mapM f l = Ok k -> length k = length l.
Proof.
  revert k. induction l as [|x l IH]; intros k; cbn [mapM].
  - by intros [= <-].
  - destruct (f x) as [y|]; simpl; [|discriminate].
    destruct (mapM f l) as [k'|]; simpl; [|discriminate].
    intros [= <-]. simpl. by rewrite (IH k' eq_refl).
Qed.

Lemma deref_alloc (h : heap) (items : list record) :
  deref (alloc h items).2 (alloc h items).1 = items.
Proof. unfold deref, alloc. simpl. by rewrite lookup_insert_eq. Qed.

Lemma alloc_fresh (h : heap) (items : list record) : h !! (alloc h items).1 = None.
Proof. unfold alloc. simpl. apply not_elem_of_dom, is_fresh. Qed.

Lemma alloc_frame (h : heap) (items : list record) (l : loc) :
  is_Some (h !! l) -> (alloc h items).2 !! l = h !! l.
Proof.
  intros Hl. unfold alloc. simpl. apply lookup_insert_ne.
  intros <-. pose proof (alloc_fresh h items) as Hf. unfold alloc in Hf. simpl in Hf.
  rewrite Hf in Hl. by destruct Hl.
Qed.

(** ** Country codes *)

Section CountryCode.
Context `{Pycountry}.

Lemma try_except_KeyError {A : Type} (c : result A) (h : exn -> result A) (e : exn) :
  c = Raise e -> is_KeyError e = true -> try_except c is_KeyError h = h e.
Proof. intros -> He. simpl. by rewrite He. Qed.

(** C6 (amended). For every country string, when the database answers a
    miss with [KeyError] (as the older versions of [pycountry] do) and holds
    no empty code, [get_country_code] returns a value and raises nothing; the
    value is not empty; it is the code of the exact name if there is one,
    else that of the common name, else that of the official name, else the
    alias of Russia, South Korea or USA, and else "ERROR". *)
Theorem get_country_code_total (country : string) :
  miss_is_KeyError get_name ->
  miss_is_KeyError get_common_name ->
  miss_is_KeyError get_official_name ->
  codes_nonempty get_name ->
  codes_nonempty get_common_name ->
  codes_nonempty get_official_name ->
  exists code,
    get_country_code country = Ok code /\
    code <> EmptyString /\
    match get_name country, get_common_name country, get_official_name country with
    | Ok a, _, _ => code = a
    | Raise _, Ok a, _ => code = a
    | Raise _, Raise _, Ok a => code = a
    | Raise _, Raise _, Raise _ =>
        (country = "Russia" /\ code = "RU") \/
        (country = "South Korea" /\ code = "KR") \/
        (country = "USA" /\ code = "US") \/
        (country <> "Russia" /\ country <> "South Korea" /\ country <> "USA" /\
         code = "ERROR")
    end.
Proof.
  intros K1 K2 K3 N1 N2 N3. unfold get_country_code.
  destruct (get_name country) as [a|e1] eqn:E1.
  { exists a. simpl. eauto. }
  rewrite (try_except_KeyError _ _ e1) by eauto.
  destruct (get_common_name country) as [a|e2] eqn:E2.
  { exists a. simpl. eauto. }
  rewrite (try_except_KeyError _ _ e2) by eauto.
  destruct (get_official_name country) as [a|e3] eqn:E3.
  { exists a. simpl. eauto. }
  rewrite (try_except_KeyError _ _ e3) by eauto.
  destruct (String.eqb_spec country "Russia") as [->|R].
  { exists "RU". repeat split; [discriminate | auto]. }
  destruct (String.eqb_spec country "South Korea") as [->|S].
  { exists "KR". repeat split; [discriminate | auto]. }
  destruct (String.eqb_spec country "USA") as [->|U].
  { exists "US". repeat split; [discriminate | auto 6]. }
  exists "ERROR". repeat split; [discriminate | auto 10].
Qed.

End CountryCode.

Lemma demo_alpha2_miss (table : list (string * string)) :
  miss_is_KeyError (demo_alpha2 table).
Proof.
  intros c e. unfold demo_alpha2.
  destruct (list_find _ table) as [[? ?]|]; [discriminate|].
  by intros [= <-].
Qed.

Lemma demo_alpha2_nonempty (table : list (string * string)) :
  Forall (fun kv => kv.2 <> EmptyString) table -> codes_nonempty (demo_alpha2 table).
Proof.
  intros Hall c a. unfold demo_alpha2.
  destruct (list_find _ table) as [[i kv]|] eqn:E; [|discriminate].
  intros [= <-]. apply list_find_Some in E as (Hi & _ & _).
  eapply Forall_lookup_1 in Hall; eauto.
Qed.

Lemma get_country_code_total_witness :
  (miss_is_KeyError (@get_name demo_pycountry) /\
   miss_is_KeyError (@get_common_name demo_pycountry) /\
   miss_is_KeyError (@get_official_name demo_pycountry) /\
   codes_nonempty (@get_name demo_pycountry) /\
   codes_nonempty (@get_common_name demo_pycountry) /\
   codes_nonempty (@get_official_name demo_pycountry)) /\
  exists code,
    @get_country_code demo_pycountry "Bolivia" = Ok code /\
    code <> EmptyString /\ code = "BO".
Proof.
  assert (Hne : forall table,
             Forall (fun kv : string * string => kv.2 <> EmptyString) table ->
             codes_nonempty (demo_alpha2 table))
    by exact demo_alpha2_nonempty.
  assert (H1 := demo_alpha2_miss [("Sweden", "SE"); ("Austria", "AT"); ("Germany", "DE")]).
  assert (H2 := demo_alpha2_miss [("Bolivia", "BO")]).
  assert (H3 := demo_alpha2_miss [("Kingdom of Sweden", "SE")]).
  assert (H4 : codes_nonempty (@get_name demo_pycountry))
    by (apply Hne; repeat constructor; discriminate).
  assert (H5 : codes_nonempty (@get_common_name demo_pycountry))
    by (apply Hne; repeat constructor; discriminate).
  assert (H6 : codes_nonempty (@get_official_name demo_pycountry))
    by (apply Hne; repeat constructor; discriminate).
  split; [repeat split; assumption|].
  destruct (@get_country_code_total demo_pycountry "Bolivia" H1 H2 H3 H4 H5 H6)
    as (code & E & N & M).
  exists code. split; [exact E|]. split; [exact N|]. exact M.
Defined.

(** C6, counterexample. With a [pycountry] whose [get] returns [None] for
    a miss, the look-up of a name that the database does not have raises
    [AttributeError], which no [except] clause of [get_country_code]
    names: the function raises, for a name without an alias and for one
    with an alias alike; neither the alias table nor "ERROR" is reached.
    Only a name that the database has gives a code. *)
Lemma get_country_code_total_counterexample :
  @get_name demo_pycountry_none "Atlantis" = Raise AttributeError /\
  is_KeyError AttributeError = false /\
  @get_country_code demo_pycountry_none "Atlantis" = Raise AttributeError /\
  @get_country_code demo_pycountry_none "Russia" = Raise AttributeError /\
  @get_country_code demo_pycountry_none "Bolivia" = Raise AttributeError /\
  @get_country_code demo_pycountry_none "Sweden" = Ok "SE".
Proof. split_and!; reflexivity. Qed.

Example get_country_code_alias :
  @get_country_code demo_pycountry "South Korea" = Ok "KR".
Proof. reflexivity. Qed.

Example get_country_code_sentinel :
  @get_country_code demo_pycountry "Atlantis" = Ok "ERROR".
Proof. reflexivity. Qed.

(** ** Snapshots *)

Section ServerData.
Context `{Pycountry}.

Lemma parse_row_length (tds : list string) (r : list record) :
  parse_row tds = Ok r -> length r = if six_cells tds then 1%nat else 0%nat.
Proof.
  unfold parse_row, six_cells. destruct (Nat.eqb (length tds) 6).
  - destruct (split_on _ _) as [tmp0 tmp_rest].
    destruct (get_country_code _); simpl; [|discriminate]. by intros [= <-].
  - by intros [= <-].
Qed.

Lemma parse_rows_length (rows : list (list string)) (data : list record) :
  parse_rows rows = Ok data ->
  length data = length (List.filter six_cells rows).
Proof.
  revert data. induction rows as [|tds rows IH]; intros data; simpl.
  - by intros [= <-].
  - destruct (parse_row tds) as [r|] eqn:Er; simpl; [|discriminate].
    destruct (parse_rows rows) as [rs|] eqn:Ers; simpl; [|discriminate].
    intros [= <-]. rewrite length_app, (IH rs eq_refl).
    apply parse_row_length in Er. rewrite Er.
    by destruct (six_cells tds).
Qed.

(** What [get_server_data] puts into ['total'] and into ['servers']: the
    number of all rows of the table, and one record for each row that has
    exactly six cells. *)
Lemma get_server_data_counts (opened : result page) (utcnow : string) (h h' : heap)
    (s : snapshot) :
  get_server_data opened utcnow h = Ok (s, h') ->
  exists table,
    opened = Ok (Some table) /\
    total s = length (trs table) /\
    length (deref h' (servers s)) = length (List.filter six_cells (trs table)).
Proof.
  unfold get_server_data.
  destruct opened as [[table|]|]; simpl; try discriminate.
  destruct (thead table) as [ths|]; simpl; [|discriminate].
  destruct (parse_rows (trs table)) as [data|] eqn:Ed; simpl; [|discriminate].
  intros [= <- <-]. exists table. simpl. split; [done|]. split; [done|].
  pose proof (deref_alloc h data) as Hd. simpl in Hd. unfold alloc in Hd. simpl in Hd.
  rewrite Hd. by apply parse_rows_length.
Qed.

(** So ['total'] is the length of ['servers'] plus the number of rows that
    do not have six cells. *)
Lemma get_server_data_total_excess (opened : result page) (utcnow : string)
    (h h' : heap) (s : snapshot) :
  get_server_data opened utcnow h = Ok (s, h') ->
  exists table,
    opened = Ok (Some table) /\
    total s = (length (deref h' (servers s)) +
               length (List.filter (fun tds => negb (six_cells tds)) (trs table)))%nat.
Proof.
  intros (table & -> & -> & ->)%get_server_data_counts. exists table. split; [done|].
  induction (trs table) as [|tds rows IH]; simpl; [done|].
  destruct (six_cells tds); simpl; lia.
Qed.

End ServerData.

(** C3 (the code departs from the specification). On a page whose table has a
    header row and two server rows, the snapshot of [get_server_data] has
    ['total'] 3 and a ['servers'] list of length 2: ['total'] is the number
    of rows, not the length of ['servers']. *)
Theorem get_server_data_total_counts_header_row :
  match @get_server_data demo_pycountry (Ok (Some demo_table))
          "2018-10-05 12:00:00.000001" ∅ with
  | Ok (s, h) => total s = 3%nat /\ length (deref h (servers s)) = 2%nat
  | Raise _ => False
  end.
Proof. vm_compute. split; reflexivity. Qed.

(** ** Retrieval *)

Section Retrieve.
Context `{Pycountry}.

(** On a cache miss the first part of [retrieve] loads nothing and asks for
    the fresh data to be saved. *)
Lemma retrieve_cache_miss (env : retrieve_env) (self : ServerStatus.t) (h : heap) :
  cache_miss env self ->
  ServerStatus.retrieve_cache env self h = (Ok true, ServerStatus.World self h).
Proof.
  intros [Hpos Hmiss]. unfold ServerStatus.retrieve_cache.
  apply Qltb_lt in Hpos. rewrite Hpos.
  destruct Hmiss as [(e & -> & He & Hno) | (mtime & -> & Hold)].
  - rewrite He. by rewrite bool_decide_eq_true_2.
  - apply Qltb_ge in Hold. by rewrite Hold.
Qed.

(** C2 (amended). When the cache gave nothing, both calls of
    [get_server_data] succeeded, and writing the cache file fails with an
    [IOError], [retrieve] raises [ServerStatusError] "failed to cache JSON
    data" to its caller; the fresh snapshot is not discarded: it is in
    [json_obj], with the time of the fetch in [json_mtime]. *)
Theorem retrieve_cache_write_failure (env : retrieve_env) (self : ServerStatus.t)
    (h h1 h2 : heap) (s1 s2 : snapshot) (e : exn) :
  cache_miss env self ->
  get_server_data (page1 env) (utcnow1 env) h = Ok (s1, h1) ->
  get_server_data (page2 env) (utcnow2 env) h1 = Ok (s2, h2) ->
  write_cache env (encode s1 h1) = Some e ->
  is_OSError e = true ->
  exists self',
    ServerStatus.retrieve env self h =
      (Raise (ServerStatusError ("failed to cache JSON data (" +:+ exn_str e +:+ ")")),
       ServerStatus.World self' h2) /\
    ServerStatus.json_obj self' = Some s2 /\
    ServerStatus.json_mtime self' = time_fetch env.
Proof.
  intros Hmiss E1 E2 Ew He. unfold ServerStatus.retrieve.
  rewrite retrieve_cache_miss by exact Hmiss.
  unfold ServerStatus.retrieve_fetch. simpl. rewrite E1, E2.
  unfold ServerStatus.retrieve_save. rewrite Ew, He.
  eexists. split; [reflexivity|]. split; reflexivity.
Qed.

(** The caller of [get_mirrors] then receives the error, not the list. *)
Lemma get_mirrors_cache_write_failure (env : retrieve_env) (now : Q)
    (self : ServerStatus.t) (h h1 h2 : heap) (s1 s2 : snapshot) (e : exn) :
  truthy_json (ServerStatus.json_obj self) = false ->
  cache_miss env self ->
  get_server_data (page1 env) (utcnow1 env) h = Ok (s1, h1) ->
  get_server_data (page2 env) (utcnow2 env) h1 = Ok (s2, h2) ->
  write_cache env (encode s1 h1) = Some e ->
  is_OSError e = true ->
  exists msg w, ServerStatus.get_mirrors env now self h = (Raise (ServerStatusError msg), w).
Proof.
  intros Hnone Hmiss E1 E2 Ew He.
  unfold ServerStatus.get_mirrors, ServerStatus.get_obj, ServerStatus.retrieve.
  rewrite Hnone. simpl.
  rewrite retrieve_cache_miss by exact Hmiss.
  unfold ServerStatus.retrieve_fetch. simpl. rewrite E1, E2.
  unfold ServerStatus.retrieve_save. rewrite Ew, He. eauto.
Qed.

End Retrieve.

Lemma demo_fetch1 :
  @get_server_data demo_pycountry (Ok (Some demo_table)) demo_utcnow ∅
  = Ok (demo_snapshot 1, demo_heap1).
Proof. eval_eq. Qed.

Lemma demo_fetch2 :
  @get_server_data demo_pycountry (Ok (Some demo_table)) demo_utcnow demo_heap1
  = Ok (demo_snapshot 2, demo_heap2).
Proof. eval_eq. Qed.

Lemma demo_cache_miss : cache_miss demo_env_write_fails demo_self.
Proof. split; [reflexivity|]. left. exists FileNotFoundError. by repeat split. Qed.

Lemma retrieve_cache_write_failure_witness :
  (cache_miss demo_env_write_fails demo_self /\
   @get_server_data demo_pycountry (page1 demo_env_write_fails)
      (utcnow1 demo_env_write_fails) ∅ = Ok (demo_snapshot 1, demo_heap1) /\
   @get_server_data demo_pycountry (page2 demo_env_write_fails)
      (utcnow2 demo_env_write_fails) demo_heap1 = Ok (demo_snapshot 2, demo_heap2) /\
   write_cache demo_env_write_fails (encode (demo_snapshot 1) demo_heap1)
     = Some PermissionError /\
   is_OSError PermissionError = true) /\
  exists self',
    @ServerStatus.retrieve demo_pycountry demo_env_write_fails demo_self ∅ =
      (Raise (ServerStatusError "failed to cache JSON data (PermissionError)"),
       ServerStatus.World self' demo_heap2) /\
    ServerStatus.json_obj self' = Some (demo_snapshot 2) /\
    ServerStatus.json_mtime self' = 1538740800%Q.
Proof.
  split.
  - split; [exact demo_cache_miss|]. split; [exact demo_fetch1|].
    split; [exact demo_fetch2|]. split; reflexivity.
  - exact (@retrieve_cache_write_failure demo_pycountry demo_env_write_fails demo_self
             ∅ demo_heap1 demo_heap2 (demo_snapshot 1) (demo_snapshot 2) PermissionError
             demo_cache_miss demo_fetch1 demo_fetch2 eq_refl eq_refl).
Defined.

(** C2, counterexample. No cache file, the page is fetched, the cache file
    cannot be written: [retrieve] does not return, it raises. *)
Lemma retrieve_cache_write_failure_counterexample :
  is_ok (@get_server_data demo_pycountry (page1 demo_env_write_fails)
           (utcnow1 demo_env_write_fails) ∅) = true /\
  is_ok (@ServerStatus.retrieve demo_pycountry demo_env_write_fails demo_self ∅).1 = false /\
  (@ServerStatus.retrieve demo_pycountry demo_env_write_fails demo_self ∅).1
    = Raise (ServerStatusError "failed to cache JSON data (PermissionError)").
Proof. split; [|split]; vm_compute; reflexivity. Qed.

(** ** The generator of [filter] *)

Section Generator.
Context `{ServerStatus.StrLib} `{ServerStatus.Re}.

Lemma run_cons_true (t : Q) (crit : ServerStatus.criteria) (m : record)
    (rest : list record) :
  ServerStatus.passes t crit m = Ok true ->
  ServerStatus.run t crit (m :: rest)
  = (m :: (ServerStatus.run t crit rest).1, (ServerStatus.run t crit rest).2).
Proof. intros Hp. simpl. rewrite Hp. by destruct (ServerStatus.run t crit rest). Qed.

(** One resumption of the body against the loop it is a part of. *)
Lemma advance_run (t : Q) (crit : ServerStatus.criteria) (rest : list record)
    (pos : nat) :
  match ServerStatus.advance t crit rest pos with
  | (ServerStatus.Yield m, p) =>
      exists k, p = (pos + S k)%nat /\ (k < length rest)%nat /\
        ServerStatus.run t crit rest
        = (m :: (ServerStatus.run t crit (drop (S k) rest)).1,
           (ServerStatus.run t crit (drop (S k) rest)).2)
  | (ServerStatus.StopIteration, _) => ServerStatus.run t crit rest = ([], None)
  | (ServerStatus.Raised e, _) => ServerStatus.run t crit rest = ([], Some e)
  end.
Proof.
  revert pos. induction rest as [|m rest IH]; intros pos; simpl; [done|].
  destruct (ServerStatus.passes t crit m) as [[|]|e] eqn:Hp; [| |done].
  - exists 0%nat. split; [lia|]. split; [simpl; lia|].
    simpl. rewrite drop_0. by destruct (ServerStatus.run t crit rest).
  - specialize (IH (S pos)).
    destruct (ServerStatus.advance t crit rest (S pos)) as [[m'| |e] p]; [|done..].
    destruct IH as (k & -> & Hk & Hrun). exists (S k).
    split; [lia|]. split; [simpl; lia|]. exact Hrun.
Qed.

(** Enough calls of [next] reach the end of the generator, and the records
    received are those of the loop of [filter]. *)
Lemma iterate_run (fuel : nat) (h : heap) (now : Q) (g : ServerStatus.generator) :
  ServerStatus.gen_finished g = false ->
  (length (drop (ServerStatus.gen_pos g) (deref h (ServerStatus.gen_mirrors g))) < fuel)%nat ->
  exists g',
    ServerStatus.iterate fuel h now g
    = Some (ServerStatus.read_all h now (ServerStatus.PyGen g), g') /\
    ServerStatus.gen_finished g' = true.
Proof.
  revert g. induction fuel as [|fuel IH]; intros g Hfin Hlen; [lia|].
  simpl. unfold ServerStatus.next. rewrite Hfin.
  pose proof (advance_run (default now (ServerStatus.gen_t g)) (ServerStatus.gen_crit g)
                (drop (ServerStatus.gen_pos g) (deref h (ServerStatus.gen_mirrors g)))
                (ServerStatus.gen_pos g)) as Hadv.
  destruct (ServerStatus.advance _ _ _ _) as [[m| |e] p].
  - destruct Hadv as (k & -> & Hk & Hrun).
    set (g1 := {| ServerStatus.gen_mirrors := ServerStatus.gen_mirrors g;
                  ServerStatus.gen_crit := ServerStatus.gen_crit g;
                  ServerStatus.gen_t := Some (default now (ServerStatus.gen_t g));
                  ServerStatus.gen_pos := (ServerStatus.gen_pos g + S k)%nat;
                  ServerStatus.gen_finished := false |}).
    destruct (IH g1) as (g' & Hit & Hfin'); [done| |].
    { simpl. rewrite <- drop_drop, length_drop. lia. }
    rewrite Hit. exists g'. split; [|done].
    unfold ServerStatus.read_all. subst g1. simpl.
    rewrite Hrun, <- drop_drop.
    by destruct (ServerStatus.run _ _ (drop (S k) _)).
  - eexists. split; [by rewrite Hadv | reflexivity].
  - eexists. split; [by rewrite Hadv | reflexivity].
Qed.

(** A finished generator gives nothing more. *)
Lemma iterate_finished (fuel : nat) (h : heap) (now : Q) (g : ServerStatus.generator) :
  ServerStatus.gen_finished g = true ->
  ServerStatus.iterate (S fuel) h now g = Some ([], None, g).
Proof. intros Hfin. simpl. unfold ServerStatus.next. by rewrite Hfin. Qed.

(** The first iteration over what [filter] returns gives the records of
    the filter loop and leaves the generator finished. *)
Lemma iterate_filter (fuel : nat) (h : heap) (now : Q) (mirrors : loc)
    (crit : ServerStatus.criteria) :
  (length (deref h mirrors) < fuel)%nat ->
  exists g1,
    ServerStatus.iterate fuel h now (ServerStatus.filter mirrors crit)
    = Some (ServerStatus.run now crit (deref h mirrors), g1) /\
    ServerStatus.gen_finished g1 = true.
Proof.
  intros Hfuel.
  destruct (iterate_run fuel h now (ServerStatus.filter mirrors crit)) as (g1 & Hit & Hfin).
  { done. }
  { simpl. by rewrite drop_0. }
  exists g1. split; [|done]. rewrite Hit. simpl. by rewrite drop_0.
Qed.

(** C7 (amended). The value [filter] returns is a one-shot generator: the
    first iteration over it gives the records of the filter loop; a second
    iteration over the same value gives no record at all. *)
Theorem filter_generator_one_shot (h : heap) (now now' : Q) (mirrors : loc)
    (crit : ServerStatus.criteria) (fuel fuel' : nat) :
  (length (deref h mirrors) < fuel)%nat ->
  (0 < fuel')%nat ->
  exists g1,
    ServerStatus.iterate fuel h now (ServerStatus.filter mirrors crit)
    = Some (ServerStatus.run now crit (deref h mirrors), g1) /\
    ServerStatus.iterate fuel' h now' g1 = Some ([], None, g1).
Proof.
  intros Hfuel Hfuel'.
  destruct (iterate_filter fuel h now mirrors crit Hfuel) as (g1 & Hit & Hfin).
  exists g1. split; [done|].
  destruct fuel' as [|fuel']; [lia|]. by apply iterate_finished.
Qed.

End Generator.

Lemma filter_generator_one_shot_witness :
  ((length (deref demo_heap5 1%positive) < 2)%nat /\ (0 < 2)%nat) /\
  exists g1,
    @ServerStatus.iterate demo_strlib demo_re 2 demo_heap5 0
       (ServerStatus.filter 1%positive no_criteria)
    = Some (@ServerStatus.run demo_strlib demo_re 0 no_criteria
              (deref demo_heap5 1%positive), g1) /\
    @ServerStatus.iterate demo_strlib demo_re 2 demo_heap5 7 g1 = Some ([], None, g1).
Proof.
  assert (H1 : (length (deref demo_heap5 1%positive) < 2)%nat) by (vm_compute; lia).
  assert (H2 : (0 < 2)%nat) by lia.
  split; [split; assumption|].
  exact (@filter_generator_one_shot demo_strlib demo_re demo_heap5 0 7 1%positive
           no_criteria 2 2 H1 H2).
Defined.

(** C7, counterexample. One record, no criterion: the first iteration
    over the returned value gives the record, the second gives nothing. *)
Lemma filter_second_iteration_counterexample :
  match @ServerStatus.iterate demo_strlib demo_re 2 demo_heap5 0
          (ServerStatus.filter 1%positive no_criteria) with
  | Some (first, _, g1) =>
      match @ServerStatus.iterate demo_strlib demo_re 2 demo_heap5 0 g1 with
      | Some (second, _, _) =>
          map the_url first = ["se-sto.pvdata.host"] /\ map the_url second = []
      | None => False
      end
  | None => False
  end.
Proof. vm_compute. split; reflexivity. Qed.

(** ** The criteria of [filter] *)

Section FilterLaw.
Context `{ServerStatus.StrLib} `{ServerStatus.Re}.




Lemma age_passes_spec (t : Q) (crit : ServerStatus.criteria) (m : record) :
  (truthy_num (ServerStatus.age crit) = true ->
     exists ls, m !! "last_sync" = Some (VNum ls)) ->
  exists b, ServerStatus.age_passes t crit m = Ok b /\
    (b = true <->
     (truthy_num (ServerStatus.age crit) = true ->
      forall ls, m !! "last_sync" = Some (VNum ls) ->
        (t - ls <= default 0 (ServerStatus.age crit) * 3600)%Q)).
Proof.
  intros Hfield. unfold ServerStatus.age_passes.
  destruct (truthy_num (ServerStatus.age crit)) eqn:Ht.
  2:{ exists true. split; [done|]. split; [discriminate|done]. }
  destruct (Hfield eq_refl) as [ls Hls]. rewrite (getitem_Some _ _ _ Hls). simpl.
  eexists. split; [done|].
  rewrite negb_true_iff, Qltb_ge. split.
  - intros Hle _ ls' Hls'. rewrite Hls in Hls'. injection Hls' as <-. lra.
  - intros Hsat. specialize (Hsat eq_refl ls Hls). lra.
Qed.




(** C8 (amended). For a record that lacks the [last_sync] field: when an
    age criterion is supplied (not [None], not 0) the age test raises
    [KeyError], so that the record is never yielded, and the loop raises
    [KeyError] as soon as the record has passed the other criteria; when
    no age criterion is supplied the age test lets the record through. *)
Theorem filter_age_missing_last_sync (t : Q) (crit : ServerStatus.criteria)
    (m : record) :
  m !! "last_sync" = None ->
  (truthy_num (ServerStatus.age crit) = true ->
     ServerStatus.age_passes t crit m = Raise (KeyError "last_sync") /\
     ServerStatus.passes t crit m <> Ok true /\
     (ServerStatus.country_passes crit m = Ok true ->
      ServerStatus.protocol_passes crit m = Ok true ->
      ServerStatus.include_passes crit m = Ok true ->
      ServerStatus.exclude_passes crit m = Ok true ->
      ServerStatus.passes t crit m = Raise (KeyError "last_sync"))) /\
  (truthy_num (ServerStatus.age crit) = false ->
     ServerStatus.age_passes t crit m = Ok true).
Proof.
  intros Hnone. split.
  - intros Ht.
    assert (Ha : ServerStatus.age_passes t crit m = Raise (KeyError "last_sync")).
    { unfold ServerStatus.age_passes. rewrite Ht, (getitem_None _ _ Hnone). done. }
    split; [done|]. unfold ServerStatus.passes, ServerStatus.and_then. rewrite Ha. split.
    + destruct (ServerStatus.country_passes crit m) as [[|]|]; simpl; try discriminate.
      destruct (ServerStatus.protocol_passes crit m) as [[|]|]; simpl; try discriminate.
      destruct (ServerStatus.include_passes crit m) as [[|]|]; simpl; try discriminate.
      destruct (ServerStatus.exclude_passes crit m) as [[|]|]; simpl; discriminate.
    + by intros -> -> -> ->.
  - intros Ht. unfold ServerStatus.age_passes. by rewrite Ht.
Qed.

(** With a numeric [last_sync] the age test does not raise. *)
Lemma filter_age_with_last_sync (t : Q) (crit : ServerStatus.criteria) (m : record)
    (ls : Q) :
  m !! "last_sync" = Some (VNum ls) ->
  exists b, ServerStatus.age_passes t crit m = Ok b.
Proof.
  intros Hls. destruct (age_passes_spec t crit m) as (b & Hb & _); eauto.
Qed.

End FilterLaw.

Lemma demo_heap3_content : deref demo_heap3 1%positive = [rec_se; rec_at; rec_de].
Proof. eval_eq. Qed.



(** The countries "se" and "Germany" select the Swedish and the German
    server of three, whatever the case of the letters. *)
Example filter_by_country :
  match @ServerStatus.iterate demo_strlib demo_re 4 demo_heap3 0
          (ServerStatus.filter 1%positive demo_countries) with
  | Some (out, e, _) =>
      map the_url out = ["se-sto.pvdata.host"; "de-fra.pvdata.host"] /\ e = None
  | None => False
  end.
Proof. vm_compute. split; reflexivity. Qed.


Lemma filter_age_missing_last_sync_witness :
  rec_se !! "last_sync" = None /\
  (truthy_num (ServerStatus.age demo_age) = true ->
     ServerStatus.age_passes 0 demo_age rec_se = Raise (KeyError "last_sync") /\
     @ServerStatus.passes demo_strlib demo_re 0 demo_age rec_se <> Ok true /\
     (@ServerStatus.country_passes demo_strlib demo_age rec_se = Ok true ->
      ServerStatus.protocol_passes demo_age rec_se = Ok true ->
      @ServerStatus.include_passes demo_re demo_age rec_se = Ok true ->
      @ServerStatus.exclude_passes demo_re demo_age rec_se = Ok true ->
      @ServerStatus.passes demo_strlib demo_re 0 demo_age rec_se
      = Raise (KeyError "last_sync"))) /\
  (truthy_num (ServerStatus.age demo_age) = false ->
     ServerStatus.age_passes 0 demo_age rec_se = Ok true).
Proof.
  assert (Hnone : rec_se !! "last_sync" = None) by reflexivity.
  split; [exact Hnone|].
  exact (@filter_age_missing_last_sync demo_strlib demo_re 0 demo_age rec_se Hnone).
Defined.

(** C8, counterexample. A server record as the program makes them has no
    [last_sync]; with [age=1] the filter yields nothing and raises
    [KeyError]. *)
Lemma filter_age_missing_last_sync_counterexample :
  rec_se !! "last_sync" = None /\
  match @ServerStatus.iterate demo_strlib demo_re 2 demo_heap5 0
          (ServerStatus.filter 1%positive demo_age) with
  | Some (out, e, _) => out = [] /\ e = Some (KeyError "last_sync")
  | None => False
  end.
Proof. split; [reflexivity|]. vm_compute. split; reflexivity. Qed.

(** ** The probe of a rating worker *)

Section Worker.
Context `{ServerStatus.UrlParse} `{ServerStatus.FloatArith}.


Lemma divide_zero (n : N) (dt : Q) :
  (dt == 0)%Q -> ServerStatus.divide n dt = Raise ZeroDivisionError.
Proof.
  intros Hdt. unfold ServerStatus.divide. apply Qeq_bool_iff in Hdt. by rewrite Hdt.
Qed.


(** When the elapsed time is 0 the division raises, neither [except]
    clause names [ZeroDivisionError], and the worker thread ends without a
    tuple for its url. *)
Lemma worker_zero_elapsed (env : ServerStatus.probe_env) (url sch : string) (n : N) :
  ServerStatus.ping env = None ->
  ServerStatus.scheme url = Ok sch ->
  ServerStatus.request (url +:+ ServerStatus.db_subpath) = None ->
  ServerStatus.tmpdir env = None ->
  ServerStatus.call env = None ->
  ServerStatus.size env = Ok n ->
  (ServerStatus.fsub (ServerStatus.clock1 env) (ServerStatus.clock0 env) == 0)%Q ->
  ServerStatus.worker env url = Raise ZeroDivisionError.
Proof.
  intros Hping Hsch Hreq Htmp Hcall Hsize Hdt. unfold ServerStatus.worker.
  rewrite Hping, Hsch. simpl.
  destruct (String.eqb sch "rsync").
  - unfold ServerStatus.probe_rsync.
    by rewrite Htmp, Hcall, Hsize, (divide_zero _ _ Hdt).
  - rewrite Hreq. unfold ServerStatus.probe_http.
    by rewrite Hcall, Hsize, (divide_zero _ _ Hdt).
Qed.

(** An exception of the ping is not caught, nor is one of [urlparse]. *)
Lemma worker_ping_raises (env : ServerStatus.probe_env) (url : string) (e : exn) :
  ServerStatus.ping env = Some e -> ServerStatus.worker env url = Raise e.
Proof. intros Hping. unfold ServerStatus.worker. by rewrite Hping. Qed.

Lemma worker_urlparse_raises (env : ServerStatus.probe_env) (url : string) (e : exn) :
  ServerStatus.ping env = None ->
  ServerStatus.scheme url = Raise e ->
  ServerStatus.worker env url = Raise e.
Proof. intros Hping Hsch. unfold ServerStatus.worker. by rewrite Hping, Hsch. Qed.

(** Nor is the exception of [Request], which is made before the [try]
    statement: for a url without a scheme the worker thread ends without a
    tuple for its url. *)
Lemma worker_request_raises (env : ServerStatus.probe_env) (url sch : string)
    (e : exn) :
  ServerStatus.ping env = None ->
  ServerStatus.scheme url = Ok sch ->
  sch <> "rsync" ->
  ServerStatus.request (url +:+ ServerStatus.db_subpath) = Some e ->
  ServerStatus.worker env url = Raise e.
Proof.
  intros Hping Hsch Hs Hreq. unfold ServerStatus.worker. rewrite Hping, Hsch. simpl.
  destruct (String.eqb_spec sch "rsync") as [?|_]; [done|].
  by rewrite Hreq.
Qed.

End Worker.

(** In the rsync branch the size is read after the duration has been
    taken: when the file is not there the rate stays 0 and the duration
    is the elapsed time. *)
Example probe_rsync_size_missing :
  @ServerStatus.probe_rsync demo_float
    {| ServerStatus.ping := None; ServerStatus.tmpdir := None;
       ServerStatus.clock0 := 10; ServerStatus.call := None;
       ServerStatus.size := Raise FileNotFoundError; ServerStatus.clock1 := 12 |}
  = Ok (0%Q, ServerStatus.Float (12 - 10)%Q).
Proof. reflexivity. Qed.

(** A [PermissionError] of the call of rsync is not among the exceptions
    of its [except] clause. *)
Example probe_rsync_permission :
  @ServerStatus.probe_rsync demo_float
    {| ServerStatus.ping := None; ServerStatus.tmpdir := None;
       ServerStatus.clock0 := 10; ServerStatus.call := Some PermissionError;
       ServerStatus.size := Ok 0%N; ServerStatus.clock1 := 12 |}
  = Raise PermissionError.
Proof. reflexivity. Qed.

(** The urls of the server list are host names without a scheme: no
    request can be made for them, and the turn of the worker ends with the
    [ValueError] of [Request], whatever the network would answer. *)
Example worker_without_scheme :
  @ServerStatus.worker demo_urlparse demo_float demo_probe_ok "se-sto.pvdata.host"
  = Raise ValueError.
Proof. reflexivity. Qed.



(** ** Stable sorting *)

Section StableSort.
Context {A : Type} (skip : A -> A -> bool).

Lemma insert_by_Permutation (x : A) (l : list A) :
  Permutation (ServerStatus.insert_by skip x l) (x :: l).
Proof.
  induction l as [|y l IH]; simpl; [done|].
  destruct (skip y x); [|done].
  rewrite IH. apply perm_swap.
Qed.

Lemma stable_sort_Permutation (l : list A) :
  Permutation (ServerStatus.stable_sort skip l) l.
Proof.
  induction l as [|x l IH]; simpl; [done|].
  rewrite insert_by_Permutation. by constructor.
Qed.

(** The elements to sort are in [P], on which [skip] is a strict order
    whose complement is transitive. *)
Variable P : A -> Prop.
Hypothesis skip_asym : forall x y, P x -> P y -> skip y x = true -> skip x y = false.
Hypothesis may_precede_trans :
  forall a b c, P a -> P b -> P c ->
    may_precede skip a b -> may_precede skip b c -> may_precede skip a c.

Lemma insert_by_sorted (x : A) (l : list A) :
  P x -> Forall P l ->
  StronglySorted (may_precede skip) l ->
  StronglySorted (may_precede skip) (ServerStatus.insert_by skip x l).
Proof.
  intros Hx HP. induction 1 as [|y l Hsorted IH Hall]; simpl.
  - repeat constructor.
  - apply Forall_cons in HP as [Hy HP]. destruct (skip y x) eqn:E.
    + constructor; [by apply IH|].
      rewrite insert_by_Permutation. constructor; [|done].
      by apply skip_asym.
    + constructor; [by constructor|]. constructor; [done|].
      rewrite Forall_forall in Hall, HP. apply Forall_forall. intros z Hz.
      apply (may_precede_trans x y z); auto.
Qed.

Lemma stable_sort_sorted (l : list A) :
  Forall P l -> StronglySorted (may_precede skip) (ServerStatus.stable_sort skip l).
Proof.
  induction 1 as [|x l Hx HP IH]; simpl; [constructor|].
  apply insert_by_sorted; [done| |done]. by rewrite stable_sort_Permutation.
Qed.

End StableSort.



Lemma sort_desc_Permutation {A : Type} (key : A -> Q) (l : list A) :
  Permutation (ServerStatus.sort_desc key l) l.
Proof. apply stable_sort_Permutation. Qed.

(** ** Rating *)

Section Rate.
Context `{ServerStatus.StrLib} `{ServerStatus.Re} `{ServerStatus.UrlParse}
        `{ServerStatus.FloatArith}.
Variable measured : string -> Q.

Lemma url_of_has_url (m : record) : has_url m -> ServerStatus.url_of m = Ok (the_url m).
Proof.
  intros [u Hu]. unfold ServerStatus.url_of, the_url, getitem. by rewrite Hu.
Qed.

Lemma mapM_url_of (items : list record) :
  Forall has_url items -> mapM ServerStatus.url_of items = Ok (map the_url items).
Proof.
  induction 1 as [|m items Hm _ IH]; [done|].
  cbn [mapM]. rewrite (url_of_has_url m Hm). simpl. by rewrite IH.
Qed.

(** The dictionary built from the result queue: whatever the order of the
    tuples, each url that occurs is mapped to its measured rate. *)
Lemma collect_rates_lookup (results : list (string * Q * ServerStatus.pyfloat))
    (u : string) :
  Forall (fun r => r.1.2 = measured r.1.1) results ->
  u ∈ map (fun r => r.1.1) results ->
  ServerStatus.collect_rates results !! u = Some (measured u).
Proof.
  unfold ServerStatus.collect_rates. generalize (∅ : gmap string Q).
  induction results as [|r results IH]; intros rates Hall Hin; simpl in *.
  - by apply elem_of_nil in Hin.
  - apply Forall_cons in Hall as [Hr Hall].
    destruct (decide (u ∈ map (fun r => r.1.1) results)) as [Hu|Hu].
    + by apply IH.
    + apply elem_of_cons in Hin as [->|?]; [|done].
      clear IH Hall. revert rates.
      induction results as [|r' results IH]; intros rates; simpl in *.
      * rewrite lookup_insert_eq. by rewrite Hr.
      * apply not_elem_of_cons in Hu as [Hne Hu].
        rewrite insert_insert_ne by done. by apply IH.
Qed.

Lemma select_spec (rates : gmap string Q) (test : Q -> bool) (items : list record) :
  Forall has_url items ->
  Forall (fun m => rates !! the_url m = Some (rate_under measured m)) items ->
  ServerStatus.select rates test items
  = Ok (map (fun m => (rate_under measured m, m))
          (List.filter (fun m => test (rate_under measured m)) items)).
Proof.
  induction 1 as [|m items Hm _ IH]; intros Hrates; [done|].
  apply Forall_cons in Hrates as [Hr Hrates]. simpl.
  unfold ServerStatus.rate_of. rewrite (url_of_has_url m Hm). simpl. rewrite Hr.
  simpl. rewrite (IH Hrates). simpl. by destruct (test _).
Qed.


Lemma snd_keyed (key : record -> Q) (l : list record) :
  (map (fun m => (key m, m)) l).*2 = l.
Proof. induction l as [|m l IH]; [done|]. csimpl. f_equal. exact IH. Qed.





End Rate.

Lemma demo_records_have_url : Forall has_url (deref demo_heap3 1%positive).
Proof.
  rewrite demo_heap3_content.
  repeat constructor; eexists; reflexivity.
Qed.





(** The three mirrors with the rates 500, 0 and 1000 that their probes
    give: [rate] returns the third, the first, the second, whatever the
    order in which the three tuples arrived. *)
Example rate_three_mirrors :
  match @ServerStatus.rate demo_strlib demo_re
          (rev (@results_put demo_urlparse demo_float demo_probes
                  (map the_url (deref demo_heap_mirrors 1%positive))))
          demo_self 5 demo_heap_mirrors 0 (ServerStatus.PyList 1%positive) with
  | ServerStatus.Returns (l', h') =>
      map the_url (deref h' l')
      = ["https://de-fra.pvdata.host/"; "https://se-sto.pvdata.host/";
         "https://at-wie.pvdata.host/"]
  | _ => False
  end.
Proof. vm_compute. reflexivity. Qed.


(** Three servers with rates 500, 0 and 1000: [rate] returns the third,
    the first, the second, although the results arrived in another order. *)
Example rate_three_servers :
  match @ServerStatus.rate demo_strlib demo_re demo_q_out demo_self 5 demo_heap3 0
          (ServerStatus.PyList 1%positive) with
  | ServerStatus.Returns (l', h') =>
      map the_url (deref h' l')
      = ["de-fra.pvdata.host"; "se-sto.pvdata.host"; "at-wie.pvdata.host"] /\
      map the_url (deref h' 1%positive)
      = ["se-sto.pvdata.host"; "at-wie.pvdata.host"; "de-fra.pvdata.host"]
  | _ => False
  end.
Proof. vm_compute. split; reflexivity. Qed.

(** A worker that died has put no tuple on the queue: [rate] waits. *)
Example rate_blocks_on_missing_result :
  @ServerStatus.rate demo_strlib demo_re (take 2 demo_q_out) demo_self 5 demo_heap3 0
    (ServerStatus.PyList 1%positive)
  = ServerStatus.Blocks.
Proof. vm_compute. reflexivity. Qed.

(** A rate below 0, as a clock set back during the download gives it, is
    neither greater than 0 nor equal to 0: the record is in neither part. *)
Example rate_negative_dropped :
  match @ServerStatus.rate demo_strlib demo_re
          [("se-sto.pvdata.host", (-5)%Q, ServerStatus.Float (-1))]
          demo_self 5 demo_heap5 0 (ServerStatus.PyList 1%positive) with
  | ServerStatus.Returns (l', h') => deref h' l' = []
  | _ => False
  end.
Proof. vm_compute. reflexivity. Qed.

(** ** Sorting and the list of the snapshot *)

Section Sort.
Context `{ServerStatus.StrLib} `{ServerStatus.Re}.

(** [list(mirrors)] leaves every list object as it is: a list argument is
    returned itself, a generator is read into a new list. *)
Lemma as_list_frame (h h1 : heap) (now : Q) (mirrors : ServerStatus.iterable) (l : loc) :
  ServerStatus.as_list h now mirrors = Ok (l, h1) ->
  (forall l0, is_Some (h !! l0) -> h1 !! l0 = h !! l0) /\
  (forall l0, mirrors = ServerStatus.PyList l0 -> l = l0 /\ h1 = h) /\
  (forall g, mirrors = ServerStatus.PyGen g -> h !! l = None).
Proof.
  destruct mirrors as [l1|g]; simpl.
  - intros [= -> ->]. split; [done|]. split; [|done]. by intros l0 [= ->].
  - destruct (if ServerStatus.gen_finished g then _ else _) as [items [e|]];
      [discriminate|].
    intros [= <- <-]. split; [|split; [done|]].
    + intros l0 Hl0. exact (alloc_frame h items l0 Hl0).
    + intros _ _. exact (alloc_fresh h items).
Qed.

Lemma rate_frame (q_out : list (string * Q * ServerStatus.pyfloat))
    (self : ServerStatus.t) (threads : Z) (h h' : heap) (now : Q)
    (mirrors : ServerStatus.iterable) (l' : loc) :
  ServerStatus.rate q_out self threads h now mirrors = ServerStatus.Returns (l', h') ->
  forall l0, is_Some (h !! l0) -> h' !! l0 = h !! l0.
Proof.
  unfold ServerStatus.rate.
  destruct (ServerStatus.as_list h now mirrors) as [[l h1]|] eqn:Hal; [|discriminate].
  apply as_list_frame in Hal as (Hframe & _ & _).
  destruct (deref h1 l) as [|m items].
  { intros [= <- <-]. exact Hframe. }
  destruct (if Z.eqb threads 0 then _ else _); [|discriminate].
  destruct (mapM _ _); [|discriminate].
  destruct (Nat.ltb _ _); [discriminate|].
  destruct (ServerStatus.rank _ _) as [ranked|]; [|discriminate].
  intros [= <- <-] l0 Hl0.
  rewrite <- (Hframe l0 Hl0). apply alloc_frame. by rewrite (Hframe l0 Hl0).
Qed.

Lemma mapM_getitem (key : string) (items : list record) (keys : list val) :
  mapM (fun m => getitem m key) items = Ok keys ->
  Forall (fun p => p.2 !! key = Some p.1) (zip keys items).
Proof.
  revert keys. induction items as [|m items IH]; intros keys; cbn [mapM].
  - unfold mret, result_ret. intros [= <-]. constructor.
  - destruct (m !! key) as [v|] eqn:Hv.
    2:{ by rewrite (getitem_None _ _ Hv). }
    rewrite (getitem_Some _ _ _ Hv). simpl.
    destruct (mapM _ items) as [keys'|]; simpl; [|discriminate].
    intros [= <-]. simpl. constructor; [done|]. by apply IH.
Qed.

Lemma string_ltb_asym (x y : string) : String.ltb y x = true -> String.ltb x y = false.
Proof.
  unfold String.ltb. rewrite (String.compare_antisym x y).
  by destruct (String.compare y x).
Qed.

Lemma string_ltb_false (x y : string) : String.ltb y x = false <-> String.le x y.
Proof.
  unfold String.le, String.leb, String.ltb. rewrite (String.compare_antisym x y).
  destruct (String.compare y x); simpl; split; try done.
Qed.

Lemma same_type_trans (a b c : val) :
  ServerStatus.same_type a b = true -> ServerStatus.same_type a c = true ->
  ServerStatus.same_type b c = true.
Proof. by destruct a, b, c. Qed.

Lemma val_ltb_asym (x y : val) :
  ServerStatus.val_ltb y x = true -> ServerStatus.val_ltb x y = false.
Proof.
  destruct x as [x|x], y as [y|y]; simpl; try done.
  - apply string_ltb_asym.
  - rewrite Qltb_lt, Qltb_ge. lra.
Qed.

Lemma val_ltb_false_trans (a b c : val) :
  ServerStatus.same_type a b = true -> ServerStatus.same_type b c = true ->
  ServerStatus.val_ltb b a = false -> ServerStatus.val_ltb c b = false ->
  ServerStatus.val_ltb c a = false.
Proof.
  destruct a as [a|a], b as [b|b], c as [c|c]; simpl; try done; intros _ _.
  - rewrite !string_ltb_false. intros Hab Hbc. by transitivity b.
  - rewrite !Qltb_ge. lra.
Qed.

(** After [list.sort] the records stand in the order of their keys. *)
Lemma sort_by_key_sorted (reverse : bool) (key : string) (items items' : list record) :
  ServerStatus.sort_by_key reverse key items = Ok items' ->
  StronglySorted (key_ordered reverse key) items'.
Proof.
  unfold ServerStatus.sort_by_key.
  destruct (mapM _ items) as [keys|] eqn:Hk; simpl; [|discriminate].
  destruct (ServerStatus.homogeneous keys) eqn:Hhom; [|discriminate].
  intros [= <-].
  pose proof (mapM_getitem key items keys Hk) as Hfields.
  set (skip := fun y x : val * record =>
                 if reverse then ServerStatus.val_ltb x.1 y.1
                 else ServerStatus.val_ltb y.1 x.1).
  destruct keys as [|k0 keys]; [constructor|].
  set (P := fun p : val * record =>
              ServerStatus.same_type k0 p.1 = true /\ p.2 !! key = Some p.1).
  assert (HP : Forall P (zip (k0 :: keys) items)).
  { assert (Htypes : Forall (fun k => ServerStatus.same_type k0 k = true) (k0 :: keys)).
    { constructor; [by destruct k0|]. simpl in Hhom.
      pose proof (proj1 (forallb_forall _ _) Hhom) as Hall.
      apply Forall_forall. intros k Hin.
      apply Hall. by apply list_elem_of_In. }
    pose proof (proj1 (Forall_forall _ _) Htypes) as Htypes'.
    pose proof (proj1 (Forall_forall _ _) Hfields) as Hfields'.
    apply Forall_forall. intros p Hp.
    split; [|by apply Hfields']. apply Htypes'.
    destruct p as [k m]. by apply elem_of_zip_l in Hp. }
  assert (Hsorted : StronglySorted (may_precede skip)
                      (ServerStatus.stable_sort skip (zip (k0 :: keys) items))).
  { apply (stable_sort_sorted skip P); [| |exact HP].
    - intros x y _ _. unfold skip. destruct reverse; apply val_ltb_asym.
    - intros a b c [Ha _] [Hb _] [Hc _]. unfold may_precede, skip.
      destruct reverse.
      + intros Hab Hbc. eapply (val_ltb_false_trans c.1 b.1 a.1); eauto using same_type_trans.
      + intros Hab Hbc. eapply (val_ltb_false_trans a.1 b.1 c.1); eauto using same_type_trans. }
  assert (HP' : Forall P (ServerStatus.stable_sort skip (zip (k0 :: keys) items)))
    by (by rewrite stable_sort_Permutation).
  clear HP Hfields. revert HP'.
  induction Hsorted as [|p ps _ IH Hall]; intros HP'; [constructor|].
  apply Forall_cons in HP' as [[Hp1 Hp2] HP']. csimpl. constructor; [by apply IH|].
  apply Forall_fmap. rewrite Forall_forall in Hall, HP'. apply Forall_forall.
  intros q Hq. destruct (HP' q Hq) as [Hq1 Hq2]. specialize (Hall q Hq).
  exists p.1, q.1. split; [done|]. split; [done|].
  split; [by eapply same_type_trans|].
  unfold may_precede, skip in Hall. by destruct reverse.
Qed.

(** The content after [list.sort] is a rearrangement of the content
    before. *)
Lemma sort_by_key_Permutation (reverse : bool) (key : string)
    (items items' : list record) :
  ServerStatus.sort_by_key reverse key items = Ok items' -> Permutation items' items.
Proof.
  unfold ServerStatus.sort_by_key.
  destruct (mapM _ items) as [keys|] eqn:Hk; simpl; [|discriminate].
  destruct (ServerStatus.homogeneous keys); [|discriminate].
  intros [= <-]. rewrite stable_sort_Permutation.
  rewrite snd_zip; [done|]. apply mapM_length in Hk. lia.
Qed.

(** C4 (amended). Let the store hold a snapshot, and let a call of [sort]
    return.
    - If the argument is not the list object of the snapshot itself (it is
      another list, or a generator such as [filter] returns), or if the key
      is none of age, country, country_code, delay and score, the server
      list of the snapshot is unchanged.
    - If the argument is the list object of the snapshot and the key is one
      of those five, [sort] returns that same object, and its content is
      now the rearrangement of what it was in the order of the key: the
      list of the snapshot has been sorted in place. *)
Theorem sort_snapshot_list (q_out : list (string * Q * ServerStatus.pyfloat))
    (self : ServerStatus.t) (snap : snapshot) (h h' : heap) (now : Q)
    (mirrors : ServerStatus.iterable) (by_ : option string) (l' : loc) :
  ServerStatus.json_obj self = Some snap ->
  is_Some (h !! servers snap) ->
  ServerStatus.sort q_out self h now mirrors by_ = ServerStatus.Returns (l', h') ->
  (mirrors <> ServerStatus.PyList (servers snap) \/
   (forall key, by_ = Some key -> key ∉ in_place_keys) ->
   deref h' (servers snap) = deref h (servers snap)) /\
  (mirrors = ServerStatus.PyList (servers snap) ->
   forall key, by_ = Some key -> key ∈ in_place_keys ->
   l' = servers snap /\
   Permutation (deref h' (servers snap)) (deref h (servers snap)) /\
   StronglySorted
     (key_ordered (String.eqb key "age")
        (if String.eqb key "age" then "last_sync" else key))
     (deref h' (servers snap)) /\
   ServerStatus.sort_by_key (String.eqb key "age")
     (if String.eqb key "age" then "last_sync" else key) (deref h (servers snap))
   = Ok (deref h' (servers snap))).
Proof.
  intros _ Hsnap. set (l0 := servers snap) in *.
  unfold ServerStatus.sort.
  destruct (ServerStatus.as_list h now mirrors) as [[l h1]|] eqn:Hal; [|discriminate].
  apply as_list_frame in Hal as (Hframe & Hlist & Hgen).
  assert (Hother : mirrors <> ServerStatus.PyList l0 -> l <> l0).
  { intros Hne ->. destruct mirrors as [l1|g].
    - destruct (Hlist l1 eq_refl) as [-> _]. done.
    - rewrite (Hgen g eq_refl) in Hsnap. by destruct Hsnap. }
  assert (Hin_place : forall reverse key,
            ServerStatus.sort_in_place reverse key l h1 = ServerStatus.Returns (l', h') ->
            l' = l /\
            ServerStatus.sort_by_key reverse key (deref h1 l) = Ok (deref h' l) /\
            forall l1, l1 <> l -> h' !! l1 = h1 !! l1).
  { intros reverse key. unfold ServerStatus.sort_in_place.
    destruct (ServerStatus.sort_by_key reverse key (deref h1 l)) as [items|];
      simpl; [|discriminate].
    intros [= <- <-]. split; [done|]. split.
    - unfold deref. by rewrite lookup_insert_eq.
    - intros l1 Hl1. by apply lookup_insert_ne. }
  destruct by_ as [key|].
  2:{ intros [= <- <-]. split; [|done].
      intros _. unfold deref. by rewrite (Hframe l0 Hsnap). }
  destruct (String.eqb_spec key "age") as [->|Hage].
  { intros (-> & Hsorted & Hrest)%(Hin_place true "last_sync"). split.
    - intros [Hne | Hkey].
      + unfold deref. rewrite (Hrest l0), (Hframe l0 Hsnap); [done|].
        intros E. by apply (Hother Hne).
      + exfalso. apply (Hkey "age" eq_refl). apply list_elem_of_here.
    - intros Hm key [= <-] _. destruct (Hlist l0 Hm) as [-> ->].
      split; [done|]. split; [by eapply sort_by_key_Permutation|].
      split; [by eapply sort_by_key_sorted | done]. }
  destruct (String.eqb_spec key "rate") as [->|Hrate].
  { intros Hr. split.
    - intros _. unfold deref.
      rewrite (rate_frame _ _ _ _ _ _ _ _ Hr l0), (Hframe l0 Hsnap); [done|].
      by rewrite (Hframe l0 Hsnap).
    - intros _ key [= <-] Hk. exfalso.
      repeat (apply elem_of_cons in Hk as [Hk|Hk]; [discriminate Hk|]).
      by apply elem_of_nil in Hk. }
  destruct (decide (key ∈ ["country"; "country_code"; "delay"; "score"])) as [Hk|Hk].
  - rewrite bool_decide_eq_true_2 by done.
    intros (-> & Hsorted & Hrest)%(Hin_place false key). split.
    + intros [Hne | Hkey].
      * unfold deref. rewrite (Hrest l0), (Hframe l0 Hsnap); [done|].
        intros E. by apply (Hother Hne).
      * exfalso. apply (Hkey key eq_refl). unfold in_place_keys.
        by apply list_elem_of_further.
    + intros Hm key' [= <-] _. destruct (Hlist l0 Hm) as [-> ->].
      rewrite (proj2 (String.eqb_neq key "age") Hage).
      split; [done|]. split; [by eapply sort_by_key_Permutation|].
      split; [by eapply sort_by_key_sorted | done].
  - rewrite bool_decide_eq_false_2 by done.
    intros [= <- <-]. split.
    + intros _. unfold deref. by rewrite (Hframe l0 Hsnap).
    + intros _ key' [= <-] Hk'. exfalso. unfold in_place_keys in Hk'.
      apply elem_of_cons in Hk' as [->|Hk']; [done|]. done.
Qed.

End Sort.

(** [get_mirrors] hands out the list object of the snapshot itself, not a
    copy, when the snapshot in memory is still current. *)
Lemma get_mirrors_is_snapshot_list `{Pycountry} (env : retrieve_env) (now : Q)
    (self : ServerStatus.t) (h : heap) (snap : snapshot) :
  ServerStatus.json_obj self = Some snap ->
  (now <= ServerStatus.json_mtime self + ServerStatus.refresh_interval self)%Q ->
  ServerStatus.default_mirrors env now self h None
  = (Ok (ServerStatus.PyList (servers snap)), ServerStatus.World self h).
Proof.
  intros Hobj Hfresh.
  unfold ServerStatus.default_mirrors, ServerStatus.get_mirrors, ServerStatus.get_obj.
  rewrite Hobj. apply Qltb_ge in Hfresh. rewrite Hfresh. done.
Qed.

Lemma demo_sort_by_country :
  @ServerStatus.sort demo_strlib demo_re [] demo_self_loaded demo_heap1 0
    (ServerStatus.PyList 1%positive) (Some "country")
  = ServerStatus.Returns (1%positive, demo_heap1_sorted).
Proof. eval_eq. Qed.

Lemma sort_snapshot_list_witness :
  (ServerStatus.json_obj demo_self_loaded = Some (demo_snapshot 1) /\
   is_Some (demo_heap1 !! servers (demo_snapshot 1)) /\
   @ServerStatus.sort demo_strlib demo_re [] demo_self_loaded demo_heap1 0
     (ServerStatus.PyList 1%positive) (Some "country")
   = ServerStatus.Returns (1%positive, demo_heap1_sorted)) /\
  (ServerStatus.PyList 1%positive <> ServerStatus.PyList (servers (demo_snapshot 1)) \/
   (forall key, Some "country" = Some key -> key ∉ in_place_keys) ->
   deref demo_heap1_sorted (servers (demo_snapshot 1))
   = deref demo_heap1 (servers (demo_snapshot 1))) /\
  (ServerStatus.PyList 1%positive = ServerStatus.PyList (servers (demo_snapshot 1)) ->
   forall key, Some "country" = Some key -> key ∈ in_place_keys ->
   1%positive = servers (demo_snapshot 1) /\
   Permutation (deref demo_heap1_sorted (servers (demo_snapshot 1)))
     (deref demo_heap1 (servers (demo_snapshot 1))) /\
   StronglySorted
     (key_ordered (String.eqb key "age")
        (if String.eqb key "age" then "last_sync" else key))
     (deref demo_heap1_sorted (servers (demo_snapshot 1))) /\
   ServerStatus.sort_by_key (String.eqb key "age")
     (if String.eqb key "age" then "last_sync" else key)
     (deref demo_heap1 (servers (demo_snapshot 1)))
   = Ok (deref demo_heap1_sorted (servers (demo_snapshot 1)))).
Proof.
  assert (H1 : ServerStatus.json_obj demo_self_loaded = Some (demo_snapshot 1))
    by reflexivity.
  assert (H2 : is_Some (demo_heap1 !! servers (demo_snapshot 1)))
    by (eexists; reflexivity).
  split; [split; [exact H1 | split; [exact H2 | exact demo_sort_by_country]]|].
  exact (@sort_snapshot_list demo_strlib demo_re [] demo_self_loaded (demo_snapshot 1)
           demo_heap1 demo_heap1_sorted 0 (ServerStatus.PyList 1%positive)
           (Some "country") 1%positive H1 H2 demo_sort_by_country).
Defined.

(** C4, counterexample. The store holds a snapshot whose server list is
    Sweden, Austria.  [get_mirrors] gives that list object, and [sort]
    by country applied to it leaves the snapshot with the list Austria,
    Sweden. *)
Lemma sort_mutates_snapshot_counterexample :
  ServerStatus.json_obj demo_self_loaded = Some (demo_snapshot 1) /\
  @ServerStatus.default_mirrors demo_pycountry demo_env_write_fails 1538740801
    demo_self_loaded demo_heap1 None
  = (Ok (ServerStatus.PyList (servers (demo_snapshot 1))),
     ServerStatus.World demo_self_loaded demo_heap1) /\
  map the_url (deref demo_heap1 (servers (demo_snapshot 1)))
  = ["se-sto.pvdata.host"; "at-wie.pvdata.host"] /\
  match @ServerStatus.sort demo_strlib demo_re [] demo_self_loaded demo_heap1 0
          (ServerStatus.PyList (servers (demo_snapshot 1))) (Some "country") with
  | ServerStatus.Returns (l', h') =>
      l' = servers (demo_snapshot 1) /\
      map the_url (deref h' (servers (demo_snapshot 1)))
      = ["at-wie.pvdata.host"; "se-sto.pvdata.host"]
  | _ => False
  end.
Proof.
  split; [reflexivity|]. split.
  - apply (@get_mirrors_is_snapshot_list demo_pycountry); [reflexivity|].
    vm_compute. discriminate.
  - split; [vm_compute; reflexivity|]. vm_compute. split; reflexivity.
Qed.

(** Sorting what [filter] returns sorts a new list: the list of the
    snapshot keeps its order. *)
Example sort_filtered_keeps_snapshot :
  match @ServerStatus.sort demo_strlib demo_re [] demo_self_loaded demo_heap1 0
          (ServerStatus.PyGen (ServerStatus.filter 1%positive no_criteria))
          (Some "country") with
  | ServerStatus.Returns (l', h') =>
      l' = 2%positive /\
      map the_url (deref h' l') = ["at-wie.pvdata.host"; "se-sto.pvdata.host"] /\
      map the_url (deref h' 1%positive) = ["se-sto.pvdata.host"; "at-wie.pvdata.host"]
  | _ => False
  end.
Proof. vm_compute. repeat split; reflexivity. Qed.

(** Sorting by age needs [last_sync], which the records of this program
    do not have. *)
Example sort_by_age_raises :
  @ServerStatus.sort demo_strlib demo_re [] demo_self_loaded demo_heap1 0
    (ServerStatus.PyList 1%positive) (Some "age")
  = ServerStatus.Raises (KeyError "last_sync").
Proof. vm_compute. reflexivity. Qed.

(** ** The server list *)

Lemma append_assoc (s1 s2 s3 : string) : s1 +:+ s2 +:+ s3 = (s1 +:+ s2) +:+ s3.
Proof.
  induction s1 as [|a s1 IH]; [done|].
  change (String a (s1 +:+ s2 +:+ s3) = String a ((s1 +:+ s2) +:+ s3)).
  by rewrite IH.
Qed.

Section Mirrorlist.
Context `{ServerStatus.StrLib} `{ServerStatus.Re} `{ServerStatus.TimeLib}
  `{ServerStatus.Pipes}.

Lemma country_tag_spec (include_country : bool) (country : option string) (m : record) :
  (include_country = true -> has_country m) ->
  exists tag country',
    ServerStatus.country_tag include_country country m = Ok (tag, country') /\
    is_tag tag /\ (include_country = false -> tag = EmptyString).
Proof.
  intros Hc. unfold ServerStatus.country_tag. destruct include_country.
  - destruct (Hc eq_refl) as [[c0 Hc0] [c1 Hc1]].
    rewrite (getitem_Some _ _ _ Hc0), (getitem_Some _ _ _ Hc1). simpl.
    destruct (bool_decide _).
    + eexists _, _. split; [done|]. split; [by left | done].
    + eexists _, _. split; [done|]. split; [|done]. right.
      eexists. destruct country as [[|a s]|]; [left | right | left]; done.
  - eexists _, _. split; [done|]. split; [by left | done].
Qed.

(** The text of the loop: for each record, in the order given, one line
    "Server = url", with nothing before it or a country comment. *)
Lemma entries_spec (include_country : bool) (country : option string)
    (items : list record) :
  Forall has_url items ->
  (include_country = true -> Forall has_country items) ->
  exists tags,
    length tags = length items /\
    Forall is_tag tags /\
    (include_country = false -> Forall (eq EmptyString) tags) /\
    ServerStatus.entries include_country country items
    = Ok (concat_strings (zip_with (fun tag m => tag +:+ entry_line m) tags items)).
Proof.
  intros Hurl. revert country.
  induction Hurl as [|m items [u Hu] _ IH]; intros country Hc.
  - exists []. repeat split; done.
  - destruct (country_tag_spec include_country country m) as (tag & country' & Ht & Htag & Hno).
    { intros Hi. specialize (Hc Hi). by apply Forall_cons in Hc as [? _]. }
    destruct (IH country') as (tags & Hlen & Htags & Hnone & Hent).
    { intros Hi. specialize (Hc Hi). by apply Forall_cons in Hc as [_ ?]. }
    exists (tag :: tags). split; [simpl; by rewrite Hlen|].
    split; [by constructor|]. split.
    { intros Hi. constructor; [by rewrite Hno | by apply Hnone]. }
    cbn [ServerStatus.entries]. rewrite Ht. simpl.
    rewrite (getitem_Some _ _ _ Hu). simpl. rewrite Hent. simpl.
    unfold ServerStatus.MIRRORLIST_ENTRY, entry_line, the_url. rewrite Hu. simpl.
    f_equal. unfold concat_strings. simpl. by rewrite !append_assoc.
Qed.

(** C10 (amended). When the head of the list can be made (the snapshot has
    been retrieved and its time of check can be parsed), the sequence can be
    read to its end, and each record has a url (and a country and country
    code when country tags are asked for), [get_mirrorlist] returns [None]
    exactly when the sequence is empty; for a sequence that is not empty
    it returns the head followed, for each record in the order given, by
    one line "Server = url", and nothing else when no country tags are
    asked for. *)
Theorem get_mirrorlist_entries (now : Q) (self : ServerStatus.t) (h : heap)
    (mirrors : ServerStatus.iterable) (include_country : bool)
    (cmd : option (list string)) (head : string) (items : list record) :
  ServerStatus.banner now self cmd = Ok head ->
  ServerStatus.read_all h now mirrors = (items, None) ->
  Forall has_url items ->
  (include_country = true -> Forall has_country items) ->
  exists r,
    ServerStatus.get_mirrorlist now self h mirrors include_country cmd = Ok r /\
    (r = None <-> items = []) /\
    (items <> [] ->
     exists tags,
       length tags = length items /\
       Forall is_tag tags /\
       (include_country = false -> Forall (eq EmptyString) tags) /\
       r = Some (head +:+
                 concat_strings (zip_with (fun tag m => tag +:+ entry_line m) tags items))).
Proof.
  intros Hhead Hread Hurl Hc. unfold ServerStatus.get_mirrorlist.
  rewrite Hhead. simpl. rewrite Hread.
  destruct (entries_spec include_country None items Hurl Hc)
    as (tags & Hlen & Htags & Hnone & ->).
  simpl. destruct items as [|m items].
  - exists None. split; [done|]. split; [done|]. by intros [].
  - eexists. split; [done|]. split; [split; discriminate|].
    intros _. exists tags. done.
Qed.

End Mirrorlist.

Lemma demo_banner :
  @ServerStatus.banner demo_timelib demo_pipes 0 demo_self_loaded None = Ok demo_head.
Proof. vm_compute. reflexivity. Qed.

Lemma demo_heap1_read :
  @ServerStatus.read_all demo_strlib demo_re demo_heap1 0 (ServerStatus.PyList 1%positive)
  = ([rec_se; rec_at], None).
Proof. eval_eq. Qed.

Lemma demo_pair_has_url : Forall has_url [rec_se; rec_at].
Proof. repeat constructor; eexists; reflexivity. Qed.

Lemma get_mirrorlist_entries_witness :
  (@ServerStatus.banner demo_timelib demo_pipes 0 demo_self_loaded None = Ok demo_head /\
   @ServerStatus.read_all demo_strlib demo_re demo_heap1 0 (ServerStatus.PyList 1%positive)
   = ([rec_se; rec_at], None) /\
   Forall has_url [rec_se; rec_at] /\
   (false = true -> Forall has_country [rec_se; rec_at])) /\
  exists r,
    @ServerStatus.get_mirrorlist demo_strlib demo_re demo_timelib demo_pipes 0
      demo_self_loaded demo_heap1 (ServerStatus.PyList 1%positive) false None = Ok r /\
    (r = None <-> [rec_se; rec_at] = []) /\
    ([rec_se; rec_at] <> [] ->
     exists tags,
       length tags = length [rec_se; rec_at] /\
       Forall is_tag tags /\
       (false = false -> Forall (eq EmptyString) tags) /\
       r = Some (demo_head +:+
                 concat_strings
                   (zip_with (fun tag m => tag +:+ entry_line m) tags [rec_se; rec_at]))).
Proof.
  assert (Hc : false = true -> Forall has_country [rec_se; rec_at]) by discriminate.
  split; [split; [exact demo_banner | split; [exact demo_heap1_read |
          split; [exact demo_pair_has_url | exact Hc]]]|].
  exact (@get_mirrorlist_entries demo_strlib demo_re demo_timelib demo_pipes 0
           demo_self_loaded demo_heap1 (ServerStatus.PyList 1%positive) false None
           demo_head [rec_se; rec_at] demo_banner demo_heap1_read demo_pair_has_url Hc).
Defined.

(** C10, counterexample. On a new object, which holds the empty dict of
    [__init__], [get_mirrorlist] raises [KeyError] for 'last_check', for
    the empty list (it does not return [None]) and for a list of two
    records (it returns no text) alike.  On an object whose snapshot was
    checked at a whole second, so that the text of the time has no
    fraction, it raises the [ValueError] of the second parse.  And with a
    snapshot, for a list whose only record has no url, it raises
    [KeyError] for 'url'. *)
Lemma get_mirrorlist_entries_counterexample :
  ServerStatus.json_obj demo_self = Some EmptyDict /\
  deref demo_heap_empty1 1%positive = [] /\
  @ServerStatus.get_mirrorlist demo_strlib demo_re demo_timelib demo_pipes 0
    demo_self demo_heap_empty1 (ServerStatus.PyList 1%positive) false None
  = Raise (KeyError "last_check") /\
  deref demo_heap1 1%positive = [rec_se; rec_at] /\
  @ServerStatus.get_mirrorlist demo_strlib demo_re demo_timelib demo_pipes 0
    demo_self demo_heap1 (ServerStatus.PyList 1%positive) false None
  = Raise (KeyError "last_check") /\
  @ServerStatus.get_mirrorlist demo_strlib demo_re demo_timelib demo_pipes 0
    demo_self_whole_second demo_heap1 (ServerStatus.PyList 1%positive) false None
  = Raise ValueError /\
  @ServerStatus.get_mirrorlist demo_strlib demo_re demo_timelib demo_pipes 0
    demo_self_loaded ({[ 1%positive := [(∅ : record)] ]} : heap)
    (ServerStatus.PyList 1%positive) false None
  = Raise (KeyError "url").
Proof. split_and!; vm_compute; reflexivity. Qed.

(** The two lines of the example list. *)
Example get_mirrorlist_two_servers :
  @ServerStatus.get_mirrorlist demo_strlib demo_re demo_timelib demo_pipes 0
    demo_self_loaded demo_heap1 (ServerStatus.PyList 1%positive) false None
  = Ok (Some (demo_head +:+ "Server = se-sto.pvdata.host" +:+ ServerStatus.nl +:+
              "Server = at-wie.pvdata.host" +:+ ServerStatus.nl)).
Proof. vm_compute. reflexivity. Qed.

(** A generator that yields nothing gives [None]. *)
Example get_mirrorlist_nothing :
  @ServerStatus.get_mirrorlist demo_strlib demo_re demo_timelib demo_pipes 0
    demo_self_loaded demo_heap1
    (ServerStatus.PyGen
       (ServerStatus.filter 1%positive
          {| ServerStatus.countries := Some ["Atlantis"]; ServerStatus.include := None;
             ServerStatus.exclude := None; ServerStatus.age := None;
             ServerStatus.protocols := None |}))
    false None
  = Ok None.
Proof. vm_compute. reflexivity. Qed.

(** The head is 80 characters wide and ends with an empty line. *)
Example demo_head_shape :
  String.length (ServerStatus.center "# PrivateVPN server list #" 80 "#") = 80%nat /\
  ServerStatus.center "ab" 5 "#" = "##ab#" /\
  ServerStatus.center "abc" 6 "#" = "#abc##".
Proof. repeat split; reflexivity. Qed.

(* ===================================================================== *)
(** * Part III: further properties of the program *)
(* ===================================================================== *)

(** ** What [get_server_data] builds *)

Lemma eight_fields (a b c d e f g i k : string) :
  let m : record :=
    <["country" := VStr a]> (<["country_code" := VStr b]> (<["city" := VStr c]> (
    <["url" := VStr d]> (<["port_tap" := VStr e]> (<["port_tun" := VStr f]> (
    <["proxy_socks" := VStr g]> (<["proxy_http" := VStr i]> ∅))))))) in
  (k ∈ server_fields -> exists s, m !! k = Some (VStr s)) /\
  (k ∉ server_fields -> m !! k = None).
Proof.
  intros m. split.
  - intros Hk. unfold server_fields in Hk.
    repeat (apply elem_of_cons in Hk as [->|Hk]; [eexists; reflexivity|]).
    by apply elem_of_nil in Hk.
  - intros Hk. unfold server_fields in Hk.
    repeat (apply not_elem_of_cons in Hk as [? Hk]).
    subst m. rewrite !lookup_insert_ne by done. apply lookup_empty.
Qed.

Lemma contains_remove_newlines (s : string) :
  contains newline (remove_newlines s) = false.
Proof.
  induction s as [|a s IH]; [done|]. cbn [remove_newlines].
  destruct (Ascii.eqb_spec a newline) as [->|Hne]; [done|]. cbn [contains].
  destruct (Ascii.eqb_spec newline a) as [<-|_]; [done|]. exact IH.
Qed.

(** ** White space and [strip] *)

Lemma contains_app (a : ascii) (s1 s2 : string) :
  contains a (s1 +:+ s2) = contains a s1 || contains a s2.
Proof.
  induction s1 as [|b s1 IH]; [done|].
  change (contains a (String b (s1 +:+ s2))
          = contains a (String b s1) || contains a s2).
  cbn [contains]. rewrite IH. by destruct (Ascii.eqb a b).
Qed.

Lemma append_nil_r (s : string) : s +:+ EmptyString = s.
Proof.
  induction s as [|a s IH]; [done|].
  change (String a (s +:+ EmptyString) = String a s). by rewrite IH.
Qed.

Lemma length_append (s1 s2 : string) :
  String.length (s1 +:+ s2) = (String.length s1 + String.length s2)%nat.
Proof.
  induction s1 as [|a s1 IH]; [done|].
  change (S (String.length (s1 +:+ s2)) = S (String.length s1 + String.length s2)).
  by rewrite IH.
Qed.

Lemma drop_prefix_Some (w s r : string) : drop_prefix w s = Some r -> s = w +:+ r.
Proof.
  revert s. induction w as [|a w IH]; intros s; simpl.
  - by intros [= ->].
  - destruct s as [|b s]; [discriminate|].
    destruct (Ascii.eqb_spec a b) as [->|_]; [|discriminate].
    intros Hr. change (String b s = String b (w +:+ r)). by rewrite (IH s Hr).
Qed.

(** The encodings of the white space characters: none is empty, and none
    begins another one, so that a text beginning with one of them begins
    with no other. *)
Lemma whitespace_cases (P : string -> Prop) :
  Forall P whitespace -> forall w, w ∈ whitespace -> P w.
Proof. intros HP w Hw. by apply (proj1 (Forall_forall _ _) HP). Qed.

Lemma after_space_whitespace (w r : string) :
  w ∈ whitespace -> after_space (w +:+ r) = Some r.
Proof.
  intros Hw. revert r. pattern w. revert w Hw. apply whitespace_cases.
  unfold whitespace. simpl. repeat (constructor; [intros r; reflexivity|]).
  constructor.
Qed.

Lemma whitespace_nonempty (w : string) :
  w ∈ whitespace -> (0 < String.length w)%nat.
Proof.
  revert w. apply whitespace_cases.
  unfold whitespace. simpl. repeat (constructor; [simpl; lia|]). constructor.
Qed.

Lemma after_space_Some (s r : string) :
  after_space s = Some r -> exists w, w ∈ whitespace /\ s = w +:+ r.
Proof.
  unfold after_space. induction whitespace as [|w l IH]; simpl; [discriminate|].
  destruct (drop_prefix w s) as [r'|] eqn:E.
  - intros [= ->]. exists w. split; [apply list_elem_of_here|].
    by apply drop_prefix_Some.
  - intros (w' & Hw' & ->)%IH. exists w'. split; [by apply list_elem_of_further|done].
Qed.

Lemma after_space_None (s : string) :
  after_space s = None <-> ~ starts_with_space s.
Proof.
  split.
  - intros Hs (w & r & Hw & ->). by rewrite after_space_whitespace in Hs.
  - intros Hs. destruct (after_space s) as [r|] eqn:E; [|done].
    destruct (after_space_Some _ _ E) as (w & Hw & ->).
    exfalso. apply Hs. by exists w, r.
Qed.

Lemma spaces_app (p q : string) : spaces p -> spaces q -> spaces (p +:+ q).
Proof.
  induction 1 as [|w s Hw Hs IH]; intros Hq; [done|].
  rewrite <- append_assoc. constructor; [done|]. by apply IH.
Qed.

Lemma spaces_one (w : string) : w ∈ whitespace -> spaces w.
Proof.
  intros Hw. rewrite <- (append_nil_r w). constructor; [done|constructor].
Qed.

(** What [lstrip] leaves and what it takes away. *)
Lemma lstrip_from_spec (fuel : nat) (s : string) :
  (String.length s <= fuel)%nat ->
  exists p, s = p +:+ lstrip_from fuel s /\ spaces p /\
            ~ starts_with_space (lstrip_from fuel s).
Proof.
  revert s. induction fuel as [|fuel IH]; intros s Hlen.
  - destruct s; [|simpl in Hlen; lia]. exists EmptyString.
    split; [done|]. split; [constructor|]. by apply after_space_None.
  - simpl. destruct (after_space s) as [r|] eqn:E.
    + destruct (after_space_Some _ _ E) as (w & Hw & ->).
      pose proof (whitespace_nonempty w Hw). rewrite length_append in Hlen.
      destruct (IH r ltac:(lia)) as (p & Hp & Hsp & Hno).
      exists (w +:+ p). split; [|split; [|done]].
      * rewrite <- append_assoc. by rewrite <- Hp.
      * by constructor.
    + exists EmptyString. split; [done|]. split; [constructor|].
      by apply after_space_None.
Qed.

Lemma lstrip_spec (s : string) :
  exists p, s = p +:+ lstrip s /\ spaces p /\ ~ starts_with_space (lstrip s).
Proof. by apply lstrip_from_spec. Qed.

Lemma lstrip_from_spaces (s : string) :
  spaces s -> forall fuel, (String.length s <= fuel)%nat ->
  lstrip_from fuel s = EmptyString.
Proof.
  induction 1 as [|w s Hw Hs IH]; intros fuel Hlen.
  - by destruct fuel.
  - pose proof (whitespace_nonempty w Hw). rewrite length_append in Hlen.
    destruct fuel as [|fuel]; [lia|]. simpl.
    rewrite after_space_whitespace by done. apply IH. lia.
Qed.

Lemma lstrip_spaces (s : string) : spaces s <-> lstrip s = EmptyString.
Proof.
  split.
  - intros Hs. by apply lstrip_from_spaces.
  - intros Hs. destruct (lstrip_spec s) as (p & Hp & Hsp & _).
    rewrite Hs, append_nil_r in Hp. by rewrite Hp.
Qed.

(** What [rstrip] leaves and what it takes away. *)
Lemma rstrip_spec (s : string) :
  exists q, s = rstrip s +:+ q /\ spaces q /\ ~ ends_with_space (rstrip s).
Proof.
  induction s as [|a s (q & Hq & Hsq & Hno)].
  - exists EmptyString. split; [done|]. split; [constructor|].
    intros (w & r & Hw & Hr). pose proof (whitespace_nonempty w Hw) as Hlen.
    apply (f_equal String.length) in Hr. rewrite length_append in Hr.
    simpl in Hr. lia.
  - cbn [rstrip]. destruct (String.eqb_spec (lstrip (String a s)) EmptyString) as [E|E].
    + exists (String a s). split; [done|]. split; [by apply lstrip_spaces|].
      intros (w & r & Hw & Hr). pose proof (whitespace_nonempty w Hw) as Hlen.
      apply (f_equal String.length) in Hr. rewrite length_append in Hr.
      simpl in Hr. lia.
    + exists q. split; [|split; [done|]].
      * change (String a s = String a (rstrip s +:+ q)). by rewrite <- Hq.
      * intros (w & r & Hw & Hr). destruct r as [|b r].
        -- apply E, lstrip_spaces. rewrite Hq.
           change (spaces (String a (rstrip s) +:+ q)). rewrite Hr.
           by constructor.
        -- injection Hr as _ Hr. apply Hno. by exists w, r.
Qed.

(** [strip] gives the text without the white space around it. *)
Lemma strip_spec (s : string) : stripped_of (strip s) s.
Proof.
  unfold strip. destruct (lstrip_spec s) as (p & Hp & Hsp & Hstart).
  destruct (rstrip_spec (lstrip s)) as (q & Hq & Hsq & Hend).
  exists p, q. split; [by rewrite <- Hq|]. split; [done|]. split; [done|].
  split; [|done].
  intros (w & r & Hw & Hr). apply Hstart. exists w, (r +:+ q). split; [done|].
  rewrite Hq at 1. rewrite Hr. by rewrite <- append_assoc.
Qed.

Lemma contains_strip (a : ascii) (s : string) :
  contains a s = false -> contains a (strip s) = false.
Proof.
  destruct (strip_spec s) as (p & q & Hs & _). rewrite Hs at 1.
  rewrite !contains_app. intros [_ [Hu _]%orb_false_iff]%orb_false_iff. exact Hu.
Qed.

Lemma remove_newlines_without_char (s : string) :
  remove_newlines s = without_char newline s.
Proof.
  unfold without_char. induction s as [|a s IH]; [done|].
  cbn [remove_newlines String.list_ascii_of_string List.filter].
  destruct (Ascii.eqb a newline); cbn [negb String.string_of_list_ascii]; by rewrite IH.
Qed.

(** The white space characters outside ASCII are stripped as well: a cell
    that ends with a no-break space (U+00A0). *)
Example strip_no_break_space :
  strip (" se-sto.pvdata.host" +:+ bytes [194; 160]%nat) = "se-sto.pvdata.host" /\
  strip (bytes [227; 128; 128; 9]%nat +:+ "1194" +:+ bytes [226; 128; 137; 10]%nat)
  = "1194" /\
  strip ("ab" +:+ bytes [194; 160]%nat +:+ "cd") = "ab" +:+ bytes [194; 160]%nat +:+ "cd" /\
  length whitespace = 29%nat.
Proof. split_and!; reflexivity. Qed.

(** *** [stripped_of] has one answer *)

Lemma lstrip_from_enough (fuel fuel' : nat) (s : string) :
  (String.length s <= fuel)%nat -> (String.length s <= fuel')%nat ->
  lstrip_from fuel s = lstrip_from fuel' s.
Proof.
  revert fuel' s. induction fuel as [|fuel IH]; intros fuel' s Hf Hf'.
  - destruct s; [|simpl in Hf; lia]. by destruct fuel'.
  - destruct fuel' as [|fuel'].
    + destruct s; [|simpl in Hf'; lia]. reflexivity.
    + simpl. destruct (after_space s) as [r|] eqn:E; [|done].
      destruct (after_space_Some _ _ E) as (w & Hw & ->).
      pose proof (whitespace_nonempty w Hw). rewrite length_append in Hf, Hf'.
      apply IH; lia.
Qed.

Lemma lstrip_whitespace (w x : string) : w ∈ whitespace -> lstrip (w +:+ x) = lstrip x.
Proof.
  intros Hw. pose proof (whitespace_nonempty w Hw) as Hlen. unfold lstrip.
  rewrite length_append.
  destruct (String.length w) as [|n] eqn:En; [lia|]. simpl.
  rewrite after_space_whitespace by done. apply lstrip_from_enough; lia.
Qed.

Lemma lstrip_app_spaces (p x : string) : spaces p -> lstrip (p +:+ x) = lstrip x.
Proof.
  induction 1 as [|w p Hw Hp IH]; [done|].
  by rewrite <- append_assoc, lstrip_whitespace.
Qed.

Lemma lstrip_no_space (s : string) : ~ starts_with_space s -> lstrip s = s.
Proof.
  intros Hs%after_space_None. unfold lstrip.
  destruct (String.length s); [done|]. simpl. by rewrite Hs.
Qed.

Lemma spaces_after_space (s : string) :
  spaces s -> s = EmptyString \/ exists r, after_space s = Some r.
Proof.
  intros [|w r Hw _]; [by left|]. right. exists r. by apply after_space_whitespace.
Qed.

Lemma append_eq_append (x q w y : string) :
  x +:+ q = w +:+ y ->
  (exists x', x = w +:+ x' /\ y = x' +:+ q) \/
  (exists t, t <> EmptyString /\ w = x +:+ t /\ q = t +:+ y).
Proof.
  revert w. induction x as [|a x IH]; intros w Hxq.
  - destruct w as [|b w].
    + left. exists EmptyString. cbn in Hxq. by subst.
    + right. exists (String b w). by split_and!.
  - destruct w as [|b w].
    + left. exists (String a x). cbn in Hxq. by subst.
    + injection Hxq as -> Hxq. destruct (IH w Hxq) as [(x' & -> & ->)|(t & Ht & -> & ->)].
      * left. by exists x'.
      * right. by exists t.
Qed.

(** No white space character begins in the middle of the encoding of
    another one. *)
Lemma append_nil_l (s : string) : EmptyString +:+ s = s.
Proof. reflexivity. Qed.

Lemma append_cons (a : ascii) (s t : string) : String a s +:+ t = String a (s +:+ t).
Proof. reflexivity. Qed.

Ltac split_word Hx x t :=
  destruct x as [|? x];
  [ rewrite append_nil_l in Hx; subst t
  | rewrite append_cons in Hx;
    first [ discriminate Hx
          | injection Hx as _ Hx; split_word Hx x t ] ].

Lemma whitespace_no_split (w x t r : string) :
  w ∈ whitespace -> w = x +:+ t -> x <> EmptyString -> t <> EmptyString ->
  spaces (t +:+ r) -> False.
Proof.
  intros Hw. revert x t r. pattern w. revert w Hw. apply whitespace_cases.
  unfold whitespace. simpl.
  repeat (constructor;
    [intros x t r Hx Hxne Htne Hs;
     destruct x as [|x0 x]; [done|]; injection Hx as _ Hx;
     split_word Hx x t; try done;
     apply spaces_after_space in Hs as [Hs|[r' Hs]];
     first [discriminate Hs | vm_compute in Hs; discriminate Hs]|]).
  constructor.
Qed.

Lemma spaces_app_inv (y : string) :
  spaces y -> forall x q, y = x +:+ q -> spaces q ->
  x = EmptyString \/ ends_with_space x.
Proof.
  induction 1 as [|w y Hw Hy IH]; intros x q Hxq Hq.
  - destruct x; [by left | discriminate].
  - symmetry in Hxq.
    destruct (append_eq_append _ _ _ _ Hxq) as [(x' & -> & ->)|(t & Ht & -> & ->)].
    + right. destruct (IH x' q eq_refl Hq) as [->|(w' & r & Hw' & ->)].
      * exists w, EmptyString. by rewrite append_nil_r.
      * exists w', (w +:+ r). split; [done|]. by rewrite append_assoc.
    + destruct x as [|a x]; [by left|]. exfalso.
      by apply (whitespace_no_split _ _ _ _ Hw eq_refl ltac:(done) Ht Hq).
Qed.

Lemma rstrip_spaces (q : string) : spaces q -> rstrip q = EmptyString.
Proof.
  intros Hq. destruct q as [|a q]; [done|]. cbn [rstrip].
  by rewrite (proj1 (lstrip_spaces _) Hq).
Qed.

Lemma rstrip_app_spaces (u q : string) :
  spaces q -> u = EmptyString \/ ~ ends_with_space u -> rstrip (u +:+ q) = u.
Proof.
  intros Hq. induction u as [|a u IH]; intros Hu.
  - by apply rstrip_spaces.
  - destruct Hu as [?|Hu]; [done|].
    change (rstrip (String a (u +:+ q)) = String a u). cbn [rstrip].
    destruct (String.eqb_spec (lstrip (String a (u +:+ q))) EmptyString) as [E|_].
    + apply lstrip_spaces in E.
      by destruct (spaces_app_inv _ E (String a u) q eq_refl Hq).
    + f_equal. apply IH. destruct u as [|b u]; [by left|]. right.
      intros (w & r & Hw & Hr). apply Hu. exists w, (String a r). split; [done|].
      by rewrite Hr.
Qed.

Lemma starts_with_space_app (u q : string) :
  u <> EmptyString -> spaces q -> starts_with_space (u +:+ q) -> starts_with_space u.
Proof.
  intros Hu Hq (w & r & Hw & Hr).
  destruct (append_eq_append _ _ _ _ Hr) as [(x' & -> & _)|(t & Ht & -> & ->)].
  - by exists w, x'.
  - exfalso. by apply (whitespace_no_split _ _ _ _ Hw eq_refl Hu Ht Hq).
Qed.

(** [stripped_of] describes one text, the one that [strip] returns. *)
Lemma stripped_of_unique (u s : string) : stripped_of u s -> u = strip s.
Proof.
  intros (p & q & -> & Hp & Hq & Hstart & Hend). unfold strip.
  rewrite lstrip_app_spaces by done.
  destruct u as [|a u].
  - change (EmptyString +:+ q) with q.
    by rewrite (proj1 (lstrip_spaces _) Hq).
  - rewrite lstrip_no_space.
    + symmetry. apply rstrip_app_spaces; [done | by right].
    + intros Hs. by apply Hstart, (starts_with_space_app _ q).
Qed.

(** What is read from a cell of a row: the text of the cell without its
    newlines and without the white space around what is left. *)
Lemma cell_spec (tds : list string) (i : nat) :
  stripped_of (cell tds i) (without_char newline (nth i tds "")).
Proof. unfold cell. rewrite remove_newlines_without_char. apply strip_spec. Qed.

Lemma fetched_has_url (m : record) : fetched_record m -> has_url m.
Proof.
  intros Hm. apply (Hm "url"). unfold server_fields.
  do 3 apply list_elem_of_further. apply list_elem_of_here.
Qed.

Lemma Forall2_of_maps {A B C : Type} (f : A -> C) (g : B -> C) (l : list A)
    (k : list B) :
  map f l = map g k -> Forall2 (fun x y => f x = g y) l k.
Proof.
  revert k. induction l as [|x l IH]; intros [|y k]; simpl; try discriminate.
  - constructor.
  - intros [= Hxy Hlk]. constructor; [done|]. by apply IH.
Qed.

Lemma Forall2_Forall_impl {A B : Type} (P : A -> Prop) (R R' : A -> B -> Prop)
    (l : list A) (k : list B) :
  Forall P l -> Forall2 R l k -> (forall x y, P x -> R x y -> R' x y) ->
  Forall2 R' l k.
Proof.
  intros HP HR Himpl. induction HR as [|x y l k Hxy HR IH]; [constructor|].
  apply Forall_cons in HP as [Hx HP]. constructor; [by apply Himpl | by apply IH].
Qed.

Lemma contains_split_on (a sep : ascii) (s : string) :
  contains a s = false ->
  contains a (split_on sep s).1 = false /\
  Forall (fun field => contains a field = false) (split_on sep s).2.
Proof.
  induction s as [|b s IH]; simpl; [by split|].
  intros [Hb Hs]%orb_false_iff. destruct (IH Hs) as [H1 H2].
  destruct (split_on sep s) as [field fields]. simpl in *.
  destruct (Ascii.eqb b sep); simpl.
  - split; [done|]. by constructor.
  - split; [|done]. by rewrite Hb, H1.
Qed.

Lemma contains_cell (tds : list string) (i : nat) :
  contains newline (cell tds i) = false.
Proof. apply contains_strip, contains_remove_newlines. Qed.

Section FetchedRecords.
Context `{Pycountry}.

(** The record built for a row: its fields and what they hold. *)
Lemma parse_row_record (tds : list string) (r : list record) :
  parse_row tds = Ok r ->
  Forall (fun m =>
            fetched_record m /\
            the_url m = cell tds 1 /\
            (forall k s, k ∈ parsed_fields -> m !! k = Some (VStr s) ->
                         contains newline s = false))
         r.
Proof.
  unfold parse_row. destruct (Nat.eqb (length tds) 6); [|by intros [= <-]].
  pose proof (contains_split_on newline "-" (remove_newlines (nth 0 tds ""))
                (contains_remove_newlines _)) as [Hc0 Hcr].
  destruct (split_on _ _) as [tmp0 tmp_rest]. simpl in Hc0, Hcr.
  destruct (get_country_code _) as [code|]; simpl; [|discriminate].
  intros [= <-]. constructor; [|constructor]. split; [|split].
  - intros k. apply eight_fields.
  - reflexivity.
  - intros k s Hk. unfold parsed_fields in Hk.
    repeat (apply elem_of_cons in Hk as [->|Hk];
            [intros [= <-]; first [by apply contains_strip | apply contains_cell
                                   | idtac] |]).
    all: try (by apply elem_of_nil in Hk).
    destruct tmp_rest as [|tmp1 ?]; [done|].
    apply contains_strip. by apply Forall_cons in Hcr as [? _].
Qed.

Lemma parse_rows_records (rows : list (list string)) (data : list record) :
  parse_rows rows = Ok data ->
  Forall fetched_record data /\
  map the_url data = map (fun tds => cell tds 1) (List.filter six_cells rows) /\
  Forall (fun m => forall k s, k ∈ parsed_fields -> m !! k = Some (VStr s) ->
                     contains newline s = false) data.
Proof.
  revert data. induction rows as [|tds rows IH]; intros data; simpl.
  - intros [= <-]. by repeat split.
  - destruct (parse_row tds) as [r|] eqn:Er; simpl; [|discriminate].
    destruct (parse_rows rows) as [rs|] eqn:Ers; simpl; [|discriminate].
    intros [= <-]. destruct (IH rs eq_refl) as (IH1 & IH2 & IH3).
    pose proof (parse_row_record tds r Er) as Hr.
    pose proof (parse_row_length tds r Er) as Hlen.
    split; [|split].
    + apply Forall_app. split; [|done]. eapply Forall_impl; [exact Hr|]. by intros m [? _].
    + rewrite map_app, IH2. destruct (six_cells tds); simpl.
      * destruct r as [|m [|? ?]]; try discriminate. simpl.
        apply Forall_cons in Hr as [(_ & -> & _) _]. done.
      * by destruct r.
    + apply Forall_app. split; [|done]. eapply Forall_impl; [exact Hr|].
      by intros m (_ & _ & ?).
Qed.

End FetchedRecords.

Lemma split_on_no_sep (sep : ascii) (s : string) :
  contains sep (split_on sep s).1 = false /\
  Forall (fun field => contains sep field = false) (split_on sep s).2.
Proof.
  induction s as [|b s [IH1 IH2]]; simpl; [by split|].
  destruct (split_on sep s) as [field fields]. simpl in *.
  destruct (Ascii.eqb_spec b sep) as [->|Hne]; simpl.
  - split; [done|]. by constructor.
  - split; [|done]. rewrite IH1, orb_false_r.
    destruct (Ascii.eqb_spec sep b) as [<-|_]; done.
Qed.

Section FetchedSnapshot.
Context `{Pycountry}.

(** What a successful call of [get_server_data] has done: the records of
    the rows are in a new list object, and nothing else has changed. *)
Lemma get_server_data_inv (opened : result page) (utcnow : string) (h h' : heap)
    (s : snapshot) :
  get_server_data opened utcnow h = Ok (s, h') ->
  exists table ths data,
    opened = Ok (Some table) /\ thead table = Some ths /\
    parse_rows (trs table) = Ok data /\
    h !! servers s = None /\ h' = <[servers s := data]> h /\
    deref h' (servers s) = data /\
    last_check s = utcnow /\ headers s = map remove_newlines ths.
Proof.
  unfold get_server_data.
  destruct opened as [[table|]|]; simpl; try discriminate.
  destruct (thead table) as [ths|] eqn:Et; simpl; [|discriminate].
  destruct (parse_rows (trs table)) as [data|] eqn:Ed; simpl; [|discriminate].
  intros [= <- <-]. exists table, ths, data. simpl.
  split_and!; try done.
  - apply (alloc_fresh h data).
  - apply (deref_alloc h data).
Qed.

(** X1. Every record of a snapshot that [get_server_data] returns has
    exactly the eight fields country, country_code, city, url, port_tap,
    port_tun, proxy_socks and proxy_http, each holding a string; it has no
    other field (no protocol, last_sync, score or delay). *)
Theorem get_server_data_fields (opened : result page) (utcnow : string)
    (h h' : heap) (s : snapshot) :
  get_server_data opened utcnow h = Ok (s, h') ->
  Forall fetched_record (deref h' (servers s)).
Proof.
  intros (table & ths & data & _ & _ & Hd & _ & _ & -> & _)%get_server_data_inv.
  by apply parse_rows_records in Hd as [? _].
Qed.

(** X2. The server list of the snapshot has one record for each row of the
    table with exactly six cells, in the order of the page, and the url of
    the record is the text of the second cell without its newlines and
    without the white space around what is left: the cell is the url
    between two runs of white space characters, and the url neither begins
    nor ends with one. *)
Theorem get_server_data_page_order (table : html_table) (utcnow : string)
    (h h' : heap) (s : snapshot) :
  get_server_data (Ok (Some table)) utcnow h = Ok (s, h') ->
  Forall2 (fun (m : record) (tds : list string) =>
             exists u, m !! "url" = Some (VStr u) /\
                       stripped_of u (without_char newline (nth 1 tds "")))
          (deref h' (servers s)) (List.filter six_cells (trs table)).
Proof.
  intros (table' & ths & data & [= <-] & _ & Hd & _ & _ & -> & _)%get_server_data_inv.
  apply parse_rows_records in Hd as (Hfetched & Hurls%Forall2_of_maps & _).
  apply (Forall2_Forall_impl _ _ _ _ _ Hfetched Hurls).
  intros m tds [u Hu]%fetched_has_url Hm. exists u. split; [done|].
  unfold the_url in Hm. rewrite Hu in Hm. rewrite Hm. apply cell_spec.
Qed.

(** No field that [get_server_data] cuts out of the text of a cell (every
    field but country_code, which comes from the country database)
    contains a newline. *)
Lemma get_server_data_no_newline (opened : result page) (utcnow : string)
    (h h' : heap) (s : snapshot) (m : record) (k v : string) :
  get_server_data opened utcnow h = Ok (s, h') ->
  m ∈ deref h' (servers s) ->
  k ∈ parsed_fields ->
  m !! k = Some (VStr v) ->
  contains newline v = false.
Proof.
  intros (table & ths & data & _ & _ & Hd & _ & _ & -> & _)%get_server_data_inv Hm.
  apply parse_rows_records in Hd as (_ & _ & Hd).
  pose proof (proj1 (Forall_forall _ _) Hd m Hm) as Hk. apply Hk.
Qed.

End FetchedSnapshot.

Lemma get_server_data_fields_witness :
  @get_server_data demo_pycountry (Ok (Some demo_table)) demo_utcnow ∅
    = Ok (demo_snapshot 1, demo_heap1) /\
  Forall fetched_record (deref demo_heap1 (servers (demo_snapshot 1))).
Proof.
  split; [exact demo_fetch1|].
  exact (@get_server_data_fields demo_pycountry _ _ _ _ _ demo_fetch1).
Defined.

Lemma get_server_data_page_order_witness :
  @get_server_data demo_pycountry (Ok (Some demo_table)) demo_utcnow ∅
    = Ok (demo_snapshot 1, demo_heap1) /\
  Forall2 (fun (m : record) (tds : list string) =>
             exists u, m !! "url" = Some (VStr u) /\
                       stripped_of u (without_char newline (nth 1 tds "")))
          (deref demo_heap1 (servers (demo_snapshot 1)))
          (List.filter six_cells (trs demo_table)).
Proof.
  split; [exact demo_fetch1|].
  exact (@get_server_data_page_order demo_pycountry _ _ _ _ _ demo_fetch1).
Defined.

(** A page whose first cell has two hyphens and spaces around its parts. *)
Example get_server_data_cuts_at_hyphens :
  match @get_server_data demo_pycountry
          (Ok (Some {| thead := Some [];
                       trs := [["Timor-Leste - Dili"; " tl.pvdata.host "; "1"; "2";
                                "Yes"; "No"]] |}))
          demo_utcnow ∅ with
  | Ok (s, h) =>
      map (fun m => (m !! "country", m !! "country_code", m !! "city", m !! "url"))
          (deref h (servers s))
      = [(Some (VStr "Timor"), Some (VStr "ERROR"), Some (VStr "Leste"),
          Some (VStr "tl.pvdata.host"))]
  | Raise _ => False
  end.
Proof. vm_compute. reflexivity. Qed.

Section Hyphen.
Context `{Pycountry}.

Lemma parse_row_hyphen (tds : list string) (r : list record) :
  parse_row tds = Ok r ->
  Forall (fun m => forall k v, k ∈ ["country"; "city"] -> m !! k = Some (VStr v) ->
                     contains "-" v = false) r.
Proof.
  unfold parse_row. destruct (Nat.eqb (length tds) 6); [|by intros [= <-]].
  pose proof (split_on_no_sep "-" (remove_newlines (nth 0 tds ""))) as [Hc0 Hcr].
  destruct (split_on _ _) as [tmp0 tmp_rest]. simpl in Hc0, Hcr.
  destruct (get_country_code _) as [code|]; simpl; [|discriminate].
  intros [= <-]. constructor; [|constructor].
  intros k v Hk.
  apply elem_of_cons in Hk as [->|Hk]; [intros [= <-]; by apply contains_strip|].
  apply elem_of_cons in Hk as [->|Hk]; [|by apply elem_of_nil in Hk].
  intros [= <-]. destruct tmp_rest as [|tmp1 ?]; [done|].
  apply contains_strip. by apply Forall_cons in Hcr as [? _].
Qed.

Lemma parse_rows_hyphen (rows : list (list string)) (data : list record) :
  parse_rows rows = Ok data ->
  Forall (fun m => forall k v, k ∈ ["country"; "city"] -> m !! k = Some (VStr v) ->
                     contains "-" v = false) data.
Proof.
  revert data. induction rows as [|tds rows IH]; intros data; simpl.
  - by intros [= <-].
  - destruct (parse_row tds) as [r|] eqn:Er; simpl; [|discriminate].
    destruct (parse_rows rows) as [rs|] eqn:Ers; simpl; [|discriminate].
    intros [= <-]. apply Forall_app. split; [by apply (parse_row_hyphen tds)|by apply IH].
Qed.

(** The first cell of a row is cut at its hyphens: neither the country nor
    the city of a record of [get_server_data] contains a hyphen. *)
Lemma get_server_data_no_hyphen (opened : result page) (utcnow : string)
    (h h' : heap) (s : snapshot) (m : record) (k v : string) :
  get_server_data opened utcnow h = Ok (s, h') ->
  m ∈ deref h' (servers s) ->
  k ∈ ["country"; "city"] ->
  m !! k = Some (VStr v) ->
  contains "-" v = false.
Proof.
  intros (table & ths & data & _ & _ & Hd & _ & _ & -> & _)%get_server_data_inv Hm.
  apply parse_rows_hyphen in Hd.
  pose proof (proj1 (Forall_forall _ _) Hd m Hm) as Hk. apply Hk.
Qed.

End Hyphen.

(** X3. The text fields of the records of [get_server_data] are cut clean
    out of the cells: no field taken from the text of a cell (every field
    but country_code) contains a newline, and, the first cell being cut at
    its hyphens, neither the country nor the city contains a hyphen. *)
Theorem get_server_data_clean_fields `{Pycountry} (opened : result page)
    (utcnow : string) (h h' : heap) (s : snapshot) (m : record) (k v : string) :
  get_server_data opened utcnow h = Ok (s, h') ->
  m ∈ deref h' (servers s) ->
  m !! k = Some (VStr v) ->
  (k ∈ parsed_fields -> contains newline v = false) /\
  (k ∈ ["country"; "city"] -> contains "-" v = false).
Proof.
  intros Hget Hm Hv. split; intros Hk.
  - by eapply get_server_data_no_newline.
  - by eapply get_server_data_no_hyphen.
Qed.

Lemma get_server_data_clean_fields_witness :
  (@get_server_data demo_pycountry (Ok (Some demo_table)) demo_utcnow ∅
     = Ok (demo_snapshot 1, demo_heap1) /\
   rec_se ∈ deref demo_heap1 (servers (demo_snapshot 1)) /\
   rec_se !! "city" = Some (VStr "Stockholm")) /\
  ("city" ∈ parsed_fields -> contains newline "Stockholm" = false) /\
  ("city" ∈ ["country"; "city"] -> contains "-" "Stockholm" = false).
Proof.
  assert (Hm : rec_se ∈ deref demo_heap1 (servers (demo_snapshot 1)))
    by apply list_elem_of_here.
  split; [split_and!; [exact demo_fetch1 | exact Hm | reflexivity]|].
  exact (@get_server_data_clean_fields demo_pycountry _ _ _ _ _ rec_se "city" "Stockholm"
           demo_fetch1 Hm eq_refl).
Defined.

(** ** What [retrieve] does with the cache *)

Lemma load_doc_inv (d : json_doc) (h h' : heap) (s : snapshot) :
  load_doc d h = (s, h') ->
  h !! servers s = None /\ h' = <[servers s := doc_servers d]> h /\
  last_check s = doc_last_check d /\ total s = doc_total d.
Proof.
  unfold load_doc. intros [= <- <-]. simpl. split_and!; try done.
  apply (alloc_fresh h (doc_servers d)).
Qed.

Lemma objects_kept_insert (h : heap) (l : loc) (items : list record) :
  h !! l = None -> objects_kept h (<[l := items]> h).
Proof.
  intros Hl l' Hl'. apply lookup_insert_ne. intros <-. rewrite Hl in Hl'. by destruct Hl'.
Qed.

Lemma objects_kept_trans (h1 h2 h3 : heap) :
  objects_kept h1 h2 -> objects_kept h2 h3 -> objects_kept h1 h3.
Proof.
  intros H12 H23 l Hl. rewrite <- (H12 l Hl). apply H23. by rewrite (H12 l Hl).
Qed.

Lemma objects_kept_refl (h : heap) : objects_kept h h.
Proof. by intros l _. Qed.

Section RetrieveCache.
Context `{Pycountry}.

(** X5. With a cache file younger than the timeout that holds a snapshot
    document, [retrieve] returns with the snapshot of the document in a new
    list object and the modification time of the file as [json_mtime]; the
    result depends neither on the page nor on whether the cache file can be
    written: the page is not read and the file is not written. *)
Theorem retrieve_cache_hit (env : retrieve_env) (self : ServerStatus.t) (h : heap)
    (mtime : Q) (d : json_doc) :
  cache_hit env self mtime d ->
  ServerStatus.retrieve env self h =
    (Ok tt,
     ServerStatus.World
       (ServerStatus.set_json_mtime
          (ServerStatus.set_json_obj self (Some (load_doc d h).1)) mtime)
       (load_doc d h).2) /\
  deref (load_doc d h).2 (servers (load_doc d h).1) = doc_servers d /\
  h !! servers (load_doc d h).1 = None.
Proof.
  intros (Hpos & Hm & Hfresh & Hload).
  apply Qltb_lt in Hpos, Hfresh. split; [|split].
  - unfold ServerStatus.retrieve, ServerStatus.retrieve_cache. simpl.
    rewrite Hpos, Hm, Hfresh, Hload.
    destruct (load_doc d h) as [s h'] eqn:Ed. reflexivity.
  - apply (deref_alloc h (doc_servers d)).
  - apply (alloc_fresh h (doc_servers d)).
Qed.

(** X6. A cache file younger than the timeout whose content cannot be
    decoded: the exception of [json.load], which is no [OSError], leaves
    [retrieve] as it is, not as a [ServerStatusError]; nothing is fetched
    and the object holds no snapshot. *)
Theorem retrieve_corrupt_cache (env : retrieve_env) (self : ServerStatus.t) (h : heap)
    (mtime : Q) (e : exn) :
  (0 < ServerStatus.cache_timeout self)%Q ->
  getmtime env = Ok mtime ->
  (time_check env - mtime < ServerStatus.cache_timeout self)%Q ->
  load_cache env = Raise e ->
  is_OSError e = false ->
  ServerStatus.retrieve env self h =
    (Raise e, ServerStatus.World (ServerStatus.set_json_obj self None) h).
Proof.
  intros Hpos%Qltb_lt Hm Hfresh%Qltb_lt Hload He.
  unfold ServerStatus.retrieve, ServerStatus.retrieve_cache. simpl.
  by rewrite Hpos, Hm, Hfresh, Hload, He.
Qed.

End RetrieveCache.

Lemma demo_cache_hit : cache_hit demo_env_cached demo_self 1538740800 demo_doc.
Proof. by split_and!. Qed.

Lemma retrieve_cache_hit_witness :
  cache_hit demo_env_cached demo_self 1538740800 demo_doc /\
  @ServerStatus.retrieve demo_pycountry demo_env_cached demo_self ∅ =
    (Ok tt,
     ServerStatus.World
       (ServerStatus.set_json_mtime
          (ServerStatus.set_json_obj demo_self (Some (load_doc demo_doc ∅).1))
          1538740800)
       (load_doc demo_doc ∅).2) /\
  deref (load_doc demo_doc ∅).2 (servers (load_doc demo_doc ∅).1)
    = doc_servers demo_doc /\
  (∅ : heap) !! servers (load_doc demo_doc ∅).1 = None.
Proof.
  split; [exact demo_cache_hit|].
  exact (@retrieve_cache_hit demo_pycountry demo_env_cached demo_self ∅ _ _
           demo_cache_hit).
Defined.

Lemma retrieve_corrupt_cache_witness :
  ((0 < ServerStatus.cache_timeout demo_self)%Q /\
   getmtime demo_env_corrupt = Ok 1538740800%Q /\
   (time_check demo_env_corrupt - 1538740800
    < ServerStatus.cache_timeout demo_self)%Q /\
   load_cache demo_env_corrupt = Raise ValueError /\
   is_OSError ValueError = false) /\
  @ServerStatus.retrieve demo_pycountry demo_env_corrupt demo_self ∅ =
    (Raise ValueError,
     ServerStatus.World (ServerStatus.set_json_obj demo_self None) ∅).
Proof.
  split; [by split_and!|].
  exact (@retrieve_corrupt_cache demo_pycountry demo_env_corrupt demo_self ∅
           1538740800 ValueError eq_refl eq_refl eq_refl eq_refl eq_refl).
Defined.

Section RetrieveInvariant.
Context `{Pycountry}.

Lemma get_server_data_kept (opened : result page) (utcnow : string) (h h' : heap)
    (s : snapshot) :
  get_server_data opened utcnow h = Ok (s, h') ->
  h !! servers s = None /\ is_Some (h' !! servers s) /\ objects_kept h h'.
Proof.
  intros (table & ths & data & _ & _ & _ & Hnew & -> & _)%get_server_data_inv.
  split_and!; [done| |by apply objects_kept_insert].
  rewrite lookup_insert_eq. by eexists.
Qed.

Lemma load_doc_kept (d : json_doc) (h : heap) :
  h !! servers (load_doc d h).1 = None /\
  is_Some ((load_doc d h).2 !! servers (load_doc d h).1) /\
  objects_kept h (load_doc d h).2.
Proof.
  destruct (load_doc d h) as [s h'] eqn:Ed.
  apply load_doc_inv in Ed as (Hnew & -> & _). simpl.
  split_and!; [done| |by apply objects_kept_insert].
  rewrite lookup_insert_eq. by eexists.
Qed.

(** The first part of [retrieve], started without a snapshot. *)
Lemma retrieve_cache_inv (env : retrieve_env) (self : ServerStatus.t) (h : heap)
    (r : result bool) (w : ServerStatus.world) :
  ServerStatus.json_obj self = None ->
  ServerStatus.retrieve_cache env self h = (r, w) ->
  objects_kept h (ServerStatus.w_heap w) /\
  match r, ServerStatus.json_obj (ServerStatus.w_self w) with
  | Ok _, Some (SnapshotDict s) =>
      h !! servers s = None /\ is_Some (ServerStatus.w_heap w !! servers s)
  | Ok _, Some EmptyDict => False
  | Ok _, None => ServerStatus.w_heap w = h
  | Raise _, o => o = None
  end.
Proof.
  intros Hnone. unfold ServerStatus.retrieve_cache.
  destruct (Qltb 0 _); [|intros [= <- <-]; simpl; rewrite Hnone;
                          by split; [apply objects_kept_refl|]].
  destruct (getmtime env) as [mtime|e].
  - destruct (Qltb _ _); [|intros [= <- <-]; simpl; rewrite Hnone;
                            by split; [apply objects_kept_refl|]].
    destruct (load_cache env) as [[d|]|e].
    + pose proof (load_doc_kept d h) as (Hnew & Hin & Hkept).
      destruct (load_doc d h) as [s h']. simpl in *. by intros [= <- <-].
    + intros [= <- <-]. simpl. by split; [apply objects_kept_refl|].
    + destruct (is_OSError e); intros [= <- <-]; simpl;
        by split; [apply objects_kept_refl|].
  - destruct (is_OSError e); [destruct (bool_decide _)|]; intros [= <- <-]; simpl;
      rewrite ?Hnone; by split; [apply objects_kept_refl|].
Qed.

(** The second part. *)
Lemma retrieve_fetch_inv (env : retrieve_env) (self : ServerStatus.t) (h : heap)
    (r : result (option json_doc)) (w : ServerStatus.world) :
  ServerStatus.json_obj self = None ->
  ServerStatus.retrieve_fetch env self h = (r, w) ->
  objects_kept h (ServerStatus.w_heap w) /\
  match r with
  | Ok _ => exists s : snapshot,
              ServerStatus.json_obj (ServerStatus.w_self w) = Some s /\
              h !! servers s = None /\
                      is_Some (ServerStatus.w_heap w !! servers s)
  | Raise _ => ServerStatus.json_obj (ServerStatus.w_self w) = None
  end.
Proof.
  intros Hnone. unfold ServerStatus.retrieve_fetch. rewrite Hnone. simpl.
  destruct (get_server_data (page1 env) _ h) as [[s1 h1]|e1] eqn:E1.
  - apply get_server_data_kept in E1 as (Hn1 & Hi1 & Hk1).
    destruct (get_server_data (page2 env) _ h1) as [[s2 h2]|e2] eqn:E2.
    + apply get_server_data_kept in E2 as (Hn2 & Hi2 & Hk2).
      intros [= <- <-]. simpl. split; [by eapply objects_kept_trans|].
      exists s2. split_and!; [done| |done].
      destruct (h !! servers s2) eqn:El; [|done].
      rewrite <- (Hk1 (servers s2)) in El by (by rewrite El). by rewrite Hn2 in El.
    + destruct (ServerStatus.is_URLError_or_timeout e2); [|destruct (is_ValueError e2)];
        intros [= <- <-]; by simpl.
  - destruct (ServerStatus.is_URLError_or_timeout e1); [|destruct (is_ValueError e1)];
      intros [= <- <-]; simpl; by split; [apply objects_kept_refl|].
Qed.

(** After a return of [retrieve]. *)
Lemma retrieve_ok_inv (env : retrieve_env) (self : ServerStatus.t)
    (h : heap) (w : ServerStatus.world) :
  ServerStatus.retrieve env self h = (Ok tt, w) ->
  exists s : snapshot,
    ServerStatus.json_obj (ServerStatus.w_self w) = Some s /\
    h !! servers s = None /\
    is_Some (ServerStatus.w_heap w !! servers s) /\
    objects_kept h (ServerStatus.w_heap w).
Proof.
  unfold ServerStatus.retrieve.
  destruct (ServerStatus.retrieve_cache env _ h) as [[save_json|e] [self1 h1]] eqn:Ec;
    [|discriminate].
  apply retrieve_cache_inv in Ec as [Hk1 Hc]; [|done]. simpl in Hk1, Hc.
  destruct (ServerStatus.json_obj self1) as [[|s]|] eqn:Es; [done| |].
  - unfold ServerStatus.retrieve_fetch. rewrite Es. simpl.
    unfold ServerStatus.retrieve_save. destruct save_json; intros [= <-]; simpl;
      exists s; by destruct Hc.
  - subst h1.
    destruct (ServerStatus.retrieve_fetch env self1 h) as [[json_str|e] w1] eqn:Ef;
      [|discriminate].
    apply retrieve_fetch_inv in Ef as [Hk2 (s & Hs & Hn & Hi)]; [|done].
    intros [= _ <-]. by exists s.
Qed.

(** X7. Whenever [retrieve] returns, the object holds a snapshot whose
    server list is a list object that did not exist before the call, and
    every list object that existed before has kept its content. *)
Theorem retrieve_returns_new_snapshot (env : retrieve_env) (self : ServerStatus.t)
    (h : heap) (w : ServerStatus.world) :
  ServerStatus.retrieve env self h = (Ok tt, w) ->
  exists s : snapshot,
    ServerStatus.json_obj (ServerStatus.w_self w) = Some s /\
    h !! servers s = None /\
    is_Some (ServerStatus.w_heap w !! servers s) /\
    objects_kept h (ServerStatus.w_heap w).
Proof. apply retrieve_ok_inv. Qed.

(** X8. Whenever [retrieve] raises, the object holds no snapshot any more,
    also when it held one before the call, unless the exception comes from
    writing the cache file after a successful fetch. *)
Theorem retrieve_raises_no_snapshot (env : retrieve_env) (self : ServerStatus.t)
    (h : heap) (e : exn) (w : ServerStatus.world) :
  ServerStatus.retrieve env self h = (Raise e, w) ->
  ServerStatus.json_obj (ServerStatus.w_self w) = None \/
  exists s1 h1, get_server_data (page1 env) (utcnow1 env) h = Ok (s1, h1) /\
                is_Some (write_cache env (encode s1 h1)).
Proof.
  unfold ServerStatus.retrieve.
  destruct (ServerStatus.retrieve_cache env _ h) as [[save_json|e0] [self1 h1]] eqn:Ec.
  - pose proof Ec as [Hk1 Hc]%retrieve_cache_inv; [|done]. simpl in Hk1, Hc.
    destruct (ServerStatus.json_obj self1) as [[|s]|] eqn:Es; [done| |].
    + unfold ServerStatus.retrieve_fetch. rewrite Es. simpl.
      unfold ServerStatus.retrieve_save.
      assert (save_json = false) as ->; [|discriminate].
      revert Ec. unfold ServerStatus.retrieve_cache.
      repeat case_match; intros [= <- <-]; try done;
        simpl in Es; discriminate.
    + subst h1.
      destruct (ServerStatus.retrieve_fetch env self1 h) as [[json_str|e1] w1] eqn:Ef.
      * unfold ServerStatus.retrieve_save.
        destruct save_json; [|discriminate]. destruct json_str as [d|]; [|discriminate].
        destruct (write_cache env d) as [e2|] eqn:Ew; [|discriminate].
        intros _. right. revert Ef. unfold ServerStatus.retrieve_fetch. rewrite Es.
        simpl.
        destruct (get_server_data (page1 env) _ h) as [[s1 h1]|] eqn:E1;
          [|repeat case_match; discriminate].
        destruct (get_server_data (page2 env) _ h1) as [[s2 h2]|];
          [|repeat case_match; discriminate].
        intros [= <- _]. exists s1, h1. split; [done|]. rewrite Ew. by eexists.
      * apply retrieve_fetch_inv in Ef as [_ Hn]; [|done].
        intros [= _ <-]. by left.
  - apply retrieve_cache_inv in Ec as [_ Hn]; [|done]. intros [= _ <-]. by left.
Qed.

End RetrieveInvariant.

Lemma demo_retrieve_fresh :
  @ServerStatus.retrieve demo_pycountry demo_env_fresh demo_self ∅ =
    (Ok tt,
     ServerStatus.World
       (ServerStatus.set_json_mtime
          (ServerStatus.set_json_obj demo_self (Some (demo_snapshot 2))) 1538740800)
       demo_heap2).
Proof. eval_eq. Qed.

Lemma retrieve_returns_new_snapshot_witness :
  @ServerStatus.retrieve demo_pycountry demo_env_fresh demo_self ∅ =
    (Ok tt,
     ServerStatus.World
       (ServerStatus.set_json_mtime
          (ServerStatus.set_json_obj demo_self (Some (demo_snapshot 2))) 1538740800)
       demo_heap2) /\
  exists s : snapshot,
    ServerStatus.json_obj
      (ServerStatus.set_json_mtime
         (ServerStatus.set_json_obj demo_self (Some (demo_snapshot 2))) 1538740800)
    = Some s /\
    (∅ : heap) !! servers s = None /\
    is_Some (demo_heap2 !! servers s) /\
    objects_kept ∅ demo_heap2.
Proof.
  split; [exact demo_retrieve_fresh|].
  exact (@retrieve_returns_new_snapshot demo_pycountry demo_env_fresh demo_self ∅ _
           demo_retrieve_fresh).
Defined.

Lemma demo_retrieve_no_table :
  @ServerStatus.retrieve demo_pycountry demo_env_no_table demo_self_loaded demo_heap1 =
    (Raise AttributeError,
     ServerStatus.World (ServerStatus.set_json_obj demo_self_loaded None) demo_heap1).
Proof. eval_eq. Qed.

Lemma retrieve_raises_no_snapshot_witness :
  @ServerStatus.retrieve demo_pycountry demo_env_no_table demo_self_loaded demo_heap1 =
    (Raise AttributeError,
     ServerStatus.World (ServerStatus.set_json_obj demo_self_loaded None) demo_heap1) /\
  (ServerStatus.json_obj (ServerStatus.set_json_obj demo_self_loaded None) = None \/
   exists s1 h1,
     @get_server_data demo_pycountry (page1 demo_env_no_table)
       (utcnow1 demo_env_no_table) demo_heap1 = Ok (s1, h1) /\
     is_Some (write_cache demo_env_no_table (encode s1 h1))).
Proof.
  split; [exact demo_retrieve_no_table|].
  exact (@retrieve_raises_no_snapshot demo_pycountry demo_env_no_table demo_self_loaded
           demo_heap1 _ _ demo_retrieve_no_table).
Defined.

Section RetrieveEdges.
Context `{Pycountry}.

(** X9. When the cache gives nothing and the page has no table of the class
    table-deluxe, or the table has no thead, [retrieve] ends with the
    [AttributeError] of the look-up on [None]: it is not turned into a
    [ServerStatusError], and the object holds no snapshot. *)
Theorem retrieve_page_without_table (env : retrieve_env) (self : ServerStatus.t)
    (h : heap) :
  cache_miss env self ->
  (page1 env = Ok None \/
   exists table, page1 env = Ok (Some table) /\ thead table = None) ->
  ServerStatus.retrieve env self h =
    (Raise AttributeError,
     ServerStatus.World (ServerStatus.set_json_obj self None) h).
Proof.
  intros Hmiss Hpage. unfold ServerStatus.retrieve.
  rewrite retrieve_cache_miss by exact Hmiss.
  unfold ServerStatus.retrieve_fetch, get_server_data. simpl.
  destruct Hpage as [-> | (table & -> & Ht)]; simpl; [done|]. by rewrite Ht.
Qed.

(** X10. With a cache timeout of 0 or less the cache file plays no part:
    what [retrieve] returns and leaves behind is the same whatever the file
    system answers about the cache file, for reading and for writing. *)
Theorem retrieve_cache_disabled (env env' : retrieve_env) (self : ServerStatus.t)
    (h : heap) :
  (ServerStatus.cache_timeout self <= 0)%Q ->
  page1 env' = page1 env -> utcnow1 env' = utcnow1 env ->
  page2 env' = page2 env -> utcnow2 env' = utcnow2 env ->
  time_fetch env' = time_fetch env ->
  ServerStatus.retrieve env' self h = ServerStatus.retrieve env self h.
Proof.
  intros Hoff%Qltb_ge Hp1 Hu1 Hp2 Hu2 Ht.
  unfold ServerStatus.retrieve, ServerStatus.retrieve_cache. simpl. rewrite Hoff.
  unfold ServerStatus.retrieve_fetch. simpl. rewrite Hp1, Hu1, Hp2, Hu2, Ht.
  destruct (get_server_data (page1 env) _ h) as [[s1 h1]|e1]; [|done].
  destruct (get_server_data (page2 env) _ h1) as [[s2 h2]|e2]; done.
Qed.

(** X11. The round trip through the cache file.  A first call of [retrieve]
    that finds no cache fetches the page twice, keeps the snapshot of the
    second fetch and writes the document of the first; a later call that
    finds this document in a cache file younger than the timeout returns
    with a snapshot that has the records, ['last_check'] and ['total'] of
    the first fetch, in a list object of its own. *)
Theorem retrieve_cache_round_trip (env1 env2 : retrieve_env) (self : ServerStatus.t)
    (h h1 h2 : heap) (s1 s2 : snapshot) (mtime : Q) :
  cache_miss env1 self ->
  get_server_data (page1 env1) (utcnow1 env1) h = Ok (s1, h1) ->
  get_server_data (page2 env1) (utcnow2 env1) h1 = Ok (s2, h2) ->
  write_cache env1 (encode s1 h1) = None ->
  getmtime env2 = Ok mtime ->
  (time_check env2 - mtime < ServerStatus.cache_timeout self)%Q ->
  load_cache env2 = Ok (Some (encode s1 h1)) ->
  exists self1 self2 h3 (s3 : snapshot),
    ServerStatus.retrieve env1 self h = (Ok tt, ServerStatus.World self1 h2) /\
    ServerStatus.json_obj self1 = Some s2 /\
    ServerStatus.retrieve env2 self1 h2 = (Ok tt, ServerStatus.World self2 h3) /\
    ServerStatus.json_obj self2 = Some s3 /\
    ServerStatus.json_mtime self2 = mtime /\
    deref h3 (servers s3) = deref h1 (servers s1) /\
    last_check s3 = utcnow1 env1 /\
    total s3 = total s1 /\
    servers s3 <> servers s2 /\
    deref h3 (servers s2) = deref h2 (servers s2).
Proof.
  intros Hmiss E1 E2 Ew Hm Hfresh%Qltb_lt Hload.
  pose proof Hmiss as [Hpos%Qltb_lt _].
  pose proof (get_server_data_inv _ _ _ _ _ E1)
    as (t1 & ths1 & d1 & _ & _ & _ & _ & _ & _ & Hlc & _).
  pose proof (get_server_data_kept _ _ _ _ _ E2) as (_ & Hin2 & _).
  pose proof (load_doc_kept (encode s1 h1) h2) as (Hnew & _ & Hkept).
  pose proof (deref_alloc h2 (doc_servers (encode s1 h1))) as Hd.
  eexists _, _, _, _. split.
  { unfold ServerStatus.retrieve. rewrite retrieve_cache_miss by exact Hmiss.
    unfold ServerStatus.retrieve_fetch. simpl. rewrite E1, E2.
    unfold ServerStatus.retrieve_save. rewrite Ew. reflexivity. }
  split; [reflexivity|]. split.
  { unfold ServerStatus.retrieve, ServerStatus.retrieve_cache. simpl.
    rewrite Hpos, Hm, Hfresh, Hload.
    destruct (load_doc (encode s1 h1) h2) as [s3 h3]. reflexivity. }
  simpl in *. split_and!; try done.
  - intros Heq. unfold load_doc in Hnew. simpl in Hnew. unfold load_doc in Heq.
    simpl in Heq. rewrite Heq in Hnew. rewrite Hnew in Hin2. by destruct Hin2.
  - unfold deref. f_equal. apply Hkept, Hin2.
Qed.

End RetrieveEdges.

Lemma demo_cache_miss_fresh : cache_miss demo_env_fresh demo_self.
Proof. split; [reflexivity|]. left. exists FileNotFoundError. by repeat split. Qed.

Lemma demo_cache_miss_no_table : cache_miss demo_env_no_table demo_self.
Proof. split; [reflexivity|]. left. exists FileNotFoundError. by repeat split. Qed.

Lemma retrieve_page_without_table_witness :
  (cache_miss demo_env_no_table demo_self /\
   (page1 demo_env_no_table = Ok None \/
    exists table, page1 demo_env_no_table = Ok (Some table) /\ thead table = None)) /\
  @ServerStatus.retrieve demo_pycountry demo_env_no_table demo_self ∅ =
    (Raise AttributeError,
     ServerStatus.World (ServerStatus.set_json_obj demo_self None) ∅).
Proof.
  split; [split; [exact demo_cache_miss_no_table | by left]|].
  exact (@retrieve_page_without_table demo_pycountry demo_env_no_table demo_self ∅
           demo_cache_miss_no_table (or_introl eq_refl)).
Defined.

Lemma retrieve_cache_disabled_witness :
  ((ServerStatus.cache_timeout demo_self_nocache <= 0)%Q /\
   page1 demo_env_write_fails = page1 demo_env_fresh /\
   utcnow1 demo_env_write_fails = utcnow1 demo_env_fresh /\
   page2 demo_env_write_fails = page2 demo_env_fresh /\
   utcnow2 demo_env_write_fails = utcnow2 demo_env_fresh /\
   time_fetch demo_env_write_fails = time_fetch demo_env_fresh) /\
  @ServerStatus.retrieve demo_pycountry demo_env_write_fails demo_self_nocache ∅
  = @ServerStatus.retrieve demo_pycountry demo_env_fresh demo_self_nocache ∅.
Proof.
  assert (Hoff : (ServerStatus.cache_timeout demo_self_nocache <= 0)%Q)
    by (vm_compute; discriminate).
  split; [by split_and!|].
  exact (@retrieve_cache_disabled demo_pycountry demo_env_fresh demo_env_write_fails
           demo_self_nocache ∅ Hoff eq_refl eq_refl eq_refl eq_refl eq_refl).
Defined.

Lemma retrieve_cache_round_trip_witness :
  (cache_miss demo_env_fresh demo_self /\
   @get_server_data demo_pycountry (page1 demo_env_fresh) (utcnow1 demo_env_fresh) ∅
     = Ok (demo_snapshot 1, demo_heap1) /\
   @get_server_data demo_pycountry (page2 demo_env_fresh) (utcnow2 demo_env_fresh)
      demo_heap1 = Ok (demo_snapshot 2, demo_heap2) /\
   write_cache demo_env_fresh (encode (demo_snapshot 1) demo_heap1) = None /\
   getmtime demo_env_cached = Ok 1538740800%Q /\
   (time_check demo_env_cached - 1538740800 < ServerStatus.cache_timeout demo_self)%Q /\
   load_cache demo_env_cached = Ok (Some (encode (demo_snapshot 1) demo_heap1))) /\
  exists self1 self2 h3 (s3 : snapshot),
    @ServerStatus.retrieve demo_pycountry demo_env_fresh demo_self ∅
      = (Ok tt, ServerStatus.World self1 demo_heap2) /\
    ServerStatus.json_obj self1 = Some (demo_snapshot 2) /\
    @ServerStatus.retrieve demo_pycountry demo_env_cached self1 demo_heap2
      = (Ok tt, ServerStatus.World self2 h3) /\
    ServerStatus.json_obj self2 = Some s3 /\
    ServerStatus.json_mtime self2 = 1538740800%Q /\
    deref h3 (servers s3) = deref demo_heap1 (servers (demo_snapshot 1)) /\
    last_check s3 = utcnow1 demo_env_fresh /\
    total s3 = total (demo_snapshot 1) /\
    servers s3 <> servers (demo_snapshot 2) /\
    deref h3 (servers (demo_snapshot 2)) = deref demo_heap2 (servers (demo_snapshot 2)).
Proof.
  assert (Hfresh : (time_check demo_env_cached - 1538740800
                    < ServerStatus.cache_timeout demo_self)%Q) by reflexivity.
  split.
  - split_and!; [exact demo_cache_miss_fresh | exact demo_fetch1 | exact demo_fetch2
                | reflexivity | reflexivity | exact Hfresh | reflexivity].
  - exact (@retrieve_cache_round_trip demo_pycountry demo_env_fresh demo_env_cached
             demo_self ∅ demo_heap1 demo_heap2 (demo_snapshot 1) (demo_snapshot 2)
             1538740800 demo_cache_miss_fresh demo_fetch1 demo_fetch2 eq_refl eq_refl
             Hfresh eq_refl).
Defined.

Section GetMirrors.
Context `{Pycountry}.

(** X12. [get_mirrors] returns the server list of the snapshot that the
    object holds after the call: the list object itself, which is in the
    heap, while every list that existed before the call has kept its
    content.  It does not return without a snapshot; when it raises, the
    exception is the one [retrieve] raised. *)
Theorem get_mirrors_returns_held_list (env : retrieve_env) (now : Q)
    (self : ServerStatus.t) (h : heap) (r : result loc) (w : ServerStatus.world) :
  snapshot_in_heap self h ->
  ServerStatus.get_mirrors env now self h = (r, w) ->
  match r with
  | Ok l =>
      (exists s : snapshot,
         ServerStatus.json_obj (ServerStatus.w_self w) = Some s /\ servers s = l) /\
      is_Some (ServerStatus.w_heap w !! l) /\
      objects_kept h (ServerStatus.w_heap w)
  | Raise e => ServerStatus.retrieve env self h = (Raise e, w)
  end.
Proof.
  intros Hwf. unfold ServerStatus.get_mirrors, ServerStatus.get_obj.
  destruct (negb _ || _) eqn:Ecall.
  - destruct (ServerStatus.retrieve env self h) as [[[]|e] w'] eqn:Er.
    + apply retrieve_ok_inv in Er as (s & Hs & _ & Hin & Hkept).
      rewrite Hs. intros [= <- <-]. split_and!; [by exists s|done|done].
    + by intros [= <- <-].
  - apply orb_false_iff in Ecall as [Hheld%negb_false_iff _].
    destruct (ServerStatus.json_obj self) as [[|s]|] eqn:Hs; try discriminate Hheld.
    intros [= <- <-]. simpl.
    split_and!; [by exists s|by apply Hwf|apply objects_kept_refl].
Qed.

End GetMirrors.

Lemma demo_get_mirrors_fresh :
  @ServerStatus.get_mirrors demo_pycountry demo_env_fresh 1538740800 demo_self ∅ =
    (Ok 2%positive,
     ServerStatus.World
       (ServerStatus.set_json_mtime
          (ServerStatus.set_json_obj demo_self (Some (demo_snapshot 2))) 1538740800)
       demo_heap2).
Proof. eval_eq. Qed.

Lemma demo_self_in_heap : snapshot_in_heap demo_self ∅.
Proof. intros s. discriminate. Qed.

Lemma get_mirrors_returns_held_list_witness :
  (snapshot_in_heap demo_self ∅ /\
   @ServerStatus.get_mirrors demo_pycountry demo_env_fresh 1538740800 demo_self ∅ =
     (Ok 2%positive,
      ServerStatus.World
        (ServerStatus.set_json_mtime
           (ServerStatus.set_json_obj demo_self (Some (demo_snapshot 2))) 1538740800)
        demo_heap2)) /\
  (exists s : snapshot,
     ServerStatus.json_obj
       (ServerStatus.set_json_mtime
          (ServerStatus.set_json_obj demo_self (Some (demo_snapshot 2))) 1538740800)
     = Some s /\ servers s = 2%positive) /\
  is_Some (demo_heap2 !! 2%positive) /\
  objects_kept ∅ demo_heap2.
Proof.
  split; [split; [exact demo_self_in_heap | exact demo_get_mirrors_fresh]|].
  exact (@get_mirrors_returns_held_list demo_pycountry demo_env_fresh 1538740800
           demo_self ∅ _ _ demo_self_in_heap demo_get_mirrors_fresh).
Defined.

(** ** What [filter] yields *)

Section FilterMore.
Context `{ServerStatus.StrLib} `{ServerStatus.Re}.

Lemma passes_unrestricted (t : Q) (crit : ServerStatus.criteria) (m : record) :
  unrestricted crit -> ServerStatus.passes t crit m = Ok true.
Proof.
  intros (Hc & Hp & Hi & Hx & Ha).
  unfold ServerStatus.passes, ServerStatus.country_passes, ServerStatus.protocol_passes,
    ServerStatus.include_passes, ServerStatus.exclude_passes, ServerStatus.age_passes.
  by rewrite Hc, Hp, Hi, Hx, Ha.
Qed.

Lemma run_unrestricted (t : Q) (crit : ServerStatus.criteria) (items : list record) :
  unrestricted crit -> ServerStatus.run t crit items = (items, None).
Proof.
  intros Hu. induction items as [|m items IH]; simpl; [done|].
  by rewrite passes_unrestricted, IH.
Qed.

Lemma run_sublist (t : Q) (crit : ServerStatus.criteria) (items : list record) :
  (ServerStatus.run t crit items).1 `sublist_of` items.
Proof.
  induction items as [|m items IH]; simpl; [constructor|].
  destruct (ServerStatus.passes t crit m) as [[|]|e].
  - destruct (ServerStatus.run t crit items) as [ms e]. simpl in *. by constructor.
  - by constructor.
  - apply sublist_nil_l.
Qed.

(** X13. When no criterion is supplied (each argument of [filter] is
    absent, an empty list or 0), iterating over what [filter] returns gives
    every record of the list, in the order of the list, and no exception,
    whatever fields the records have. *)
Theorem filter_unrestricted (h : heap) (now : Q) (mirrors : loc)
    (crit : ServerStatus.criteria) (fuel : nat) :
  unrestricted crit ->
  (length (deref h mirrors) < fuel)%nat ->
  exists g1,
    ServerStatus.iterate fuel h now (ServerStatus.filter mirrors crit)
    = Some (deref h mirrors, None, g1).
Proof.
  intros Hu Hfuel.
  destruct (iterate_filter fuel h now mirrors crit Hfuel) as (g1 & Hit & _).
  exists g1. by rewrite Hit, run_unrestricted.
Qed.

(** X14. Whatever the criteria and the records, and also when the
    iteration ends with an exception, the records received from what
    [filter] returns are a subsequence of the list: records of the list, in
    the order of the list, none more often than it stands there. *)
Theorem filter_yields_subsequence (h : heap) (now : Q) (mirrors : loc)
    (crit : ServerStatus.criteria) (fuel : nat) :
  (length (deref h mirrors) < fuel)%nat ->
  exists ms e g1,
    ServerStatus.iterate fuel h now (ServerStatus.filter mirrors crit)
    = Some (ms, e, g1) /\
    ms `sublist_of` deref h mirrors.
Proof.
  intros Hfuel.
  destruct (iterate_filter fuel h now mirrors crit Hfuel) as (g1 & Hit & _).
  pose proof (run_sublist now crit (deref h mirrors)) as Hsub.
  destruct (ServerStatus.run now crit (deref h mirrors)) as [ms e].
  by exists ms, e, g1.
Qed.

Lemma country_passes_fetched (crit : ServerStatus.criteria) (m : record) :
  fetched_record m -> exists b, ServerStatus.country_passes crit m = Ok b.
Proof.
  intros Hm. unfold ServerStatus.country_passes.
  destruct (truthy_list _); [|by eexists].
  destruct (proj1 (Hm "country")) as [c Hc]; [apply list_elem_of_here|].
  destruct (proj1 (Hm "country_code")) as [cc Hcc];
    [apply list_elem_of_further, list_elem_of_here|].
  rewrite (getitem_Some _ _ _ Hc), (getitem_Some _ _ _ Hcc). simpl.
  destruct (bool_decide _); by eexists.
Qed.

Lemma fetched_no_protocol (m : record) : fetched_record m -> m !! "protocol" = None.
Proof.
  intros Hm. apply (Hm "protocol"). unfold server_fields.
  rewrite !not_elem_of_cons. split_and!; try done. apply not_elem_of_nil.
Qed.

Lemma passes_protocols_fetched (t : Q) (crit : ServerStatus.criteria) (m : record) :
  truthy_list (ServerStatus.protocols crit) = true ->
  fetched_record m ->
  (ServerStatus.passes t crit m = Ok false /\
   truthy_list (ServerStatus.countries crit) = true) \/
  ServerStatus.passes t crit m = Raise (KeyError "protocol").
Proof.
  intros Hp Hm. unfold ServerStatus.passes.
  destruct (country_passes_fetched crit m Hm) as [b Hb].
  assert (Hcs : truthy_list (ServerStatus.countries crit) = false -> b = true).
  { intros Hc. revert Hb. unfold ServerStatus.country_passes. rewrite Hc. by intros [= <-]. }
  rewrite Hb. unfold ServerStatus.and_then at 1. simpl.
  destruct b.
  - right. unfold ServerStatus.protocol_passes. rewrite Hp.
    by rewrite (getitem_None _ _ (fetched_no_protocol m Hm)).
  - left. split; [done|]. destruct (truthy_list (ServerStatus.countries crit)); [done|].
    by specialize (Hcs eq_refl).
Qed.

Lemma run_protocols_fetched (t : Q) (crit : ServerStatus.criteria)
    (items : list record) :
  truthy_list (ServerStatus.protocols crit) = true ->
  Forall fetched_record items ->
  exists e,
    ServerStatus.run t crit items = ([], e) /\
    (e = None \/ e = Some (KeyError "protocol")) /\
    (truthy_list (ServerStatus.countries crit) = false -> items <> [] ->
     e = Some (KeyError "protocol")).
Proof.
  intros Hp. induction 1 as [|m items Hm _ IH]; simpl.
  - exists None. split_and!; [done|by left|done].
  - destruct (passes_protocols_fetched t crit m Hp Hm) as [[-> Hc]| ->].
    + destruct IH as (e & -> & He & _). exists e. split_and!; [done|done|].
      intros Hc'. by rewrite Hc' in Hc.
    + exists (Some (KeyError "protocol")). split_and!; [done|by right|done].
Qed.

(** X15. On records with the eight fields of [get_server_data], a supplied
    [protocols] criterion lets no record through: the iteration yields
    nothing, and it ends with [KeyError] for the key protocol as soon as a
    record has passed the country criterion (at the first record, when no
    country is asked for). *)
Theorem filter_protocols_on_fetched (h : heap) (now : Q) (mirrors : loc)
    (crit : ServerStatus.criteria) (fuel : nat) :
  truthy_list (ServerStatus.protocols crit) = true ->
  Forall fetched_record (deref h mirrors) ->
  (length (deref h mirrors) < fuel)%nat ->
  exists e g1,
    ServerStatus.iterate fuel h now (ServerStatus.filter mirrors crit)
    = Some ([], e, g1) /\
    (e = None \/ e = Some (KeyError "protocol")) /\
    (truthy_list (ServerStatus.countries crit) = false -> deref h mirrors <> [] ->
     e = Some (KeyError "protocol")).
Proof.
  intros Hp Hf Hfuel.
  destruct (iterate_filter fuel h now mirrors crit Hfuel) as (g1 & Hit & _).
  destruct (run_protocols_fetched now crit (deref h mirrors) Hp Hf) as (e & Hrun & He).
  exists e, g1. by rewrite Hit, Hrun.
Qed.

End FilterMore.

Lemma server_record_fetched (country code city url : string) :
  fetched_record (server_record country code city url).
Proof. intros k. apply eight_fields. Qed.

Lemma demo_heap1_fetched : Forall fetched_record (deref demo_heap1 1%positive).
Proof. repeat constructor; apply server_record_fetched. Qed.

Lemma demo_heap3_fetched : Forall fetched_record (deref demo_heap3 1%positive).
Proof. repeat constructor; apply server_record_fetched. Qed.

Lemma demo_empty_criteria_unrestricted : unrestricted demo_empty_criteria.
Proof. by split_and!. Qed.

Lemma filter_unrestricted_witness :
  (unrestricted demo_empty_criteria /\
   (length (deref demo_heap3 1%positive) < 4)%nat) /\
  exists g1,
    @ServerStatus.iterate demo_strlib demo_re 4 demo_heap3 0
       (ServerStatus.filter 1%positive demo_empty_criteria)
    = Some (deref demo_heap3 1%positive, None, g1).
Proof.
  assert (Hfuel : (length (deref demo_heap3 1%positive) < 4)%nat) by (vm_compute; lia).
  split; [split; [exact demo_empty_criteria_unrestricted | exact Hfuel]|].
  exact (@filter_unrestricted demo_strlib demo_re demo_heap3 0 1%positive
           demo_empty_criteria 4 demo_empty_criteria_unrestricted Hfuel).
Defined.

Lemma filter_yields_subsequence_witness :
  (length (deref demo_heap3 1%positive) < 4)%nat /\
  exists ms e g1,
    @ServerStatus.iterate demo_strlib demo_re 4 demo_heap3 0
       (ServerStatus.filter 1%positive demo_countries)
    = Some (ms, e, g1) /\
    ms `sublist_of` deref demo_heap3 1%positive.
Proof.
  assert (Hfuel : (length (deref demo_heap3 1%positive) < 4)%nat) by (vm_compute; lia).
  split; [exact Hfuel|].
  exact (@filter_yields_subsequence demo_strlib demo_re demo_heap3 0 1%positive
           demo_countries 4 Hfuel).
Defined.

Lemma filter_protocols_on_fetched_witness :
  (truthy_list (ServerStatus.protocols demo_protocols) = true /\
   Forall fetched_record (deref demo_heap1 1%positive) /\
   (length (deref demo_heap1 1%positive) < 3)%nat) /\
  exists e g1,
    @ServerStatus.iterate demo_strlib demo_re 3 demo_heap1 0
       (ServerStatus.filter 1%positive demo_protocols)
    = Some ([], e, g1) /\
    (e = None \/ e = Some (KeyError "protocol")) /\
    (truthy_list (ServerStatus.countries demo_protocols) = false ->
     deref demo_heap1 1%positive <> [] ->
     e = Some (KeyError "protocol")).
Proof.
  assert (Hfuel : (length (deref demo_heap1 1%positive) < 3)%nat) by (vm_compute; lia).
  split; [split_and!; [reflexivity | exact demo_heap1_fetched | exact Hfuel]|].
  exact (@filter_protocols_on_fetched demo_strlib demo_re demo_heap1 0 1%positive
           demo_protocols 3 eq_refl demo_heap1_fetched Hfuel).
Defined.

(** ** Stability of the sorts *)

Section Stability.
Context {A : Type} (skip : A -> A -> bool) (P : A -> bool).
Hypothesis class_not_skipped :
  forall x y, P x = true -> skip y x = true -> P y = false.

Lemma insert_by_filter (x : A) (l : list A) :
  List.filter P (ServerStatus.insert_by skip x l) = List.filter P (x :: l).
Proof.
  induction l as [|y l IH]; [done|]. cbn [ServerStatus.insert_by].
  destruct (skip y x) eqn:Hs; [|done].
  cbn [List.filter]. rewrite IH. cbn [List.filter].
  destruct (P x) eqn:Hx; [|done].
  by rewrite (class_not_skipped x y Hx Hs).
Qed.

(** The elements of one class stand in the sorted list as they stood in the
    list. *)
Lemma stable_sort_filter (l : list A) :
  List.filter P (ServerStatus.stable_sort skip l) = List.filter P l.
Proof.
  induction l as [|x l IH]; [done|].
  unfold ServerStatus.stable_sort in *. cbn [foldr].
  rewrite insert_by_filter. cbn [List.filter]. by rewrite IH.
Qed.

End Stability.

Lemma filter_filter_bool {A : Type} (P Q : A -> bool) (l : list A) :
  List.filter P (List.filter Q l) = List.filter (fun x => Q x && P x) l.
Proof.
  induction l as [|x l IH]; [done|]. cbn [List.filter].
  destruct (Q x); simpl; [|done]. cbn [List.filter]. by rewrite IH.
Qed.

Lemma filter_ext_bool {A : Type} (P Q : A -> bool) (l : list A) :
  (forall x, P x = Q x) -> List.filter P l = List.filter Q l.
Proof.
  intros HPQ. induction l as [|x l IH]; [done|]. cbn [List.filter].
  by rewrite HPQ, IH.
Qed.

Lemma filter_none_bool {A : Type} (P : A -> bool) (l : list A) :
  (forall x, P x = false) -> List.filter P l = [].
Proof.
  intros HP. induction l as [|x l IH]; [done|]. cbn [List.filter]. by rewrite HP.
Qed.

Lemma filter_snd_keyed (key : record -> Q) (P : record -> bool)
    (ps : list (Q * record)) :
  List.filter P ps.*2 = (List.filter (fun p => P p.2) ps).*2.
Proof.
  induction ps as [|p ps IH]; [done|]. csimpl. cbn [List.filter].
  destruct (P p.2); csimpl; by rewrite IH.
Qed.

Section RateMore.
Context `{ServerStatus.StrLib} `{ServerStatus.Re}.
Variable measured : string -> Q.

Lemma arrivals_rates (items : list record)
    (q_out : list (string * Q * ServerStatus.pyfloat)) :
  arrivals_of measured items q_out ->
  Forall (fun m => ServerStatus.collect_rates q_out !! the_url m
                   = Some (rate_under measured m)) items.
Proof.
  intros Harr. apply Forall_forall. intros m Hm.
  apply collect_rates_lookup.
  - apply Forall_forall. intros r Hr.
    assert (Hin : (r.1.1, r.1.2) ∈ map (fun r => (r.1.1, r.1.2)) q_out)
      by (by apply (list_elem_of_fmap_2 (fun r => (r.1.1, r.1.2)))).
    unfold arrivals_of in Harr. rewrite Harr in Hin.
    apply list_elem_of_fmap in Hin as (m' & Heq & _). by injection Heq as -> ->.
  - assert (Hin : (the_url m, measured (the_url m))
                  ∈ map (fun m => (the_url m, measured (the_url m))) items)
      by (by apply (list_elem_of_fmap_2 (fun m => (the_url m, measured (the_url m))))).
    unfold arrivals_of in Harr. rewrite <- Harr in Hin.
    apply list_elem_of_fmap in Hin as (r & Heq & Hr). injection Heq as Hu _.
    rewrite Hu. by apply (list_elem_of_fmap_2 (fun r => r.1.1)).
Qed.

(** What [rate] returns when every record has a url and the queue holds
    the measured rate of each. *)
Lemma rate_returns (q_out : list (string * Q * ServerStatus.pyfloat))
    (self : ServerStatus.t) (threads : Z) (h h' : heap) (now : Q) (l l' : loc) :
  Forall has_url (deref h l) ->
  arrivals_of measured (deref h l) q_out ->
  ServerStatus.rate q_out self threads h now (ServerStatus.PyList l)
    = ServerStatus.Returns (l', h') ->
  deref h' l'
  = (ServerStatus.sort_desc fst
       (map (fun m => (rate_under measured m, m))
          (List.filter (fun m => Qltb 0 (rate_under measured m)) (deref h l)))).*2
    ++ List.filter (fun m => Qeq_bool (rate_under measured m) 0) (deref h l).
Proof.
  intros Hurl Harr. unfold ServerStatus.rate. simpl.
  remember (deref h l) as items eqn:Eitems.
  pose proof (arrivals_rates items q_out Harr) as Hrates.
  destruct items as [|m0 items0] eqn:E.
  { intros [= <- <-]. by rewrite <- Eitems. }
  rewrite <- E in *.
  destruct (if Z.eqb threads 0 then _ else _); [|discriminate].
  rewrite (mapM_url_of items Hurl).
  assert (Hlen : length q_out = length items).
  { unfold arrivals_of in Harr. apply Permutation_length in Harr.
    by rewrite !length_map in Harr. }
  rewrite Hlen, Nat.ltb_irrefl, <- Hlen, firstn_all.
  unfold ServerStatus.rank.
  rewrite !(select_spec measured _ _ items Hurl Hrates). simpl.
  rewrite snd_keyed. intros [= <- <-].
  apply (deref_alloc h _).
Qed.

Lemma filter_ext_Forall {A : Type} (P Q : A -> bool) (l : list A) :
  Forall (fun x => P x = Q x) l -> List.filter P l = List.filter Q l.
Proof.
  induction 1 as [|x l Hx _ IH]; [done|]. cbn [List.filter]. by rewrite Hx, IH.
Qed.

(** Sorting by a numeric key, largest first, keeps the order among the
    records of equal key. *)
Lemma sort_desc_keyed_filter (key : record -> Q) (k : Q) (l : list record) :
  List.filter (fun m => Qeq_bool (key m) k)
    (ServerStatus.sort_desc fst (map (fun m => (key m, m)) l)).*2
  = List.filter (fun m => Qeq_bool (key m) k) l.
Proof.
  rewrite (filter_snd_keyed key).
  assert (Hkeyed : Forall (fun p : Q * record => p.1 = key p.2)
                     (map (fun m => (key m, m)) l)).
  { apply Forall_fmap. by apply Forall_true. }
  rewrite (filter_ext_Forall _ (fun p : Q * record => Qeq_bool p.1 k)).
  2:{ rewrite sort_desc_Permutation. eapply Forall_impl; [exact Hkeyed|].
      intros p Hp. simpl. by rewrite Hp. }
  unfold ServerStatus.sort_desc. rewrite stable_sort_filter.
  2:{ intros x y Hx%Qeq_bool_iff Hs%Qltb_lt.
      apply not_true_iff_false. intros Hy%Qeq_bool_iff. lra. }
  rewrite (filter_ext_Forall _ (fun p : Q * record => Qeq_bool (key p.2) k)).
  2:{ eapply Forall_impl; [exact Hkeyed|]. intros p Hp. simpl. by rewrite Hp. }
  rewrite <- (filter_snd_keyed key (fun m => Qeq_bool (key m) k)).
  by rewrite snd_keyed.
Qed.

(** X16. [rate] keeps the order of the list among records of equal rate:
    for every rate [k] that is not negative, the records with rate [k]
    stand in the returned list exactly as they stand in the list given. *)
Theorem rate_stable (q_out : list (string * Q * ServerStatus.pyfloat))
    (self : ServerStatus.t) (threads : Z) (h h' : heap) (now : Q) (l l' : loc)
    (k : Q) :
  Forall has_url (deref h l) ->
  arrivals_of measured (deref h l) q_out ->
  (0 <= k)%Q ->
  ServerStatus.rate q_out self threads h now (ServerStatus.PyList l)
    = ServerStatus.Returns (l', h') ->
  List.filter (fun m => Qeq_bool (rate_under measured m) k) (deref h' l')
  = List.filter (fun m => Qeq_bool (rate_under measured m) k) (deref h l).
Proof.
  intros Hurl Harr Hk Hrate.
  rewrite (rate_returns q_out self threads h h' now l l' Hurl Harr Hrate).
  rewrite List.filter_app, sort_desc_keyed_filter, !filter_filter_bool.
  destruct (Qeq_bool k 0) eqn:Hk0.
  - apply Qeq_bool_iff in Hk0.
    rewrite (filter_none_bool (fun m => Qltb 0 _ && _)).
    2:{ intros m. apply not_true_iff_false.
        intros [Hp%Qltb_lt Hm%Qeq_bool_iff]%andb_true_iff. lra. }
    simpl. apply filter_ext_bool. intros m.
    destruct (Qeq_bool (rate_under measured m) k) eqn:Hm.
    + apply Qeq_bool_iff in Hm. rewrite andb_true_r. apply Qeq_bool_iff. lra.
    + apply andb_false_r.
  - apply Qeq_bool_neq in Hk0.
    rewrite (filter_none_bool (fun m => Qeq_bool _ 0 && _)).
    2:{ intros m. apply not_true_iff_false.
        intros [Hp%Qeq_bool_iff Hm%Qeq_bool_iff]%andb_true_iff. lra. }
    rewrite app_nil_r. apply filter_ext_bool. intros m.
    destruct (Qeq_bool (rate_under measured m) k) eqn:Hm.
    + apply Qeq_bool_iff in Hm. rewrite andb_true_r. apply Qltb_lt. lra.
    + apply andb_false_r.
Qed.

End RateMore.

Lemma demo_arrivals : arrivals_of demo_measured (deref demo_heap3 1%positive) demo_q_out.
Proof.
  unfold arrivals_of. rewrite demo_heap3_content.
  apply (Permutation_rev [("de-fra.pvdata.host", demo_measured "de-fra.pvdata.host");
                          ("at-wie.pvdata.host", demo_measured "at-wie.pvdata.host");
                          ("se-sto.pvdata.host", demo_measured "se-sto.pvdata.host")]).
Qed.

Lemma demo_rate_three :
  @ServerStatus.rate demo_strlib demo_re demo_q_out demo_self 5 demo_heap3 0
    (ServerStatus.PyList 1%positive)
  = ServerStatus.Returns (2%positive, demo_heap3_rated).
Proof. eval_eq. Qed.

Lemma rate_stable_witness :
  (Forall has_url (deref demo_heap3 1%positive) /\
   arrivals_of demo_measured (deref demo_heap3 1%positive) demo_q_out /\
   (0 <= 500)%Q /\
   @ServerStatus.rate demo_strlib demo_re demo_q_out demo_self 5 demo_heap3 0
     (ServerStatus.PyList 1%positive)
   = ServerStatus.Returns (2%positive, demo_heap3_rated)) /\
  List.filter (fun m => Qeq_bool (rate_under demo_measured m) 500)
    (deref demo_heap3_rated 2%positive)
  = List.filter (fun m => Qeq_bool (rate_under demo_measured m) 500)
      (deref demo_heap3 1%positive).
Proof.
  assert (Hk : (0 <= 500)%Q) by (vm_compute; discriminate).
  split; [split_and!; [exact demo_records_have_url | exact demo_arrivals | exact Hk
                      | exact demo_rate_three]|].
  exact (@rate_stable demo_strlib demo_re demo_measured demo_q_out demo_self 5
           demo_heap3 demo_heap3_rated 0 1%positive 2%positive 500
           demo_records_have_url demo_arrivals Hk demo_rate_three).
Defined.

(** ** What [rate] and [sort] do to the lists *)

Section SortMore.
Context `{ServerStatus.StrLib} `{ServerStatus.Re}.

(** What [rate] does to the heap, given a list. *)
Lemma rate_list_inv (q_out : list (string * Q * ServerStatus.pyfloat))
    (self : ServerStatus.t) (threads : Z) (h h' : heap) (now : Q) (l l' : loc) :
  ServerStatus.rate q_out self threads h now (ServerStatus.PyList l)
    = ServerStatus.Returns (l', h') ->
  objects_kept h h' /\
  (deref h l = [] -> l' = l /\ h' = h) /\
  (deref h l <> [] -> h !! l' = None /\ l' <> l /\ deref h' l = deref h l).
Proof.
  intros Hrate. split; [exact (rate_frame _ _ _ _ _ _ _ _ Hrate)|].
  revert Hrate. unfold ServerStatus.rate. simpl.
  destruct (deref h l) as [|m items] eqn:Hl.
  { intros [= <- <-]. by split. }
  destruct (if Z.eqb threads 0 then _ else _); [|discriminate].
  destruct (mapM _ _); [|discriminate].
  destruct (Nat.ltb _ _); [discriminate|].
  destruct (ServerStatus.rank _ _) as [ranked|]; [|discriminate].
  intros [= <- <-]. split; [done|]. intros _.
  pose proof (alloc_fresh h ranked) as Hnew.
  assert (Hin : is_Some (h !! l)).
  { unfold deref in Hl. destruct (h !! l); [by eexists|discriminate]. }
  split_and!; [done| |].
  - intros Heq. unfold alloc in Hnew. simpl in Hnew, Heq. rewrite Heq in Hnew.
    rewrite Hnew in Hin. by destruct Hin.
  - rewrite <- Hl. unfold deref. f_equal. exact (alloc_frame h ranked l Hin).
Qed.

(** X17. [rate] changes no list object.  Given a list that is not empty
    it returns a list object that did not exist before, and the list given
    keeps its content and order; given an empty list it returns that list
    object itself. *)
Theorem rate_returns_new_list (q_out : list (string * Q * ServerStatus.pyfloat))
    (self : ServerStatus.t) (threads : Z) (h h' : heap) (now : Q) (l l' : loc) :
  ServerStatus.rate q_out self threads h now (ServerStatus.PyList l)
    = ServerStatus.Returns (l', h') ->
  objects_kept h h' /\
  (deref h l = [] -> l' = l /\ h' = h) /\
  (deref h l <> [] -> h !! l' = None /\ l' <> l /\ deref h' l = deref h l).
Proof. apply rate_list_inv. Qed.

Lemma as_list_content (h h1 : heap) (now : Q) (mirrors : ServerStatus.iterable)
    (l : loc) :
  ServerStatus.as_list h now mirrors = Ok (l, h1) ->
  ServerStatus.read_all h now mirrors = (deref h1 l, None).
Proof.
  destruct mirrors as [l0|g].
  - simpl. by intros [= <- <-].
  - unfold ServerStatus.as_list.
    destruct (ServerStatus.read_all h now (ServerStatus.PyGen g)) as [items [e|]];
      [discriminate|].
    pose proof (deref_alloc h items) as Hd.
    destruct (alloc h items) as [l1 h2]. intros [= <- <-]. simpl in Hd. by rewrite Hd.
Qed.

Lemma sort_in_place_inv (reverse : bool) (key : string) (l l' : loc) (h h' : heap) :
  ServerStatus.sort_in_place reverse key l h = ServerStatus.Returns (l', h') ->
  l' = l /\ ServerStatus.sort_by_key reverse key (deref h l) = Ok (deref h' l).
Proof.
  unfold ServerStatus.sort_in_place.
  destruct (ServerStatus.sort_by_key reverse key (deref h l)) as [items|];
    simpl; [|discriminate].
  intros [= <- <-]. split; [done|]. unfold deref. by rewrite lookup_insert_eq.
Qed.

(** What a call of [sort] with one of the five keys comes down to. *)
Lemma sort_key_inv (q_out : list (string * Q * ServerStatus.pyfloat))
    (self : ServerStatus.t) (h h' : heap) (now : Q)
    (mirrors : ServerStatus.iterable) (key : string) (l' : loc) :
  key ∈ in_place_keys ->
  ServerStatus.sort q_out self h now mirrors (Some key) = ServerStatus.Returns (l', h') ->
  exists items,
    ServerStatus.read_all h now mirrors = (items, None) /\
    ServerStatus.sort_by_key (String.eqb key "age")
      (if String.eqb key "age" then "last_sync" else key) items
    = Ok (deref h' l').
Proof.
  intros Hkey. unfold ServerStatus.sort.
  destruct (ServerStatus.as_list h now mirrors) as [[l h1]|] eqn:Hal; [|discriminate].
  apply as_list_content in Hal. intros Hs. exists (deref h1 l). split; [done|].
  destruct (String.eqb_spec key "age") as [->|Hage].
  { by apply sort_in_place_inv in Hs as [-> ?]. }
  revert Hs.
  destruct (String.eqb_spec key "rate") as [->|Hrate].
  { exfalso. unfold in_place_keys in Hkey.
    repeat (apply elem_of_cons in Hkey as [Hkey|Hkey]; [discriminate|]).
    by apply elem_of_nil in Hkey. }
  rewrite bool_decide_eq_true_2.
  2:{ unfold in_place_keys in Hkey.
      apply elem_of_cons in Hkey as [->|Hkey]; [done|]. exact Hkey. }
  by intros [-> ?]%sort_in_place_inv.
Qed.

(** X18. A call of [sort] with one of the keys age, country, country_code,
    delay and score that returns, for a list or for a generator: the
    argument could be read to its end, and the list returned holds exactly
    the records read, each as often as it was read, in the order of the
    key (descending for age). *)
Theorem sort_returns_sorted (q_out : list (string * Q * ServerStatus.pyfloat))
    (self : ServerStatus.t) (h h' : heap) (now : Q)
    (mirrors : ServerStatus.iterable) (key : string) (l' : loc) :
  key ∈ in_place_keys ->
  ServerStatus.sort q_out self h now mirrors (Some key) = ServerStatus.Returns (l', h') ->
  (ServerStatus.read_all h now mirrors).2 = None /\
  Permutation (deref h' l') (ServerStatus.read_all h now mirrors).1 /\
  StronglySorted
    (key_ordered (String.eqb key "age")
       (if String.eqb key "age" then "last_sync" else key))
    (deref h' l').
Proof.
  intros Hkey Hsort.
  destruct (sort_key_inv _ _ _ _ _ _ _ _ Hkey Hsort) as (items & -> & Hs).
  split_and!; [done| |].
  - by eapply sort_by_key_Permutation.
  - by eapply sort_by_key_sorted.
Qed.

End SortMore.

Lemma rate_returns_new_list_witness :
  @ServerStatus.rate demo_strlib demo_re demo_q_out demo_self 5 demo_heap3 0
    (ServerStatus.PyList 1%positive)
  = ServerStatus.Returns (2%positive, demo_heap3_rated) /\
  objects_kept demo_heap3 demo_heap3_rated /\
  (deref demo_heap3 1%positive = [] ->
   2%positive = 1%positive /\ demo_heap3_rated = demo_heap3) /\
  (deref demo_heap3 1%positive <> [] ->
   demo_heap3 !! 2%positive = None /\ 2%positive <> 1%positive /\
   deref demo_heap3_rated 1%positive = deref demo_heap3 1%positive).
Proof.
  split; [exact demo_rate_three|].
  exact (@rate_returns_new_list demo_strlib demo_re demo_q_out demo_self 5
           demo_heap3 demo_heap3_rated 0 1%positive 2%positive demo_rate_three).
Defined.

Lemma demo_sort_filtered :
  @ServerStatus.sort demo_strlib demo_re [] demo_self demo_heap1 0
    (ServerStatus.PyGen (ServerStatus.filter 1%positive no_criteria)) (Some "country")
  = ServerStatus.Returns (2%positive, demo_heap1_filtered_sorted).
Proof. eval_eq. Qed.

Lemma country_in_place : "country" ∈ in_place_keys.
Proof. apply list_elem_of_further, list_elem_of_here. Qed.

Lemma sort_returns_sorted_witness :
  ("country" ∈ in_place_keys /\
   @ServerStatus.sort demo_strlib demo_re [] demo_self demo_heap1 0
     (ServerStatus.PyGen (ServerStatus.filter 1%positive no_criteria)) (Some "country")
   = ServerStatus.Returns (2%positive, demo_heap1_filtered_sorted)) /\
  (@ServerStatus.read_all demo_strlib demo_re demo_heap1 0
     (ServerStatus.PyGen (ServerStatus.filter 1%positive no_criteria))).2 = None /\
  Permutation (deref demo_heap1_filtered_sorted 2%positive)
    (@ServerStatus.read_all demo_strlib demo_re demo_heap1 0
       (ServerStatus.PyGen (ServerStatus.filter 1%positive no_criteria))).1 /\
  StronglySorted
    (key_ordered (String.eqb "country" "age")
       (if String.eqb "country" "age" then "last_sync" else "country"))
    (deref demo_heap1_filtered_sorted 2%positive).
Proof.
  split; [split; [exact country_in_place | exact demo_sort_filtered]|].
  exact (@sort_returns_sorted demo_strlib demo_re [] demo_self demo_heap1
           demo_heap1_filtered_sorted 0 _ "country" 2%positive country_in_place
           demo_sort_filtered).
Defined.

Lemma val_eqb_not_ltb (a b v : val) :
  val_eqb a v = true -> val_eqb b v = true -> ServerStatus.val_ltb a b = false.
Proof.
  destruct a as [a|a], b as [b|b], v as [v|v]; simpl; try done.
  - intros ->%String.eqb_eq ->%String.eqb_eq.
    destruct (String.ltb v v) eqn:E; [|done]. by rewrite (string_ltb_asym v v E) in E.
  - intros Ha%Qeq_bool_iff Hb%Qeq_bool_iff. apply Qltb_ge. lra.
Qed.

Lemma filter_snd_pairs {K : Type} (P : record -> bool) (ps : list (K * record)) :
  List.filter P ps.*2 = (List.filter (fun p => P p.2) ps).*2.
Proof.
  induction ps as [|p ps IH]; [done|]. csimpl. cbn [List.filter].
  destruct (P p.2); csimpl; by rewrite IH.
Qed.

(** [list.sort] keeps the order among the records of equal key. *)
Lemma sort_by_key_stable (reverse : bool) (key : string) (v : val)
    (items items' : list record) :
  ServerStatus.sort_by_key reverse key items = Ok items' ->
  List.filter (key_is key v) items' = List.filter (key_is key v) items.
Proof.
  unfold ServerStatus.sort_by_key.
  destruct (mapM _ items) as [keys|] eqn:Hk; simpl; [|discriminate].
  destruct (ServerStatus.homogeneous keys); [|discriminate].
  intros [= <-].
  pose proof (mapM_getitem key items keys Hk) as Hfields.
  assert (Hsame : Forall (fun p : val * record => key_is key v p.2 = val_eqb p.1 v)
                    (zip keys items)).
  { eapply Forall_impl; [exact Hfields|]. intros p Hp. unfold key_is. by rewrite Hp. }
  rewrite filter_snd_pairs.
  rewrite (filter_ext_Forall _ (fun p : val * record => val_eqb p.1 v))
    by (by rewrite stable_sort_Permutation).
  rewrite stable_sort_filter.
  2:{ intros x y Hx Hs. apply not_true_iff_false. intros Hy.
      destruct reverse.
      - by rewrite (val_eqb_not_ltb x.1 y.1 v Hx Hy) in Hs.
      - by rewrite (val_eqb_not_ltb y.1 x.1 v Hy Hx) in Hs. }
  rewrite <- (filter_ext_Forall _ _ _ Hsame).
  rewrite <- filter_snd_pairs.
  rewrite snd_zip; [done|]. apply mapM_length in Hk. lia.
Qed.

Section SortStable.
Context `{ServerStatus.StrLib} `{ServerStatus.Re}.

(** X19. [sort] with one of the keys age, country, country_code, delay and
    score is stable: for every value of the key, the records with that
    value stand in the list returned exactly as they were read from the
    argument. *)
Theorem sort_stable (q_out : list (string * Q * ServerStatus.pyfloat))
    (self : ServerStatus.t) (h h' : heap) (now : Q)
    (mirrors : ServerStatus.iterable) (key : string) (l' : loc) (v : val) :
  key ∈ in_place_keys ->
  ServerStatus.sort q_out self h now mirrors (Some key) = ServerStatus.Returns (l', h') ->
  List.filter (key_is (if String.eqb key "age" then "last_sync" else key) v)
    (deref h' l')
  = List.filter (key_is (if String.eqb key "age" then "last_sync" else key) v)
      (ServerStatus.read_all h now mirrors).1.
Proof.
  intros Hkey Hsort.
  destruct (sort_key_inv _ _ _ _ _ _ _ _ Hkey Hsort) as (items & -> & Hs).
  by eapply sort_by_key_stable.
Qed.

End SortStable.

Lemma sort_stable_witness :
  ("country" ∈ in_place_keys /\
   @ServerStatus.sort demo_strlib demo_re [] demo_self demo_heap1 0
     (ServerStatus.PyGen (ServerStatus.filter 1%positive no_criteria)) (Some "country")
   = ServerStatus.Returns (2%positive, demo_heap1_filtered_sorted)) /\
  List.filter
    (key_is (if String.eqb "country" "age" then "last_sync" else "country")
       (VStr "Sweden"))
    (deref demo_heap1_filtered_sorted 2%positive)
  = List.filter
      (key_is (if String.eqb "country" "age" then "last_sync" else "country")
         (VStr "Sweden"))
      (@ServerStatus.read_all demo_strlib demo_re demo_heap1 0
         (ServerStatus.PyGen (ServerStatus.filter 1%positive no_criteria))).1.
Proof.
  split; [split; [exact country_in_place | exact demo_sort_filtered]|].
  exact (@sort_stable demo_strlib demo_re [] demo_self demo_heap1
           demo_heap1_filtered_sorted 0 _ "country" 2%positive (VStr "Sweden")
           country_in_place demo_sort_filtered).
Defined.

(** ** Sorting the records of [get_server_data] *)

Lemma mapM_getitem_fetched (key : string) (items : list record) :
  key ∈ server_fields ->
  Forall fetched_record items ->
  exists keys,
    mapM (fun m => getitem m key) items = Ok keys /\
    Forall (fun k => exists s, k = VStr s) keys.
Proof.
  intros Hkey. induction 1 as [|m items Hm _ (keys & IH & Hstr)].
  - exists []. by split.
  - destruct (proj1 (Hm key) Hkey) as [s Hs].
    exists (VStr s :: keys). cbn [mapM]. rewrite (getitem_Some _ _ _ Hs). simpl.
    rewrite IH. simpl. split; [done|]. constructor; [by exists s | done].
Qed.

Lemma homogeneous_strings (keys : list val) :
  Forall (fun k => exists s, k = VStr s) keys -> ServerStatus.homogeneous keys = true.
Proof.
  intros [|k rest [s ->] Hkeys]; [done|]. simpl.
  apply forallb_forall. intros k' Hk'%list_elem_of_In.
  by destruct (proj1 (Forall_forall _ _) Hkeys k' Hk') as [s' ->].
Qed.

Lemma sort_by_key_fetched (reverse : bool) (key : string) (items : list record) :
  key ∈ server_fields ->
  Forall fetched_record items ->
  is_ok (ServerStatus.sort_by_key reverse key items) = true.
Proof.
  intros Hkey Hf. unfold ServerStatus.sort_by_key.
  destruct (mapM_getitem_fetched key items Hkey Hf) as (keys & -> & Hstr). simpl.
  by rewrite (homogeneous_strings keys Hstr).
Qed.

Lemma sort_by_key_missing (reverse : bool) (key : string) (m : record)
    (items : list record) :
  m !! key = None ->
  ServerStatus.sort_by_key reverse key (m :: items) = Raise (KeyError key).
Proof.
  intros Hm. unfold ServerStatus.sort_by_key. cbn [mapM].
  by rewrite (getitem_None _ _ Hm).
Qed.

Section SortFetched.
Context `{ServerStatus.StrLib} `{ServerStatus.Re}.

(** X20. Sorting a list of records with the eight fields of
    [get_server_data] that is not empty: by country and by country_code
    [sort] returns the list object it was given; by age, by delay and by
    score it raises [KeyError] (for last_sync, delay and score), because no
    record has the field. *)
Theorem sort_on_fetched (q_out : list (string * Q * ServerStatus.pyfloat))
    (self : ServerStatus.t) (h : heap) (now : Q) (l : loc) (key : string) :
  Forall fetched_record (deref h l) ->
  deref h l <> [] ->
  key ∈ in_place_keys ->
  match ServerStatus.sort q_out self h now (ServerStatus.PyList l) (Some key) with
  | ServerStatus.Returns (l', _) => l' = l /\ key ∈ ["country"; "country_code"]
  | ServerStatus.Raises e =>
      e = KeyError (if String.eqb key "age" then "last_sync" else key) /\
      key ∈ ["age"; "delay"; "score"]
  | ServerStatus.Blocks => False
  end.
Proof.
  intros Hf Hne Hkey.
  assert (Hmiss : forall k reverse, k ∉ server_fields ->
            ServerStatus.sort_in_place reverse k l h = ServerStatus.Raises (KeyError k)).
  { intros k reverse Hk. unfold ServerStatus.sort_in_place.
    destruct (deref h l) as [|m items]; [done|].
    apply Forall_cons in Hf as [Hm _].
    by rewrite (sort_by_key_missing reverse k m items (proj2 (Hm k) Hk)). }
  assert (Hhas : forall k reverse, k ∈ server_fields ->
            exists h', ServerStatus.sort_in_place reverse k l h
                       = ServerStatus.Returns (l, h')).
  { intros k reverse Hk. unfold ServerStatus.sort_in_place.
    pose proof (sort_by_key_fetched reverse k (deref h l) Hk Hf) as Hok.
    destruct (ServerStatus.sort_by_key reverse k (deref h l)) as [items|];
      [|discriminate].
    by eexists. }
  assert (Hnot : forall k, k ∈ ["last_sync"; "delay"; "score"] -> k ∉ server_fields).
  { intros k Hk. unfold server_fields.
    repeat (apply elem_of_cons in Hk as [->|Hk];
            [rewrite !not_elem_of_cons; split_and!; try done; apply not_elem_of_nil|]).
    by apply elem_of_nil in Hk. }
  unfold ServerStatus.sort. simpl. unfold in_place_keys in Hkey.
  apply elem_of_cons in Hkey as [->|Hkey].
  { simpl. rewrite Hmiss by (apply Hnot, list_elem_of_here). split; [done|].
    apply list_elem_of_here. }
  apply elem_of_cons in Hkey as [->|Hkey].
  { simpl. destruct (Hhas "country" false) as [h' ->]; [apply list_elem_of_here|].
    split; [done|]. apply list_elem_of_here. }
  apply elem_of_cons in Hkey as [->|Hkey].
  { simpl. destruct (Hhas "country_code" false) as [h' ->];
      [apply list_elem_of_further, list_elem_of_here|].
    split; [done|]. apply list_elem_of_further, list_elem_of_here. }
  apply elem_of_cons in Hkey as [->|Hkey].
  { simpl. rewrite Hmiss by (apply Hnot, list_elem_of_further, list_elem_of_here).
    split; [done|]. apply list_elem_of_further, list_elem_of_here. }
  apply elem_of_cons in Hkey as [->|Hkey]; [|by apply elem_of_nil in Hkey].
  simpl.
  rewrite Hmiss by (apply Hnot, list_elem_of_further, list_elem_of_further,
                    list_elem_of_here).
  split; [done|]. apply list_elem_of_further, list_elem_of_further, list_elem_of_here.
Qed.

End SortFetched.

Lemma sort_on_fetched_witness :
  (Forall fetched_record (deref demo_heap1 1%positive) /\
   deref demo_heap1 1%positive <> [] /\
   "age" ∈ in_place_keys) /\
  match @ServerStatus.sort demo_strlib demo_re [] demo_self demo_heap1 0
          (ServerStatus.PyList 1%positive) (Some "age") with
  | ServerStatus.Returns (l', _) => l' = 1%positive /\ "age" ∈ ["country"; "country_code"]
  | ServerStatus.Raises e =>
      e = KeyError (if String.eqb "age" "age" then "last_sync" else "age") /\
      "age" ∈ ["age"; "delay"; "score"]
  | ServerStatus.Blocks => False
  end.
Proof.
  assert (Hne : deref demo_heap1 1%positive <> []) by discriminate.
  assert (Hkey : "age" ∈ in_place_keys) by apply list_elem_of_here.
  split; [split_and!; [exact demo_heap1_fetched | exact Hne | exact Hkey]|].
  exact (@sort_on_fetched demo_strlib demo_re [] demo_self demo_heap1 0 1%positive "age"
           demo_heap1_fetched Hne Hkey).
Defined.

(** ** Workers that die *)

Lemma omap_length_le {A B : Type} (f : A -> option B) (l : list A) :
  (length (omap f l) <= length l)%nat.
Proof. induction l as [|x l IH]; csimpl; [done|]. destruct (f x); csimpl; lia. Qed.

Lemma omap_length_lt {A B : Type} (f : A -> option B) (l : list A) (x : A) :
  x ∈ l -> f x = None -> (length (omap f l) < length l)%nat.
Proof.
  intros Hx Hf. induction l as [|y l IH]; [by apply elem_of_nil in Hx|]. csimpl.
  apply elem_of_cons in Hx as [<-|Hx].
  - rewrite Hf. pose proof (omap_length_le f l). lia.
  - specialize (IH Hx). destruct (f y); csimpl; lia.
Qed.

Section WorkerDies.
Context `{ServerStatus.StrLib} `{ServerStatus.Re} `{ServerStatus.UrlParse}
        `{ServerStatus.FloatArith}.

(** X21. When the turn of a worker for one of the urls ends with an
    exception (a failing ping, a download between two equal readings of the
    clock), no tuple for that url reaches the result queue, and [rate]
    neither returns nor raises: it waits for ever. *)
Theorem rate_blocks_when_worker_raises
    (probe : string -> ServerStatus.probe_env)
    (q_out : list (string * Q * ServerStatus.pyfloat))
    (self : ServerStatus.t) (threads : Z) (h : heap) (now : Q) (l : loc) (m : record) :
  Forall has_url (deref h l) ->
  threads <> 0%Z \/ is_Some (ServerStatus.threads self) ->
  q_out ⊆+ results_put probe (map the_url (deref h l)) ->
  m ∈ deref h l ->
  is_ok (ServerStatus.worker (probe (the_url m)) (the_url m)) = false ->
  ServerStatus.rate q_out self threads h now (ServerStatus.PyList l)
  = ServerStatus.Blocks.
Proof.
  intros Hurl Hthreads Hput Hm Hdies.
  assert (Hlen : (length q_out < length (deref h l))%nat).
  { apply submseteq_length in Hput. unfold results_put in Hput.
    pose proof (omap_length_lt
                  (fun url => match ServerStatus.worker (probe url) url with
                              | Ok r => Some r
                              | Raise _ => None
                              end)
                  (map the_url (deref h l)) (the_url m)) as Hlt.
    rewrite length_map in Hlt. eapply Nat.le_lt_trans; [exact Hput|]. apply Hlt.
    - by apply (list_elem_of_fmap_2 the_url).
    - by destruct (ServerStatus.worker _ _). }
  unfold ServerStatus.rate. simpl.
  destruct (deref h l) as [|m0 items] eqn:E; [by apply elem_of_nil in Hm|].
  rewrite <- E in *.
  assert (exists n, (if Z.eqb threads 0 then ServerStatus.threads self else Some threads)
                    = Some n) as [n ->].
  { destruct (Z.eqb_spec threads 0) as [->|_]; [|by eexists].
    destruct Hthreads as [?|[n ->]]; [done | by eexists]. }
  rewrite (mapM_url_of (deref h l) Hurl).
  apply Nat.ltb_lt in Hlen. by rewrite Hlen.
Qed.

End WorkerDies.

Lemma demo_heap5_have_url : Forall has_url (deref demo_heap5 1%positive).
Proof. repeat constructor. by eexists. Qed.

Lemma rate_blocks_when_worker_raises_witness :
  (Forall has_url (deref demo_heap5 1%positive) /\
   (5%Z <> 0%Z \/ is_Some (ServerStatus.threads demo_self)) /\
   [] ⊆+ @results_put demo_urlparse demo_float (fun _ => demo_probe_instant)
           (map the_url (deref demo_heap5 1%positive)) /\
   rec_se ∈ deref demo_heap5 1%positive /\
   is_ok (@ServerStatus.worker demo_urlparse demo_float demo_probe_instant
            (the_url rec_se))
   = false) /\
  @ServerStatus.rate demo_strlib demo_re [] demo_self 5 demo_heap5 0
    (ServerStatus.PyList 1%positive)
  = ServerStatus.Blocks.
Proof.
  assert (Hthreads : 5%Z <> 0%Z \/ is_Some (ServerStatus.threads demo_self))
    by (left; discriminate).
  assert (Hput : [] ⊆+ @results_put demo_urlparse demo_float
                         (fun _ => demo_probe_instant)
                         (map the_url (deref demo_heap5 1%positive)))
    by apply submseteq_nil_l.
  assert (Hm : rec_se ∈ deref demo_heap5 1%positive) by apply list_elem_of_here.
  split; [split_and!; [exact demo_heap5_have_url | exact Hthreads | exact Hput
                      | exact Hm | reflexivity]|].
  exact (@rate_blocks_when_worker_raises demo_strlib demo_re demo_urlparse demo_float
           (fun _ => demo_probe_instant) [] demo_self 5 demo_heap5 0 1%positive rec_se
           demo_heap5_have_url Hthreads Hput Hm eq_refl).
Defined.

(** ** [process_options] *)

Lemma kept_fresh (h0 h : heap) (l : loc) :
  objects_kept h0 h -> h !! l = None -> h0 !! l = None.
Proof.
  intros Hk Hl. destruct (h0 !! l) eqn:E; [|done].
  rewrite <- (Hk l) in E by (by rewrite E). by rewrite Hl in E.
Qed.

Lemma kept_insert (h0 h : heap) (l : loc) (items : list record) :
  objects_kept h0 h -> h0 !! l = None -> objects_kept h0 (<[l := items]> h).
Proof.
  intros Hk Hl l0 Hl0. rewrite lookup_insert_ne; [by apply Hk|].
  intros <-. rewrite Hl in Hl0. by destruct Hl0.
Qed.

Lemma kept_alloc (h0 h : heap) (items : list record) :
  objects_kept h0 h ->
  objects_kept h0 (alloc h items).2 /\ h0 !! (alloc h items).1 = None.
Proof.
  intros Hk. pose proof (kept_fresh h0 h _ Hk (alloc_fresh h items)) as Hnew.
  split; [|done]. by apply kept_insert.
Qed.

Lemma outcome_bind_ext {A B : Type} (c : ServerStatus.outcome A)
    (k k' : A -> ServerStatus.outcome B) :
  (forall a, k a = k' a) -> outcome_bind c k = outcome_bind c k'.
Proof. intros Hk. destruct c; simpl; by rewrite ?Hk. Qed.

Section ProcessOptions.
Context `{Pycountry} `{ServerStatus.StrLib} `{ServerStatus.Re}.

Lemma sort_own_list (q_out : list (string * Q * ServerStatus.pyfloat))
    (ms : ServerStatus.t) (now : Q) (by_ : option string) (h0 h h1 : heap)
    (mirrors : ServerStatus.iterable) (l : loc) :
  own_list h0 mirrors h ->
  ServerStatus.sort q_out ms h now mirrors by_ = ServerStatus.Returns (l, h1) ->
  own_list h0 (ServerStatus.PyList l) h1.
Proof.
  intros [Hk Hown]. unfold ServerStatus.sort.
  destruct (ServerStatus.as_list h now mirrors) as [[l0 ha]|] eqn:Hal; [|discriminate].
  assert (Ha : objects_kept h0 ha /\ h0 !! l0 = None).
  { destruct mirrors as [l1|g]; simpl in Hal.
    - injection Hal as <- <-. split; [done|]. by apply Hown.
    - destruct (if ServerStatus.gen_finished g then _ else _) as [items [e|]];
        [discriminate|].
      injection Hal as <- <-. by apply kept_alloc. }
  destruct Ha as [Hka Hl0].
  assert (Hplace : forall reverse key,
            ServerStatus.sort_in_place reverse key l0 ha = ServerStatus.Returns (l, h1) ->
            own_list h0 (ServerStatus.PyList l) h1).
  { intros reverse key. unfold ServerStatus.sort_in_place.
    destruct (ServerStatus.sort_by_key _ _ _) as [items|]; simpl; [|discriminate].
    intros [= <- <-]. split; [by apply kept_insert|]. by intros l1 [= <-]. }
  assert (Hsame : ServerStatus.Returns (l0, ha) = ServerStatus.Returns (l, h1) ->
                  own_list h0 (ServerStatus.PyList l) h1).
  { intros [= <- <-]. split; [done|]. by intros l1 [= <-]. }
  destruct by_ as [key|]; [|exact Hsame].
  destruct (String.eqb key "age"); [apply Hplace|].
  destruct (String.eqb key "rate").
  { intros Hrate. apply rate_list_inv in Hrate as (Hkr & Hempty & Hnew).
    split; [by eapply objects_kept_trans|].
    intros l1 [= <-].
    destruct (deref ha l0) as [|m items] eqn:E.
    - by destruct (Hempty eq_refl) as [-> _].
    - destruct Hnew as (Hl & _); [done|]. by eapply kept_fresh. }
  destruct (bool_decide _); [apply Hplace | exact Hsame].
Qed.

Lemma sort_and_cut_own_list (q_out : list (string * Q * ServerStatus.pyfloat))
    (ms : ServerStatus.t) (now : Q) (key : string) (n : Z) (h0 h h1 : heap)
    (mirrors mirrors' : ServerStatus.iterable) :
  own_list h0 mirrors h ->
  sort_and_cut q_out ms now key n mirrors h = ServerStatus.Returns (mirrors', h1) ->
  own_list h0 mirrors' h1.
Proof.
  intros Hown. unfold sort_and_cut.
  destruct (ServerStatus.sort _ _ _ _ _ _) as [[l ha]| |] eqn:Hs; simpl; [|done..].
  apply (sort_own_list _ _ _ _ h0) in Hs as [Hk _]; [|done].
  destruct (kept_alloc h0 ha (slice_to n (deref ha l)) Hk) as [Hk' Hnew].
  unfold alloc in *. simpl in *.
  intros [= <- <-]. split; [done|]. by intros l1 [= <-].
Qed.

Lemma select_mirrors_own_list
    (q_fastest q_sort : list (string * Q * ServerStatus.pyfloat))
    (options : Options.t) (ms : ServerStatus.t) (now : Q) (h0 h h' : heap)
    (mirrors mirrors' : ServerStatus.iterable) :
  own_list h0 mirrors h ->
  select_mirrors q_fastest q_sort options ms now mirrors h
    = ServerStatus.Returns (mirrors', h') ->
  own_list h0 mirrors' h'.
Proof.
  intros Hown. unfold select_mirrors.
  assert (Hstep : forall (b : bool) q key n it ha r,
            own_list h0 it ha ->
            (if b then sort_and_cut q ms now key n it ha
             else ServerStatus.Returns (it, ha)) = ServerStatus.Returns r ->
            own_list h0 r.1 r.2).
  { intros b q key n it ha [it' hb] Hit. destruct b.
    - by apply sort_and_cut_own_list.
    - by intros [= <- <-]. }
  destruct (if positive_int (Options.latest options) then _ else _)
    as [[it1 h1]| |] eqn:E1; simpl; [|done..].
  apply Hstep in E1; [|done]. simpl in E1.
  destruct (if positive_int (Options.score options) then _ else _)
    as [[it2 h2]| |] eqn:E2; simpl; [|done..].
  apply Hstep in E2; [|done]. simpl in E2.
  destruct (if positive_int (Options.fastest options) then _ else _)
    as [[it3 h3]| |] eqn:E3; simpl; [|done..].
  apply Hstep in E3; [|done]. simpl in E3.
  destruct (if truthy_str (Options.sort options) && _ then _ else _)
    as [[it4 h4]| |] eqn:E4; simpl; [|done..].
  assert (Hown4 : own_list h0 it4 h4).
  { destruct (truthy_str (Options.sort options) && _).
    - destruct (ServerStatus.sort _ _ _ _ _ _) as [[l hb]| |] eqn:Hs; simpl in E4;
        [|done..].
      injection E4 as <- <-. by eapply sort_own_list.
    - by injection E4 as <- <-. }
  destruct (truthy_int (Options.number options)).
  - destruct (ServerStatus.read_all h4 now it4) as [items [e|]]; [done|].
    destruct Hown4 as [Hk4 _].
    destruct (kept_alloc h0 h4 (slice_to (default 0%Z (Options.number options)) items)
                Hk4) as [Hk' Hnew].
    unfold alloc in *. simpl in *.
    intros [= <- <-]. split; [done|]. by intros l1 [= <-].
  - by intros [= <- <-].
Qed.

Lemma get_mirrors_kept (env : retrieve_env) (now0 : Q) (self : ServerStatus.t)
    (h : heap) (l : loc) (w : ServerStatus.world) :
  ServerStatus.get_mirrors env now0 self h = (Ok l, w) ->
  objects_kept h (ServerStatus.w_heap w).
Proof.
  unfold ServerStatus.get_mirrors, ServerStatus.get_obj.
  destruct (negb _ || _).
  - destruct (ServerStatus.retrieve env self h) as [[[]|e] w'] eqn:Er; [|done].
    apply retrieve_ok_inv in Er as (s & Hs & _ & _ & Hkept).
    rewrite Hs. by intros [= <- <-].
  - destruct (ServerStatus.json_obj self) as [[|s]|]; [done| |done].
    intros [= <- <-]. apply objects_kept_refl.
Qed.

(** X22. [process_options] sorts and cuts only lists of its own making.
    When it returns, every list object that existed when it was called has
    kept its content and order, and so has every list object that existed
    when [get_mirrors] returned, the server list of the snapshot among
    them: with any options the snapshot is left in the order of the page. *)
Theorem process_options_keeps_lists (env : retrieve_env) (now0 now : Q)
    (q_fastest q_sort : list (string * Q * ServerStatus.pyfloat))
    (options : Options.t) (ms : option ServerStatus.t) (mirrors : option loc)
    (h h' : heap) (ms' : ServerStatus.t) (result : ServerStatus.iterable) :
  process_options env now0 now q_fastest q_sort options ms mirrors h
    = ServerStatus.Returns (ms', result, h') ->
  objects_kept h h' /\
  (mirrors = None ->
   objects_kept
     (ServerStatus.w_heap
        (ServerStatus.get_mirrors env now0
           (match ms with Some self => self | None => new_ms options end) h).2)
     h').
Proof.
  unfold process_options.
  set (ms0 := match ms with Some self => self | None => new_ms options end).
  destruct mirrors as [l|].
  - destruct (select_mirrors _ _ _ _ _ _ _) as [[it hb]| |] eqn:Es; simpl; [|done..].
    intros [= <- <- <-]. split; [|done].
    apply (select_mirrors_own_list _ _ _ _ _ h) in Es as [Hk _]; [done|].
    split; [apply objects_kept_refl | done].
  - destruct (ServerStatus.get_mirrors env now0 ms0 h) as [[l|e] [ms1 h1]] eqn:Eg;
      [|done].
    destruct (select_mirrors _ _ _ _ _ _ _) as [[it hb]| |] eqn:Es; simpl; [|done..].
    intros [= <- <- <-].
    apply (select_mirrors_own_list _ _ _ _ _ h1) in Es as [Hk _];
      [|split; [apply objects_kept_refl | done]].
    apply get_mirrors_kept in Eg. simpl in Eg.
    split; [by eapply objects_kept_trans | done].
Qed.

End ProcessOptions.

Lemma demo_process_by_country :
  @process_options demo_pycountry demo_strlib demo_re demo_env_fresh 1538740800
    1538740800 [] [] demo_by_country None None ∅
  = ServerStatus.Returns (demo_ms_fetched, ServerStatus.PyList 3%positive,
                          demo_heap2_sorted).
Proof. eval_eq. Qed.

Lemma process_options_keeps_lists_witness :
  @process_options demo_pycountry demo_strlib demo_re demo_env_fresh 1538740800
    1538740800 [] [] demo_by_country None None ∅
  = ServerStatus.Returns (demo_ms_fetched, ServerStatus.PyList 3%positive,
                          demo_heap2_sorted) /\
  objects_kept ∅ demo_heap2_sorted /\
  ((None : option loc) = None ->
   objects_kept
     (ServerStatus.w_heap
        (@ServerStatus.get_mirrors demo_pycountry demo_env_fresh 1538740800
           (match (None : option ServerStatus.t) with
            | Some self => self
            | None => new_ms demo_by_country
            end) ∅).2)
     demo_heap2_sorted).
Proof.
  split; [exact demo_process_by_country|].
  exact (@process_options_keeps_lists demo_pycountry demo_strlib demo_re demo_env_fresh
           1538740800 1538740800 [] [] demo_by_country None None ∅ demo_heap2_sorted
           demo_ms_fetched (ServerStatus.PyList 3%positive) demo_process_by_country).
Defined.

(** The snapshot list of the example is still in the order of the page. *)
Example process_by_country_keeps_snapshot :
  map the_url (deref demo_heap2_sorted 2%positive)
    = ["se-sto.pvdata.host"; "at-wie.pvdata.host"] /\
  map the_url (deref demo_heap2_sorted 3%positive)
    = ["at-wie.pvdata.host"; "se-sto.pvdata.host"].
Proof. split; reflexivity. Qed.

Section ProcessOptionsMore.
Context `{Pycountry} `{ServerStatus.StrLib} `{ServerStatus.Re}.

(** X23. With [--number n] and none of the sorting options, called with
    an object and a list: [process_options] returns a new list with the
    records that [filter] yields, cut by the slice [[:n]]: the first [n]
    of them when [n] is positive, and all but the last [-n] of them when
    [n] is negative. *)
Theorem process_options_number (env : retrieve_env) (now0 now : Q)
    (q_fastest q_sort : list (string * Q * ServerStatus.pyfloat))
    (options : Options.t) (self : ServerStatus.t) (l : loc) (h : heap)
    (items : list record) (n : Z) :
  positive_int (Options.latest options) = false ->
  positive_int (Options.score options) = false ->
  positive_int (Options.fastest options) = false ->
  truthy_str (Options.sort options) = false ->
  Options.number options = Some n ->
  n <> 0%Z ->
  ServerStatus.run now (criteria_of options) (deref h l) = (items, None) ->
  exists l' h',
    process_options env now0 now q_fastest q_sort options (Some self) (Some l) h
      = ServerStatus.Returns (self, ServerStatus.PyList l', h') /\
    h !! l' = None /\
    objects_kept h h' /\
    ((0 < n)%Z -> deref h' l' = take (Z.to_nat n) items) /\
    ((n < 0)%Z -> deref h' l' = take (length items - Z.to_nat (- n)) items).
Proof.
  intros Hlatest Hscore Hfastest Hsort Hnumber Hn Hrun.
  unfold process_options, select_mirrors.
  rewrite Hlatest, Hscore, Hfastest, Hsort, Hnumber. simpl.
  assert (Z.eqb n 0 = false) as -> by (by apply Z.eqb_neq). simpl.
  rewrite drop_0, Hrun.
  eexists _, _. split; [reflexivity|].
  split; [apply (alloc_fresh h (slice_to n items))|].
  split; [apply objects_kept_insert, (alloc_fresh h (slice_to n items))|].
  pose proof (deref_alloc h (slice_to n items)) as Hd. unfold alloc in Hd. simpl in Hd.
  rewrite Hd. unfold slice_to. split; intros Hs.
  - by assert (Z.leb 0 n = true) as -> by lia.
  - by assert (Z.leb 0 n = false) as -> by lia.
Qed.

Lemma sort_ignores_queue (q_out q_out' : list (string * Q * ServerStatus.pyfloat))
    (ms : ServerStatus.t) (h : heap) (now : Q) (mirrors : ServerStatus.iterable)
    (by_ : option string) :
  by_ <> Some "rate" ->
  ServerStatus.sort q_out ms h now mirrors by_
  = ServerStatus.sort q_out' ms h now mirrors by_.
Proof.
  intros Hby. unfold ServerStatus.sort.
  destruct (ServerStatus.as_list h now mirrors) as [[l h1]|]; [|done].
  destruct by_ as [key|]; [|done].
  destruct (String.eqb key "age"); [done|].
  by destruct (String.eqb_spec key "rate") as [->|_].
Qed.

(** X24. [process_options] rates the servers at most once.  The result
    queue of the step for [--fastest] plays a part only when [fastest] is
    positive, and that of the step for [--sort] only when [sort] is 'rate'
    and [fastest] is absent or 0; so with [--sort rate] and a negative
    [--fastest] no server is rated at all. *)
Theorem process_options_rates_once (env : retrieve_env) (now0 now : Q)
    (q_fastest q_sort q_fastest' q_sort' : list (string * Q * ServerStatus.pyfloat))
    (options : Options.t) (ms : option ServerStatus.t) (mirrors : option loc)
    (h : heap) :
  (positive_int (Options.fastest options) = false ->
   process_options env now0 now q_fastest q_sort options ms mirrors h
   = process_options env now0 now q_fastest' q_sort options ms mirrors h) /\
  (Options.sort options <> Some "rate" \/
   truthy_int (Options.fastest options) = true ->
   process_options env now0 now q_fastest q_sort options ms mirrors h
   = process_options env now0 now q_fastest q_sort' options ms mirrors h).
Proof.
  split.
  - intros Hf. unfold process_options, select_mirrors. by rewrite Hf.
  - intros Hs. unfold process_options.
    destruct (match mirrors with Some l => _ | None => _ end) as [[l|e] [ms1 h1]];
      [|done].
    f_equal. unfold select_mirrors.
    apply outcome_bind_ext. intros [it1 ha].
    apply outcome_bind_ext. intros [it2 hb].
    apply outcome_bind_ext. intros [it3 hc].
    f_equal.
    destruct (truthy_str (Options.sort options)); [|done]. simpl.
    destruct Hs as [Hs|Hs].
    + rewrite (sort_ignores_queue q_sort q_sort') by done. done.
    + rewrite Hs, andb_true_r.
      destruct (bool_decide (Options.sort options = Some "rate")) eqn:Eb; [done|].
      apply bool_decide_eq_false in Eb. simpl.
      by rewrite (sort_ignores_queue q_sort q_sort').
Qed.

End ProcessOptionsMore.

Lemma demo_run_all :
  @ServerStatus.run demo_strlib demo_re 0 (criteria_of demo_all_but_last)
    (deref demo_heap3 1%positive)
  = ([rec_se; rec_at; rec_de], None).
Proof. eval_eq. Qed.

Lemma process_options_number_witness :
  (positive_int (Options.latest demo_all_but_last) = false /\
   positive_int (Options.score demo_all_but_last) = false /\
   positive_int (Options.fastest demo_all_but_last) = false /\
   truthy_str (Options.sort demo_all_but_last) = false /\
   Options.number demo_all_but_last = Some (-1)%Z /\
   (-1)%Z <> 0%Z /\
   @ServerStatus.run demo_strlib demo_re 0 (criteria_of demo_all_but_last)
     (deref demo_heap3 1%positive)
   = ([rec_se; rec_at; rec_de], None)) /\
  exists l' h',
    @process_options demo_pycountry demo_strlib demo_re demo_env_fresh 0 0 [] []
      demo_all_but_last (Some demo_self_loaded) (Some 1%positive) demo_heap3
    = ServerStatus.Returns (demo_self_loaded, ServerStatus.PyList l', h') /\
    demo_heap3 !! l' = None /\
    objects_kept demo_heap3 h' /\
    ((0 < -1)%Z -> deref h' l' = take (Z.to_nat (-1)) [rec_se; rec_at; rec_de]) /\
    ((-1 < 0)%Z ->
     deref h' l'
     = take (length [rec_se; rec_at; rec_de] - Z.to_nat (- -1)) [rec_se; rec_at; rec_de]).
Proof.
  assert (Hn : (-1)%Z <> 0%Z) by discriminate.
  split; [split_and!; [reflexivity | reflexivity | reflexivity | reflexivity
                      | reflexivity | exact Hn | exact demo_run_all]|].
  exact (@process_options_number demo_pycountry demo_strlib demo_re demo_env_fresh 0 0
           [] [] demo_all_but_last demo_self_loaded 1%positive demo_heap3
           [rec_se; rec_at; rec_de] (-1)%Z eq_refl eq_refl eq_refl eq_refl eq_refl Hn
           demo_run_all).
Defined.

Lemma process_options_rates_once_witness :
  (positive_int (Options.fastest demo_fastest_negative) = false /\
   (Options.sort demo_fastest_negative <> Some "rate" \/
    truthy_int (Options.fastest demo_fastest_negative) = true)) /\
  @process_options demo_pycountry demo_strlib demo_re demo_env_fresh 0 0
    demo_q_out [] demo_fastest_negative None None ∅
  = @process_options demo_pycountry demo_strlib demo_re demo_env_fresh 0 0
      [] [] demo_fastest_negative None None ∅ /\
  @process_options demo_pycountry demo_strlib demo_re demo_env_fresh 0 0
    demo_q_out [] demo_fastest_negative None None ∅
  = @process_options demo_pycountry demo_strlib demo_re demo_env_fresh 0 0
      demo_q_out demo_q_out demo_fastest_negative None None ∅.
Proof.
  assert (Hs : Options.sort demo_fastest_negative <> Some "rate" \/
               truthy_int (Options.fastest demo_fastest_negative) = true)
    by (by right).
  split; [split; [reflexivity | exact Hs]|].
  split.
  - exact (proj1 (@process_options_rates_once demo_pycountry demo_strlib demo_re
                    demo_env_fresh 0 0 demo_q_out [] [] [] demo_fastest_negative
                    None None ∅) eq_refl).
  - exact (proj2 (@process_options_rates_once demo_pycountry demo_strlib demo_re
                    demo_env_fresh 0 0 demo_q_out [] demo_q_out demo_q_out
                    demo_fastest_negative None None ∅) Hs).
Defined.

(** ** [main] *)

Section MainProps.
Context `{Pycountry} `{ServerStatus.StrLib} `{ServerStatus.Re}
  `{ServerStatus.TimeLib} `{ServerStatus.Pipes}.

(** The first call of [get_mirrors] of a run that finds no cache and can
    write it. *)
Lemma get_mirrors_first_fetch (env : retrieve_env) (now0 : Q) (options : Options.t)
    (h h1 h2 : heap) (s1 s2 : snapshot) :
  cache_miss env (new_ms options) ->
  get_server_data (page1 env) (utcnow1 env) h = Ok (s1, h1) ->
  get_server_data (page2 env) (utcnow2 env) h1 = Ok (s2, h2) ->
  write_cache env (encode s1 h1) = None ->
  ServerStatus.get_mirrors env now0 (new_ms options) h
  = (Ok (servers s2), ServerStatus.World (ms_holding options s2 (time_fetch env)) h2).
Proof.
  intros Hmiss E1 E2 Ew.
  unfold ServerStatus.get_mirrors, ServerStatus.get_obj, ServerStatus.retrieve. simpl.
  rewrite retrieve_cache_miss by exact Hmiss.
  unfold ServerStatus.retrieve_fetch. simpl. rewrite E1, E2.
  unfold ServerStatus.retrieve_save. by rewrite Ew.
Qed.


Lemma concat_strings_app (l1 l2 : list string) :
  concat_strings (l1 ++ l2) = concat_strings l1 +:+ concat_strings l2.
Proof.
  induction l1 as [|s l1 IH]; [done|]. unfold concat_strings in *. simpl.
  by rewrite IH, append_assoc.
Qed.

Lemma entries_plain (country : option string) (items : list record) :
  Forall has_url items ->
  ServerStatus.entries false country items
  = Ok (concat_strings (map (fun m => server_line (the_url m)) items)).
Proof.
  induction 1 as [|m items [u Hu] _ IH]; [done|].
  cbn [ServerStatus.entries ServerStatus.country_tag]. simpl.
  rewrite (getitem_Some _ _ _ Hu). simpl. rewrite IH. simpl.
  unfold ServerStatus.MIRRORLIST_ENTRY, server_line, the_url. rewrite Hu. simpl.
  f_equal.
Qed.

(** X26. From the page to the list.  With no sorting, cutting, information
    or saving option and no criterion, when no cache is found, the page is
    fetched and the cache written, and the time of the fetch can be shown:
    [main] prints one text, the head followed by one line "Server = url"
    for each row of the page with exactly six cells, in the order of the
    page, where url is the text of the second cell of the row without its
    newlines and without the white space around what is left. *)
Theorem main_lists_page (env : retrieve_env) (senv : save_env)
    (now0 now now2 : Q) (q_fastest q_sort : list (string * Q * ServerStatus.pyfloat))
    (cmd : list string) (options : Options.t) (h h1 h2 : heap) (s1 s2 : snapshot)
    (table : html_table) (head : string) :
  plain_options options ->
  unrestricted (criteria_of options) ->
  cache_miss env (new_ms options) ->
  get_server_data (page1 env) (utcnow1 env) h = Ok (s1, h1) ->
  page2 env = Ok (Some table) ->
  get_server_data (page2 env) (utcnow2 env) h1 = Ok (s2, h2) ->
  write_cache env (encode s1 h1) = None ->
  ServerStatus.banner now2 (ms_holding options s2 (time_fetch env)) (Some cmd) = Ok head ->
  List.filter six_cells (trs table) <> [] ->
  exists urls : list string,
    Forall2 (fun (u : string) (tds : list string) =>
               stripped_of u (without_char newline (nth 1 tds "")))
            urls (List.filter six_cells (trs table)) /\
    main env senv now0 now now2 q_fastest q_sort cmd options h
    = Done [head +:+ concat_strings (map server_line urls)] None.
Proof.
  intros (Hlatest & Hscore & Hfastest & Hsort & Hnumber & Hinfo & Hsave)
    Hcrit Hmiss E1 Hpage E2 Ew Hhead Hrows.
  exists (map (fun tds => cell tds 1) (List.filter six_cells (trs table))).
  split.
  { apply Forall2_fmap_l, Forall_Forall2_diag, Forall_forall.
    intros tds _. apply cell_spec. }
  unfold main, process_options.
  rewrite (get_mirrors_first_fetch env now0 options h h1 h2 s1 s2 Hmiss E1 E2 Ew).
  unfold select_mirrors. rewrite Hlatest, Hscore, Hfastest, Hsort, Hnumber. simpl.
  rewrite drop_0, (run_unrestricted now _ _ Hcrit).
  pose proof (deref_alloc h2 (deref h2 (servers s2))) as Hd.
  destruct (alloc h2 (deref h2 (servers s2))) as [l3 h3]. simpl in Hd. rewrite Hd.
  pose proof (get_server_data_inv _ _ _ _ _ E2)
    as (table' & ths & data & Hp & _ & Hrowsd & _ & _ & Hdata & _).
  rewrite Hpage in Hp. injection Hp as <-.
  apply parse_rows_records in Hrowsd as (Hfetched & Hurls & _).
  rewrite Hdata in *.
  destruct data as [|m rest] eqn:Edata.
  { simpl in Hurls. by destruct (List.filter six_cells (trs table)). }
  rewrite <- Edata in *. rewrite Hinfo.
  unfold ServerStatus.get_mirrorlist. rewrite Hhead. simpl. rewrite Hd.
  assert (bool_decide (Options.sort options = Some "country") = false) as ->.
  { apply bool_decide_eq_false. intros Hs. by rewrite Hs in Hsort. }
  rewrite entries_plain.
  2:{ eapply Forall_impl; [exact Hfetched|]. apply fetched_has_url. }
  simpl. rewrite Edata at 1. rewrite Hsave.
  by rewrite <- (map_map the_url server_line), Hurls.
Qed.

End MainProps.

Lemma demo_cache_miss_options (options : Options.t) :
  Options.cache_timeout options = 300%Q ->
  cache_miss demo_env_write_fails (new_ms options) /\
  cache_miss demo_env_fresh (new_ms options).
Proof.
  intros Hc. split; (split; [simpl; by rewrite Hc|]); left;
    exists FileNotFoundError; by repeat split.
Qed.


Lemma demo_no_options_plain : plain_options demo_no_options.
Proof. by split_and!. Qed.

Lemma demo_no_options_unrestricted : unrestricted (criteria_of demo_no_options).
Proof. by split_and!. Qed.

Lemma demo_banner_no_args :
  @ServerStatus.banner demo_timelib demo_pipes 0
    (ms_holding demo_no_options (demo_snapshot 2) (time_fetch demo_env_fresh)) (Some [])
  = Ok demo_head_no_args.
Proof. vm_compute. reflexivity. Qed.

Lemma demo_table_rows : List.filter six_cells (trs demo_table) <> [].
Proof. discriminate. Qed.

Lemma main_lists_page_witness :
  (plain_options demo_no_options /\
   unrestricted (criteria_of demo_no_options) /\
   cache_miss demo_env_fresh (new_ms demo_no_options) /\
   @get_server_data demo_pycountry (page1 demo_env_fresh) (utcnow1 demo_env_fresh) ∅
     = Ok (demo_snapshot 1, demo_heap1) /\
   page2 demo_env_fresh = Ok (Some demo_table) /\
   @get_server_data demo_pycountry (page2 demo_env_fresh) (utcnow2 demo_env_fresh)
      demo_heap1 = Ok (demo_snapshot 2, demo_heap2) /\
   write_cache demo_env_fresh (encode (demo_snapshot 1) demo_heap1) = None /\
   @ServerStatus.banner demo_timelib demo_pipes 0
     (ms_holding demo_no_options (demo_snapshot 2) (time_fetch demo_env_fresh)) (Some [])
   = Ok demo_head_no_args /\
   List.filter six_cells (trs demo_table) <> []) /\
  exists urls : list string,
    Forall2 (fun (u : string) (tds : list string) =>
               stripped_of u (without_char newline (nth 1 tds "")))
            urls (List.filter six_cells (trs demo_table)) /\
    @main demo_pycountry demo_strlib demo_re demo_timelib demo_pipes
      demo_env_fresh demo_save_env 0 0 0 [] [] [] demo_no_options ∅
    = Done [demo_head_no_args +:+ concat_strings (map server_line urls)] None.
Proof.
  pose proof (proj2 (demo_cache_miss_options demo_no_options eq_refl)) as Hmiss.
  split; [split_and!; [exact demo_no_options_plain | exact demo_no_options_unrestricted
                      | exact Hmiss | exact demo_fetch1 | reflexivity | exact demo_fetch2
                      | reflexivity | exact demo_banner_no_args | exact demo_table_rows]|].
  exact (@main_lists_page demo_pycountry demo_strlib demo_re demo_timelib demo_pipes
           demo_env_fresh demo_save_env 0 0 0 [] [] [] demo_no_options ∅ demo_heap1
           demo_heap2 (demo_snapshot 1) (demo_snapshot 2) demo_table demo_head_no_args
           demo_no_options_plain demo_no_options_unrestricted Hmiss demo_fetch1 eq_refl
           demo_fetch2 eq_refl demo_banner_no_args demo_table_rows).
Defined.

(** The text that the run prints for the example page. *)
Example main_prints_two_servers :
  @main demo_pycountry demo_strlib demo_re demo_timelib demo_pipes
    demo_env_fresh demo_save_env 0 0 0 [] [] [] demo_no_options ∅
  = Done [demo_head_no_args +:+ "Server = se-sto.pvdata.host" +:+ ServerStatus.nl +:+
          "Server = at-wie.pvdata.host" +:+ ServerStatus.nl] None.
Proof. vm_compute. reflexivity. Qed.

Section MainEdges.
Context `{Pycountry} `{ServerStatus.StrLib} `{ServerStatus.Re}
  `{ServerStatus.TimeLib} `{ServerStatus.Pipes}.







(** X28. With [--latest n] for a positive [n], or with [--sort age] and no
    [--latest], [--score] or [--fastest], and no criterion: when no cache
    is found and the fetched page has at least one server, the [KeyError]
    for last_sync that [sort] raises (no record of [get_server_data] has
    the field) is not caught by [main]: it leaves [main] as it is, and
    nothing is printed. *)
Theorem main_sort_by_age_uncaught (env : retrieve_env) (senv : save_env)
    (now0 now now2 : Q) (q_fastest q_sort : list (string * Q * ServerStatus.pyfloat))
    (cmd : list string) (options : Options.t) (h h1 h2 : heap) (s1 s2 : snapshot) :
  positive_int (Options.latest options) = true \/
  (positive_int (Options.latest options) = false /\
   positive_int (Options.score options) = false /\
   positive_int (Options.fastest options) = false /\
   Options.sort options = Some "age") ->
  unrestricted (criteria_of options) ->
  cache_miss env (new_ms options) ->
  get_server_data (page1 env) (utcnow1 env) h = Ok (s1, h1) ->
  get_server_data (page2 env) (utcnow2 env) h1 = Ok (s2, h2) ->
  write_cache env (encode s1 h1) = None ->
  deref h2 (servers s2) <> [] ->
  main env senv now0 now now2 q_fastest q_sort cmd options h
  = Traceback [] (KeyError "last_sync").
Proof.
  intros Hopt Hcrit Hmiss E1 E2 Ew Hne.
  unfold main, process_options.
  rewrite (get_mirrors_first_fetch env now0 options h h1 h2 s1 s2 Hmiss E1 E2 Ew).
  pose proof (get_server_data_inv _ _ _ _ _ E2)
    as (table & ths & data & _ & _ & Hrowsd & _ & _ & Hdata & _).
  apply parse_rows_records in Hrowsd as (Hfetched & _ & _).
  rewrite <- Hdata in Hfetched.
  assert (Hsort : forall q,
            ServerStatus.sort q (ms_holding options s2 (time_fetch env)) h2 now
              (ServerStatus.PyGen (ServerStatus.filter (servers s2) (criteria_of options)))
              (Some "age")
            = ServerStatus.Raises (KeyError "last_sync")).
  { intros q. unfold ServerStatus.sort, ServerStatus.as_list. simpl.
    rewrite drop_0, (run_unrestricted now _ _ Hcrit).
    pose proof (deref_alloc h2 (deref h2 (servers s2))) as Hd.
    destruct (alloc h2 (deref h2 (servers s2))) as [l3 h3]. simpl in Hd.
    unfold ServerStatus.sort_in_place. rewrite Hd.
    destruct (deref h2 (servers s2)) as [|m items]; [done|].
    apply Forall_cons in Hfetched as [Hm _].
    rewrite (sort_by_key_missing true "last_sync" m items); [done|].
    apply (Hm "last_sync"). unfold server_fields.
    rewrite !not_elem_of_cons. split_and!; try done. apply not_elem_of_nil. }
  unfold select_mirrors.
  destruct Hopt as [Hlatest | (Hlatest & Hscore & Hfastest & Hs)].
  - rewrite Hlatest. unfold sort_and_cut. by rewrite Hsort.
  - rewrite Hlatest, Hscore, Hfastest, Hs. simpl. by rewrite Hsort.
Qed.

End MainEdges.





Lemma demo_latest_unrestricted : unrestricted (criteria_of demo_latest).
Proof. by split_and!. Qed.

Lemma main_sort_by_age_uncaught_witness :
  ((positive_int (Options.latest demo_latest) = true \/
    (positive_int (Options.latest demo_latest) = false /\
     positive_int (Options.score demo_latest) = false /\
     positive_int (Options.fastest demo_latest) = false /\
     Options.sort demo_latest = Some "age")) /\
   unrestricted (criteria_of demo_latest) /\
   cache_miss demo_env_fresh (new_ms demo_latest) /\
   @get_server_data demo_pycountry (page1 demo_env_fresh) (utcnow1 demo_env_fresh) ∅
     = Ok (demo_snapshot 1, demo_heap1) /\
   @get_server_data demo_pycountry (page2 demo_env_fresh) (utcnow2 demo_env_fresh)
      demo_heap1 = Ok (demo_snapshot 2, demo_heap2) /\
   write_cache demo_env_fresh (encode (demo_snapshot 1) demo_heap1) = None /\
   deref demo_heap2 (servers (demo_snapshot 2)) <> []) /\
  @main demo_pycountry demo_strlib demo_re demo_timelib demo_pipes
    demo_env_fresh demo_save_env 0 0 0 [] [] [] demo_latest ∅
  = Traceback [] (KeyError "last_sync").
Proof.
  pose proof (proj2 (demo_cache_miss_options demo_latest eq_refl)) as Hmiss.
  assert (Hne : deref demo_heap2 (servers (demo_snapshot 2)) <> []) by discriminate.
  split; [split_and!; [by left | exact demo_latest_unrestricted | exact Hmiss
                      | exact demo_fetch1 | exact demo_fetch2 | reflexivity
                      | exact Hne]|].
  exact (@main_sort_by_age_uncaught demo_pycountry demo_strlib demo_re demo_timelib
           demo_pipes demo_env_fresh demo_save_env 0 0 0 [] [] [] demo_latest ∅
           demo_heap1 demo_heap2 (demo_snapshot 1) (demo_snapshot 2)
           (or_introl eq_refl) demo_latest_unrestricted Hmiss demo_fetch1 demo_fetch2
           eq_refl Hne).
Defined.

(** ** [list_countries] *)

Lemma val_eqb_sym (a b : val) : val_eqb a b = val_eqb b a.
Proof.
  destruct a as [a|a], b as [b|b]; simpl; try done.
  - apply String.eqb_sym.
  - apply eq_true_iff_eq. rewrite !Qeq_bool_iff. split; intros Hq; lra.
Qed.

Lemma val_eqb_trans (a b c : val) :
  val_eqb a b = true -> val_eqb b c = true -> val_eqb a c = true.
Proof.
  destruct a as [a|a], b as [b|b], c as [c|c]; simpl; try done.
  - by intros ->%String.eqb_eq.
  - rewrite !Qeq_bool_iff. lra.
Qed.

Lemma key_eqb_sym (k k' : val * val) : key_eqb k k' = key_eqb k' k.
Proof. unfold key_eqb. by rewrite (val_eqb_sym k.1), (val_eqb_sym k.2). Qed.

Lemma key_eqb_trans (k1 k2 k3 : val * val) :
  key_eqb k1 k2 = true -> key_eqb k2 k3 = true -> key_eqb k1 k3 = true.
Proof.
  unfold key_eqb. intros [H1 H2]%andb_true_iff [H3 H4]%andb_true_iff.
  apply andb_true_iff. split; by eapply val_eqb_trans.
Qed.

(** Two keys that are equal agree on every third key. *)
Lemma key_eqb_class (k k' k0 : val * val) :
  key_eqb k k' = true -> key_eqb k k0 = key_eqb k' k0.
Proof.
  intros Hk. apply eq_true_iff_eq. split; intros Hk0.
  - eapply key_eqb_trans; [|exact Hk0]. by rewrite key_eqb_sym.
  - by eapply key_eqb_trans.
Qed.

Lemma count_up_sum (k : val * val) (countries : list (val * val * nat)) :
  sum_list (count_up k countries).*2 = S (sum_list countries.*2).
Proof.
  induction countries as [|[k' n] countries IH]; [done|]. cbn [count_up].
  destruct (key_eqb k k'); csimpl; [done|]. rewrite IH. lia.
Qed.

Lemma count_up_count_of (k k0 : val * val) (countries : list (val * val * nat)) :
  count_of k0 (count_up k countries)
  = (count_of k0 countries + if key_eqb k0 k then 1 else 0)%nat.
Proof.
  induction countries as [|[k' n] countries IH]; cbn [count_up count_of].
  - destruct (key_eqb k0 k); lia.
  - destruct (key_eqb k k') eqn:Ek; cbn [count_of].
    + rewrite (key_eqb_sym k0 k), (key_eqb_class k k' k0 Ek), (key_eqb_sym k' k0).
      destruct (key_eqb k0 k'); lia.
    + destruct (key_eqb k0 k') eqn:E0; [|exact IH].
      assert (key_eqb k0 k = false) as ->; [|lia].
      apply not_true_iff_false. intros E.
      rewrite (key_eqb_trans k k0 k') in Ek; [done | by rewrite key_eqb_sym | done].
Qed.

Lemma count_countries_spec (items : list record) (acc : list (val * val * nat)) :
  Forall has_country items ->
  exists countries,
    count_countries items acc = Ok countries /\
    sum_list countries.*2 = (sum_list acc.*2 + length items)%nat /\
    forall k, count_of k countries
              = (count_of k acc + length (List.filter (of_country k) items))%nat.
Proof.
  intros Hall. revert acc.
  induction Hall as [|m items [[c Hc] [cc Hcc]] _ IH]; intros acc.
  - exists acc. split; [done|]. split; [simpl; lia|]. intros k. simpl. lia.
  - cbn [count_countries].
    rewrite (getitem_Some _ _ _ Hc), (getitem_Some _ _ _ Hcc). simpl.
    destruct (IH (count_up (c, cc) acc)) as (countries & -> & Hsum & Hcount).
    exists countries. split; [done|]. split.
    + rewrite Hsum, count_up_sum. simpl. lia.
    + intros k. rewrite Hcount, count_up_count_of. cbn [List.filter].
      unfold of_country at 2. rewrite Hc, Hcc.
      destruct (key_eqb k (c, cc)); simpl; lia.
Qed.

(** X4. When [get_mirrors] returns a list whose records all have a country
    and a country code, [list_countries] returns a dictionary in which the
    number under each pair of country and code is the number of records of
    that pair, 0 standing for a pair that is no key; the numbers add up to
    the number of records.  The store is left as [get_mirrors] left it. *)
Theorem list_countries_counts `{Pycountry} (env : retrieve_env) (now : Q)
    (self : ServerStatus.t) (h : heap) (l : loc) (w : ServerStatus.world) :
  ServerStatus.get_mirrors env now self h = (Ok l, w) ->
  Forall has_country (deref (ServerStatus.w_heap w) l) ->
  exists countries,
    list_countries env now self h = (Ok countries, w) /\
    sum_list countries.*2 = length (deref (ServerStatus.w_heap w) l) /\
    forall k, count_of k countries
              = length (List.filter (of_country k) (deref (ServerStatus.w_heap w) l)).
Proof.
  intros Hget Hall. unfold list_countries. rewrite Hget.
  destruct (count_countries_spec _ [] Hall) as (countries & -> & Hsum & Hcount).
  exists countries. split; [done|]. split; [exact Hsum|]. intros k. by rewrite Hcount.
Qed.

(** A record without a country code ends the count with [KeyError]. *)
Example list_countries_missing_code :
  count_countries [rec_se; delete "country_code" rec_at] []
  = Raise (KeyError "country_code").
Proof. vm_compute. reflexivity. Qed.

Lemma list_countries_counts_witness :
  (@ServerStatus.get_mirrors demo_pycountry demo_env_fresh 1538740800 demo_self ∅ =
     (Ok 2%positive,
      ServerStatus.World
        (ServerStatus.set_json_mtime
           (ServerStatus.set_json_obj demo_self (Some (demo_snapshot 2))) 1538740800)
        demo_heap2) /\
   Forall has_country (deref demo_heap2 2%positive)) /\
  exists countries,
    @list_countries demo_pycountry demo_env_fresh 1538740800 demo_self ∅
    = (Ok countries,
       ServerStatus.World
         (ServerStatus.set_json_mtime
            (ServerStatus.set_json_obj demo_self (Some (demo_snapshot 2))) 1538740800)
         demo_heap2) /\
    sum_list countries.*2 = length (deref demo_heap2 2%positive) /\
    forall k, count_of k countries
              = length (List.filter (of_country k) (deref demo_heap2 2%positive)).
Proof.
  assert (Hall : Forall has_country (deref demo_heap2 2%positive))
    by (repeat constructor; by eexists).
  split; [split; [exact demo_get_mirrors_fresh | exact Hall]|].
  exact (@list_countries_counts demo_pycountry demo_env_fresh 1538740800 demo_self ∅
           2%positive _ demo_get_mirrors_fresh Hall).
Defined.

(** ** [print_mirror_info] *)

Lemma string_le_antisym (a b : string) :
  String.ltb b a = false -> String.ltb a b = false -> a = b.
Proof.
  unfold String.ltb. intros Hba Hab. apply String.compare_eq_iff.
  rewrite (String.compare_antisym a b) in Hab |- *.
  destruct (String.compare b a); simpl in *; done.
Qed.

Lemma string_lt_order :
  (forall x y : string, String.ltb y x = true -> String.ltb x y = false) /\
  (forall a b c : string,
     may_precede (fun y x => String.ltb y x) a b ->
     may_precede (fun y x => String.ltb y x) b c ->
     may_precede (fun y x => String.ltb y x) a c).
Proof.
  split; [intros x y; apply string_ltb_asym|].
  intros a b c. unfold may_precede. rewrite !string_ltb_false.
  intros Hab Hbc. by transitivity b.
Qed.

(** The keys of a record of [get_server_data] without the url, sorted. *)
Lemma info_keys_fetched (m : record) : fetched_record m -> info_keys m = info_fields.
Proof.
  intros Hm. unfold info_keys.
  set (keys := List.filter (fun k => negb (String.eqb k "url")) (map fst (map_to_list m))).
  assert (Hperm : keys ≡ₚ info_fields).
  { apply NoDup_Permutation.
    - unfold keys.
      apply NoDup_ListNoDup, List.NoDup_filter, NoDup_ListNoDup,
        (NoDup_fst_map_to_list m).
    - apply (bool_decide_unpack _). by vm_compute.
    - intros k. unfold keys. rewrite list_elem_of_In, filter_In, <- list_elem_of_In.
      rewrite (list_elem_of_fmap fst). rewrite negb_true_iff, String.eqb_neq.
      split.
      + intros [([k' v] & -> & Hkv%elem_of_map_to_list) Hne]. simpl in *.
        destruct (decide (k' ∈ server_fields)) as [Hin|Hout].
        * unfold server_fields in Hin. unfold info_fields.
          repeat (apply elem_of_cons in Hin as [->|Hin];
                  [first [done | rewrite !elem_of_cons; tauto]|]).
          by apply elem_of_nil in Hin.
        * rewrite (proj2 (Hm k') Hout) in Hkv. discriminate.
      + intros Hk. unfold info_fields in Hk.
        assert (Hin : k ∈ server_fields /\ k <> "url").
        { repeat (apply elem_of_cons in Hk as [->|Hk];
                  [split; [unfold server_fields; rewrite !elem_of_cons; tauto | done]|]).
          by apply elem_of_nil in Hk. }
        destruct Hin as [Hin Hne]. split; [|done].
        destruct (proj1 (Hm k) Hin) as [s Hs].
        exists (k, VStr s). split; [done|]. by apply elem_of_map_to_list. }
  destruct string_lt_order as [Hasym Htrans].
  apply (StronglySorted_unique_strong
           (may_precede (fun y x : string => String.ltb y x))).
  - intros a b _ _ Hab Hba. unfold may_precede in *. by apply string_le_antisym.
  - apply (stable_sort_sorted _ (fun _ => True));
      [intros x y _ _; apply Hasym | intros a b c _ _ _; apply Htrans
      | by apply Forall_true].
  - unfold info_fields, may_precede. repeat constructor.
  - by rewrite stable_sort_Permutation.
Qed.

Section MirrorInfo.
Context `{ServerStatus.StrLib} `{ServerStatus.TimeLib}.

Lemma info_lines_fetched (width : nat) (ks : list string) (m : record) :
  fetched_record m ->
  Forall (fun k => k ∈ server_fields) ks ->
  info_lines width ks m
  = (map (fun k => ServerStatus.ljust k width +:+ " : " +:+ field_text m k) ks, None).
Proof.
  intros Hm. induction 1 as [|k ks Hk _ IH]; [done|].
  cbn [info_lines]. destruct (proj1 (Hm k) Hk) as [s Hs].
  rewrite (getitem_Some _ _ _ Hs). simpl.
  assert (String.eqb k "last_sync" = false) as ->.
  { apply String.eqb_neq. intros ->. unfold server_fields in Hk.
    repeat (apply elem_of_cons in Hk as [Hk|Hk]; [discriminate|]).
    by apply elem_of_nil in Hk. }
  rewrite IH. unfold field_text. by rewrite Hs.
Qed.

Lemma info_records_fetched (mirrors : list record) :
  Forall fetched_record mirrors ->
  info_records 12 info_fields mirrors = (concat (map info_block mirrors), None).
Proof.
  induction 1 as [|m mirrors Hm _ IH]; [done|].
  cbn [info_records]. destruct (fetched_has_url m Hm) as [u Hu].
  rewrite (getitem_Some _ _ _ Hu), info_lines_fetched; [|done|].
  2:{ unfold info_fields, server_fields. repeat constructor;
        rewrite !elem_of_cons; tauto. }
  rewrite IH. simpl. unfold info_block, the_url. rewrite Hu. reflexivity.
Qed.

(** X29. For a list of records with the eight fields of [get_server_data],
    [print_mirror_info] raises nothing and prints, for each record in
    order, nine lines: the url, then the seven other fields in the order
    of their names (city, country, country_code, port_tap, port_tun,
    proxy_http, proxy_socks), each as the name padded to twelve characters,
    " : " and the value, and then an empty line. *)
Theorem print_mirror_info_fetched (mirrors : list record) :
  Forall fetched_record mirrors ->
  print_mirror_info mirrors = (concat (map info_block mirrors), None).
Proof.
  intros Hall. unfold print_mirror_info.
  destruct mirrors as [|m0 rest] eqn:E; [done|]. rewrite <- E in *.
  assert (Hm0 : fetched_record m0).
  { rewrite E in Hall. by apply Forall_cons in Hall as [? _]. }
  rewrite (info_keys_fetched m0 Hm0). cbn [info_fields].
  by apply info_records_fetched.
Qed.

End MirrorInfo.

Lemma print_mirror_info_fetched_witness :
  Forall fetched_record [rec_se; rec_at] /\
  @print_mirror_info demo_strlib demo_timelib [rec_se; rec_at]
  = (concat (map info_block [rec_se; rec_at]), None).
Proof.
  split; [exact demo_heap1_fetched|].
  exact (@print_mirror_info_fetched demo_strlib demo_timelib [rec_se; rec_at]
           demo_heap1_fetched).
Defined.

(** The nine lines of the first example server. *)
Example print_mirror_info_lines :
  info_block rec_se
  = ["se-sto.pvdata.host";
     "city         : Stockholm";
     "country      : Sweden";
     "country_code : SE";
     "port_tap     : 1194";
     "port_tun     : 1195";
     "proxy_http   : Yes";
     "proxy_socks  : Yes";
     EmptyString].
Proof. vm_compute. reflexivity. Qed.

(** ** [get_mirrorlist] without a usable snapshot *)

Section MirrorlistErrors.
Context `{ServerStatus.StrLib} `{ServerStatus.Re} `{ServerStatus.TimeLib}
  `{ServerStatus.Pipes}.

(** X30. [get_mirrorlist] reads the time of the last check from
    [self.json_obj] before it looks at the mirrors, also when the caller
    gives the list of mirrors.  On a new object, whose [json_obj] is the
    empty dict of [__init__], it raises [KeyError] for the key
    'last_check'; on an object whose [json_obj] is [None], as [retrieve]
    leaves it when it fails, it raises [TypeError]; and when the time of
    the last check of the snapshot has neither of the two time formats, it
    raises what the second parse raises. *)
Theorem get_mirrorlist_needs_snapshot (now : Q) (self : ServerStatus.t) (h : heap)
    (mirrors : ServerStatus.iterable) (include_country : bool)
    (cmd : option (list string)) :
  (ServerStatus.json_obj self = Some EmptyDict ->
   ServerStatus.get_mirrorlist now self h mirrors include_country cmd
   = Raise (KeyError "last_check")) /\
  (ServerStatus.json_obj self = None ->
   ServerStatus.get_mirrorlist now self h mirrors include_country cmd
   = Raise TypeError) /\
  (forall (s : snapshot) (e : exn),
     ServerStatus.json_obj self = Some s ->
     ServerStatus.strptime (last_check s) ServerStatus.PARSE_TIME_FORMAT_WITH_USEC
       = Raise ValueError ->
     ServerStatus.strptime (last_check s) ServerStatus.PARSE_TIME_FORMAT = Raise e ->
     ServerStatus.get_mirrorlist now self h mirrors include_country cmd = Raise e).
Proof.
  split; [|split].
  - intros Hnew. unfold ServerStatus.get_mirrorlist, ServerStatus.banner.
    by rewrite Hnew.
  - intros Hnone. unfold ServerStatus.get_mirrorlist, ServerStatus.banner.
    by rewrite Hnone.
  - intros s e Hs Husec Hplain.
    unfold ServerStatus.get_mirrorlist, ServerStatus.banner.
    rewrite Hs. simpl. rewrite Husec. simpl. by rewrite Hplain.
Qed.

End MirrorlistErrors.

Lemma get_mirrorlist_needs_snapshot_witness :
  (ServerStatus.json_obj demo_self = Some EmptyDict /\
   ServerStatus.json_obj (ServerStatus.set_json_obj demo_self None) = None /\
   ServerStatus.json_obj demo_self_whole_second
     = Some {| title := "PrivateVPN Server list"; version := 1; headers := [];
               last_check := "2018-10-05 12:00:00"; total := 3;
               servers := 1%positive |} /\
   @ServerStatus.strptime demo_timelib "2018-10-05 12:00:00"
      ServerStatus.PARSE_TIME_FORMAT_WITH_USEC = Raise ValueError /\
   @ServerStatus.strptime demo_timelib "2018-10-05 12:00:00"
      ServerStatus.PARSE_TIME_FORMAT = Raise ValueError) /\
  @ServerStatus.get_mirrorlist demo_strlib demo_re demo_timelib demo_pipes 0
    demo_self demo_heap1
    (ServerStatus.PyList 1%positive) false None
  = Raise (KeyError "last_check") /\
  @ServerStatus.get_mirrorlist demo_strlib demo_re demo_timelib demo_pipes 0
    (ServerStatus.set_json_obj demo_self None) demo_heap1
    (ServerStatus.PyList 1%positive) false None
  = Raise TypeError /\
  @ServerStatus.get_mirrorlist demo_strlib demo_re demo_timelib demo_pipes 0
    demo_self_whole_second demo_heap1 (ServerStatus.PyList 1%positive) false None
  = Raise ValueError.
Proof.
  split; [by split_and!|]. split_and!.
  - exact (proj1 (@get_mirrorlist_needs_snapshot demo_strlib demo_re demo_timelib
                    demo_pipes 0 demo_self
                    demo_heap1 (ServerStatus.PyList 1%positive) false None) eq_refl).
  - exact (proj1 (proj2 (@get_mirrorlist_needs_snapshot demo_strlib demo_re
                           demo_timelib demo_pipes 0
                           (ServerStatus.set_json_obj demo_self None) demo_heap1
                           (ServerStatus.PyList 1%positive) false None)) eq_refl).
  - exact (proj2 (proj2 (@get_mirrorlist_needs_snapshot demo_strlib demo_re
                           demo_timelib demo_pipes 0 demo_self_whole_second demo_heap1
                           (ServerStatus.PyList 1%positive) false None))
             _ ValueError eq_refl eq_refl eq_refl).
Defined.
